(** * FramelessWidgetsHelper: a shallow embedding of
      [src/widgets/framelesswidgetshelper.cpp]

    The development follows the C++ translation unit top-down:

    - [Qt]       the small part of QtCore/QtGui the file computes with
                 (QPoint, QSize, QRect, QRegion);
    - [Widgets]  the widget store: every live QWidget with the attributes
                 the helper reads or writes, and QPointer weak references;
    - [Helper]   FramelessWidgetsHelperPrivate: its fields, the process-wide
                 table [g_framelessWidgetsHelperData], the trace of calls that
                 leave the translation unit, and every member function the
                 properties below talk about, in a state monad;
    - the properties themselves.

    C++ [int] coordinates are modelled by [Z]: signed overflow is undefined
    in C++, so the embedding describes the executions in which the geometry
    arithmetic stays in range.  [Q_ASSERT] is a no-op in release builds and
    is not modelled: the explicit [if] that follows each assertion is. *)

From stdpp Require Import gmap strings list.

Local Open Scope Z_scope.

(** ** Qt value types *)

Module Qt.

Record QPoint := mkPoint { px : Z; py : Z }.
Record QSize := mkSize { wd : Z; ht : Z }.

(** QRect stores its two corners, as Qt does: [x2 = x1 + w - 1]. *)
Record QRect := mkRect { x1 : Z; y1 : Z; x2 : Z; y2 : Z }.

#[global] Instance QPoint_eq_dec : EqDecision QPoint.
Proof. solve_decision. Defined.
#[global] Instance QSize_eq_dec : EqDecision QSize.
Proof. solve_decision. Defined.
#[global] Instance QRect_eq_dec : EqDecision QRect.
Proof. solve_decision. Defined.

Definition QPoint_add (a b : QPoint) : QPoint := mkPoint (px a + px b) (py a + py b).
Definition QPoint_sub (a b : QPoint) : QPoint := mkPoint (px a - px b) (py a - py b).

(** [QSize::isEmpty]: either dimension is less than one. *)
Definition QSize_isEmpty (s : QSize) : bool := (wd s <? 1) || (ht s <? 1).

Record QMargins := mkMargins { m_left : Z; m_top : Z; m_right : Z; m_bottom : Z }.

Definition QSize_grownBy (s : QSize) (m : QMargins) : QSize :=
  mkSize (wd s + m_left m + m_right m) (ht s + m_top m + m_bottom m).
Definition QSize_shrunkBy (s : QSize) (m : QMargins) : QSize :=
  mkSize (wd s - m_left m - m_right m) (ht s - m_top m - m_bottom m).

(** [QRect(const QPoint &topLeft, const QSize &size)]. *)
Definition QRect_of (p : QPoint) (s : QSize) : QRect :=
  mkRect (px p) (py p) (px p + wd s - 1) (py p + ht s - 1).

(** [QRect(int x, int y, int w, int h)]. *)
Definition QRect_xywh (x y w h : Z) : QRect := QRect_of (mkPoint x y) (mkSize w h).

Definition QRect_isNull (r : QRect) : bool := (x2 r =? x1 r - 1) && (y2 r =? y1 r - 1).
Definition QRect_isEmpty (r : QRect) : bool := (x2 r <? x1 r) || (y2 r <? y1 r).
Definition QRect_isValid (r : QRect) : bool := (x1 r <=? x2 r) && (y1 r <=? y2 r).

(** [QRect::contains(const QPoint &, bool proper = false)]: a rectangle whose
    width is negative is read with its horizontal edges swapped, likewise
    vertically. *)
Definition QRect_contains (r : QRect) (p : QPoint) : bool :=
  let '(l, rr) := if x2 r <? x1 r - 1 then (x2 r, x1 r) else (x1 r, x2 r) in
  if (px p <? l) || (rr <? px p) then false
  else
    let '(t, b) := if y2 r <? y1 r - 1 then (y2 r, y1 r) else (y1 r, y2 r) in
    if (py p <? t) || (b <? py p) then false else true.

(** [QRect::intersects]. *)
Definition QRect_intersects (a b : QRect) : bool :=
  if QRect_isNull a || QRect_isNull b then false
  else
    let '(l1, r1) := if x2 a - x1 a + 1 <? 0 then (x2 a, x1 a) else (x1 a, x2 a) in
    let '(l2, r2) := if x2 b - x1 b + 1 <? 0 then (x2 b, x1 b) else (x1 b, x2 b) in
    if (r2 <? l1) || (r1 <? l2) then false
    else
      let '(t1, b1) := if y2 a - y1 a + 1 <? 0 then (y2 a, y1 a) else (y1 a, y2 a) in
      let '(t2, b2) := if y2 b - y1 b + 1 <? 0 then (y2 b, y1 b) else (y1 b, y2 b) in
      if (b2 <? t1) || (b1 <? t2) then false else true.

(** *** QRegion

    A region is a finite union of non-empty rectangles.  The three operations
    the helper uses are the conversion from a rectangle (an empty rectangle
    gives the empty region), subtraction, and the point query. *)

Definition QRegion := list QRect.

Definition QRegion_of (r : QRect) : QRegion := if QRect_isEmpty r then [] else [r].

(** What is left of the non-empty rectangle [r] once [s] is cut out of it:
    the band above [s], the band below it, and the pieces to the left and to
    the right of [s] in between. *)
Definition QRect_minus (r s : QRect) : list QRect :=
  if (x2 s <? x1 r) || (x2 r <? x1 s) || (y2 s <? y1 r) || (y2 r <? y1 s) then [r]
  else
    let top := Z.max (y1 r) (y1 s) in
    let bot := Z.min (y2 r) (y2 s) in
    List.filter (fun q => negb (QRect_isEmpty q))
      [ mkRect (x1 r) (y1 r) (x2 r) (y1 s - 1);
        mkRect (x1 r) (y2 s + 1) (x2 r) (y2 r);
        mkRect (x1 r) top (x1 s - 1) bot;
        mkRect (x2 s + 1) top (x2 r) bot ].

Definition QRegion_minus_rect (R : QRegion) (s : QRect) : QRegion :=
  flat_map (fun r => QRect_minus r s) R.

(** [QRegion::operator-=]. *)
Definition QRegion_subtracted (R S : QRegion) : QRegion :=
  fold_left QRegion_minus_rect S R.

(** [QRegion::contains(const QPoint &)]. *)
Definition QRegion_contains (R : QRegion) (p : QPoint) : bool :=
  existsb (fun r => QRect_contains r p) R.

(** Mathematical membership of a point in a rectangle given by its corners. *)
Definition in_rect (r : QRect) (p : QPoint) : Prop :=
  x1 r <= px p <= x2 r /\ y1 r <= py p <= y2 r.

(** The points of a region, and its representation invariant. *)
Definition covers (R : QRegion) (p : QPoint) : Prop := exists r, In r R /\ in_rect r p.
Definition proper (R : QRegion) : Prop := forall r, In r R -> QRect_isEmpty r = false.

End Qt.
Export Qt.

(** ** The widget store *)

Module Widgets.

(** Object identity (the address of a QWidget) and native window handle. *)
Definition WidgetId := positive.
Definition HelperId := positive.
Definition WId := N.

(** [Qt::WindowState] bits. *)
Definition WindowNoState : Z := 0.
Definition WindowMinimized : Z := 1.
Definition WindowMaximized : Z := 2.
Definition WindowFullScreen : Z := 4.
Definition WindowActive : Z := 8.

(** [Qt::WindowType] bit tested by [isWidgetFixedSize]. *)
Definition MSWindowsFixedSizeDialogHint : Z := 256.

(** [QFlags::operator&] followed by the conversion to [bool]. *)
Definition testFlags (flags mask : Z) : bool := negb (Z.land flags mask =? 0).

Inductive Policy := Fixed | Minimum | Maximum | Preferred | MinimumExpanding | Expanding | Ignored.

#[global] Instance Policy_eq_dec : EqDecision Policy.
Proof. solve_decision. Defined.

Record QSizePolicy := mkPolicy { horizontalPolicy : Policy; verticalPolicy : Policy }.

(** [QVariant]: [None] is the invalid (default-constructed) variant. *)
Inductive QVariantValue := VBool (b : bool) | VInt (z : Z) | VString (s : string).
Definition QVariant := option QVariantValue.
Definition QVariant_isValid (v : QVariant) : bool := bool_decide (is_Some v).

(** The attributes of a QWidget this translation unit reads or writes. *)
Record QWidget := mkWidget {
  parentWidget : option WidgetId;
  isWindow : bool;
  winId : WId;
  pos : QPoint;
  size : QSize;
  isVisible : bool;
  isEnabled : bool;
  windowFlags : Z;
  windowState : Z;
  minimumSize : QSize;
  maximumSize : QSize;
  sizePolicy : QSizePolicy;
  WA_DontCreateNativeAncestors : bool;
  WA_NativeWindow : bool;
  WA_Hover : bool;
  underMouse : bool;
  hasWindowHandle : bool;
  (** dynamic properties, [QObject::property] *)
  properties : gmap string QVariant;
  (** [findChildren<FramelessWidgetsHelper *>()] *)
  helperInstances : list HelperId
}.

(** [QWidget::geometry()], relative to the parent. *)
Definition geometry (w : QWidget) : QRect := QRect_of (pos w) (size w).
Definition width (w : QWidget) : Z := wd (size w).

Definition set_size (sz : QSize) (w : QWidget) : QWidget :=
  mkWidget (parentWidget w) (isWindow w) (winId w) (pos w) sz (isVisible w) (isEnabled w)
    (windowFlags w) (windowState w) (minimumSize w) (maximumSize w) (sizePolicy w)
    (WA_DontCreateNativeAncestors w) (WA_NativeWindow w) (WA_Hover w) (underMouse w)
    (hasWindowHandle w) (properties w) (helperInstances w).

Definition set_pos (p : QPoint) (w : QWidget) : QWidget :=
  mkWidget (parentWidget w) (isWindow w) (winId w) p (size w) (isVisible w) (isEnabled w)
    (windowFlags w) (windowState w) (minimumSize w) (maximumSize w) (sizePolicy w)
    (WA_DontCreateNativeAncestors w) (WA_NativeWindow w) (WA_Hover w) (underMouse w)
    (hasWindowHandle w) (properties w) (helperInstances w).

Definition set_WA_DontCreateNativeAncestors (w : QWidget) : QWidget :=
  mkWidget (parentWidget w) (isWindow w) (winId w) (pos w) (size w) (isVisible w) (isEnabled w)
    (windowFlags w) (windowState w) (minimumSize w) (maximumSize w) (sizePolicy w)
    true (WA_NativeWindow w) (WA_Hover w) (underMouse w)
    (hasWindowHandle w) (properties w) (helperInstances w).

Definition set_WA_NativeWindow (w : QWidget) : QWidget :=
  mkWidget (parentWidget w) (isWindow w) (winId w) (pos w) (size w) (isVisible w) (isEnabled w)
    (windowFlags w) (windowState w) (minimumSize w) (maximumSize w) (sizePolicy w)
    (WA_DontCreateNativeAncestors w) true (WA_Hover w) (underMouse w)
    (hasWindowHandle w) (properties w) (helperInstances w).

Definition set_property (name : string) (v : QVariant) (w : QWidget) : QWidget :=
  mkWidget (parentWidget w) (isWindow w) (winId w) (pos w) (size w) (isVisible w) (isEnabled w)
    (windowFlags w) (windowState w) (minimumSize w) (maximumSize w) (sizePolicy w)
    (WA_DontCreateNativeAncestors w) (WA_NativeWindow w) (WA_Hover w) (underMouse w)
    (hasWindowHandle w) (<[name := v]> (properties w)) (helperInstances w).

(** The live widgets of the process, by identity. *)
Abbreviation Store := (gmap WidgetId QWidget).

(** [QPointer<QWidget>]: a weak reference.  It reads as null once the widget
    it names has left the store. *)
Definition QPointer := option WidgetId.

Definition QPointer_data (ws : Store) (p : QPointer) : option WidgetId :=
  match p with
  | Some i => match ws !! i with Some _ => Some i | None => None end
  | None => None
  end.

Definition deref (ws : Store) (p : QPointer) : option QWidget :=
  match p with
  | Some i => ws !! i
  | None => None
  end.

(** [QWidget::window()]: climb while the widget is not a window and has a
    parent.  A parent chain is never longer than the store. *)
Fixpoint window_from (ws : Store) (fuel : nat) (i : WidgetId) : WidgetId :=
  match fuel with
  | O => i
  | S fuel' =>
      match ws !! i with
      | Some w =>
          if isWindow w then i
          else match QPointer_data ws (parentWidget w) with
               | Some p => window_from ws fuel' p
               | None => i
               end
      | None => i
      end
  end.

Definition window (ws : Store) (i : WidgetId) : WidgetId :=
  window_from ws (base.size ws) i.

(** [QWidget::mapTo(parent, pos)]: add the positions of the widgets on the
    way up to [target]. *)
Fixpoint mapTo_from (ws : Store) (fuel : nat) (i target : WidgetId) (p : QPoint) : QPoint :=
  match fuel with
  | O => p
  | S fuel' =>
      if decide (i = target) then p
      else match ws !! i with
           | Some w =>
               let p' := QPoint_add p (pos w) in
               match parentWidget w with
               | Some q => mapTo_from ws fuel' q target p'
               | None => p'
               end
           | None => p
           end
  end.

Definition mapTo (ws : Store) (i target : WidgetId) (p : QPoint) : QPoint :=
  mapTo_from ws (S (base.size ws)) i target p.

(** [QWidget::mapToGlobal]: the same walk, up to and including the top-level
    window, whose position is a screen position. *)
Fixpoint mapToGlobal_from (ws : Store) (fuel : nat) (i : WidgetId) (p : QPoint) : QPoint :=
  match fuel with
  | O => p
  | S fuel' =>
      match ws !! i with
      | Some w =>
          let p' := QPoint_add p (pos w) in
          if isWindow w then p'
          else match parentWidget w with
               | Some q => mapToGlobal_from ws fuel' q p'
               | None => p'
               end
      | None => p
      end
  end.

Definition mapToGlobal (ws : Store) (i : WidgetId) (p : QPoint) : QPoint :=
  mapToGlobal_from ws (S (base.size ws)) i p.

Definition mapFromGlobal (ws : Store) (i : WidgetId) (g : QPoint) : QPoint :=
  QPoint_sub g (mapToGlobal ws i (mkPoint 0 0)).

(** [QWidget::resize]: the requested size is bounded by the minimum and the
    maximum size of the widget. *)
Definition boundedSize (w : QWidget) (s : QSize) : QSize :=
  mkSize (Z.max (wd (minimumSize w)) (Z.min (wd s) (wd (maximumSize w))))
         (Z.max (ht (minimumSize w)) (Z.min (ht s) (ht (maximumSize w)))).

End Widgets.
Export Widgets.

(** ** FramelessWidgetsHelperPrivate *)

Module Helper.

(** [Global::SystemButtonType] and [Global::ButtonState]. *)
Inductive SystemButtonType := Unknown | WindowIcon | Help | Minimize | Maximize | Restore | Close.
Inductive ButtonState := Normal | Hovered | Pressed | Released.

#[global] Instance SystemButtonType_eq_dec : EqDecision SystemButtonType.
Proof. solve_decision. Defined.

(** [SystemParameters] is a struct of [std::function]s.  Every closure that
    [attach] stores captures [window], [this], or both, so a populated table
    is determined by that pair; the default-constructed table holds empty
    functions. *)
Record Closures := mkClosures { captured_window : WidgetId; captured_this : HelperId }.
Definition SystemParameters := option Closures.

#[global] Instance Closures_eq_dec : EqDecision Closures.
Proof. solve_decision. Defined.

Record FramelessWidgetsHelperData := mkData {
  ready : bool;
  params : SystemParameters;
  titleBarWidget : QPointer;
  hitTestVisibleWidgets : list QPointer;
  windowIconButton : QPointer;
  contextHelpButton : QPointer;
  minimizeButton : QPointer;
  maximizeButton : QPointer;
  closeButton : QPointer;
  hitTestVisibleRects : list QRect
}.

(** The value of [FramelessWidgetsHelperData{}]. *)
Definition defaultData : FramelessWidgetsHelperData :=
  mkData false None None [] None None None None None [].

Definition set_ready (b : bool) (d : FramelessWidgetsHelperData) :=
  mkData b (params d) (titleBarWidget d) (hitTestVisibleWidgets d) (windowIconButton d)
    (contextHelpButton d) (minimizeButton d) (maximizeButton d) (closeButton d)
    (hitTestVisibleRects d).
Definition set_params (p : SystemParameters) (d : FramelessWidgetsHelperData) :=
  mkData (ready d) p (titleBarWidget d) (hitTestVisibleWidgets d) (windowIconButton d)
    (contextHelpButton d) (minimizeButton d) (maximizeButton d) (closeButton d)
    (hitTestVisibleRects d).
Definition set_titleBarWidget (w : QPointer) (d : FramelessWidgetsHelperData) :=
  mkData (ready d) (params d) w (hitTestVisibleWidgets d) (windowIconButton d)
    (contextHelpButton d) (minimizeButton d) (maximizeButton d) (closeButton d)
    (hitTestVisibleRects d).
Definition set_hitTestVisibleWidgets (l : list QPointer) (d : FramelessWidgetsHelperData) :=
  mkData (ready d) (params d) (titleBarWidget d) l (windowIconButton d)
    (contextHelpButton d) (minimizeButton d) (maximizeButton d) (closeButton d)
    (hitTestVisibleRects d).
Definition set_hitTestVisibleRects (l : list QRect) (d : FramelessWidgetsHelperData) :=
  mkData (ready d) (params d) (titleBarWidget d) (hitTestVisibleWidgets d) (windowIconButton d)
    (contextHelpButton d) (minimizeButton d) (maximizeButton d) (closeButton d) l.
Definition set_windowIconButton (w : QPointer) (d : FramelessWidgetsHelperData) :=
  mkData (ready d) (params d) (titleBarWidget d) (hitTestVisibleWidgets d) w
    (contextHelpButton d) (minimizeButton d) (maximizeButton d) (closeButton d)
    (hitTestVisibleRects d).
Definition set_contextHelpButton (w : QPointer) (d : FramelessWidgetsHelperData) :=
  mkData (ready d) (params d) (titleBarWidget d) (hitTestVisibleWidgets d) (windowIconButton d)
    w (minimizeButton d) (maximizeButton d) (closeButton d) (hitTestVisibleRects d).
Definition set_minimizeButton (w : QPointer) (d : FramelessWidgetsHelperData) :=
  mkData (ready d) (params d) (titleBarWidget d) (hitTestVisibleWidgets d) (windowIconButton d)
    (contextHelpButton d) w (maximizeButton d) (closeButton d) (hitTestVisibleRects d).
Definition set_maximizeButton (w : QPointer) (d : FramelessWidgetsHelperData) :=
  mkData (ready d) (params d) (titleBarWidget d) (hitTestVisibleWidgets d) (windowIconButton d)
    (contextHelpButton d) (minimizeButton d) w (closeButton d) (hitTestVisibleRects d).
Definition set_closeButton (w : QPointer) (d : FramelessWidgetsHelperData) :=
  mkData (ready d) (params d) (titleBarWidget d) (hitTestVisibleWidgets d) (windowIconButton d)
    (contextHelpButton d) (minimizeButton d) (maximizeButton d) w (hitTestVisibleRects d).

(** The parent of the public object: a widget, or some other QObject. *)
Inductive QObjectRef := AWidget (w : WidgetId) | AnObject.

(** The body of the lambda [attach] hands to [QTimer::singleShot]. *)
Inductive Callback := AttachSettled (this : HelperId).

(** Calls that leave the translation unit, in program order. *)
Inductive Effect :=
  (** [FramelessManager::instance()->addWindow(&params)]; the registry keys
      the entry by [params->getWindowId()], recorded alongside *)
| addWindow (id : WId) (p : Closures)
| removeWindow (id : WId)
  (** [QMetaObject::invokeMethod(instance, signal)] *)
| invokeMethod (instance : HelperId) (signal : string)
| singleShot (msec : N) (cb : Callback)
  (** [widget->update()], [widget->resize(s)], [widget->move(p)] *)
| Update (w : WidgetId)
| Resize (w : WidgetId) (s : QSize)
| Move (w : WidgetId) (p : QPoint)
| updateInternalWindowFrameMargins (w : WidgetId)
  (** [Utils::emulateQtMouseEvent(btn, window->windowHandle(), state,
      globalPos, scenePos, localPos, underMouse, hoverEnabled)] *)
| emulateQtMouseEvent (btn : WidgetId) (window : WidgetId) (state : ButtonState)
    (globalPos scenePos localPos : QPoint) (underMouse hoverEnabled : bool).

Record State := mkState {
  (** the live widgets *)
  widgets : Store;
  (** [Q_GLOBAL_STATIC(FramelessWidgetsHelperInternal, g_framelessWidgetsHelperData)] *)
  g_framelessWidgetsHelperData : gmap WId FramelessWidgetsHelperData;
  (** [this] and [q->parent()] *)
  this : HelperId;
  q_parent : option QObjectRef;
  (** the fields of FramelessWidgetsHelperPrivate; the private header
      declares [m_window] as a [QPointer<QWidget>] *)
  m_window : QPointer;
  m_destroying : bool;
  m_qpaReady : bool;
  m_qpaWaitTime : N;
  (** the build and its surroundings: [Q_OS_WINDOWS],
      [Utils::isWindowFrameBorderVisible()], [QCursor::pos()] *)
  Q_OS_WINDOWS : bool;
  isWindowFrameBorderVisible : bool;
  cursorPos : QPoint;
  trace : list Effect
}.

Definition with_widgets (ws : Store) (s : State) : State :=
  mkState ws (g_framelessWidgetsHelperData s) (this s) (q_parent s) (m_window s)
    (m_destroying s) (m_qpaReady s) (m_qpaWaitTime s) (Q_OS_WINDOWS s)
    (isWindowFrameBorderVisible s) (cursorPos s) (trace s).
Definition with_data (t : gmap WId FramelessWidgetsHelperData) (s : State) : State :=
  mkState (widgets s) t (this s) (q_parent s) (m_window s)
    (m_destroying s) (m_qpaReady s) (m_qpaWaitTime s) (Q_OS_WINDOWS s)
    (isWindowFrameBorderVisible s) (cursorPos s) (trace s).
Definition with_m_window (w : QPointer) (s : State) : State :=
  mkState (widgets s) (g_framelessWidgetsHelperData s) (this s) (q_parent s) w
    (m_destroying s) (m_qpaReady s) (m_qpaWaitTime s) (Q_OS_WINDOWS s)
    (isWindowFrameBorderVisible s) (cursorPos s) (trace s).
Definition with_m_destroying (b : bool) (s : State) : State :=
  mkState (widgets s) (g_framelessWidgetsHelperData s) (this s) (q_parent s) (m_window s)
    b (m_qpaReady s) (m_qpaWaitTime s) (Q_OS_WINDOWS s)
    (isWindowFrameBorderVisible s) (cursorPos s) (trace s).
Definition with_trace (t : list Effect) (s : State) : State :=
  mkState (widgets s) (g_framelessWidgetsHelperData s) (this s) (q_parent s) (m_window s)
    (m_destroying s) (m_qpaReady s) (m_qpaWaitTime s) (Q_OS_WINDOWS s)
    (isWindowFrameBorderVisible s) (cursorPos s) t.

(** *** The state monad of member functions *)

Definition M (A : Type) : Type := State -> A * State.

#[global] Instance M_ret : MRet M := fun A a s => (a, s).
#[global] Instance M_bind : MBind M := fun A B f m s => let (a, s') := m s in f a s'.

Definition get : M State := fun s => (s, s).
Definition modify (f : State -> State) : M unit := fun s => (tt, f s).
Definition skip : M unit := mret tt.

(** Append one outgoing call to the trace. *)
Definition call (e : Effect) : M unit := modify (fun s => with_trace (trace s ++ [e]) s).

Definition gets {A} (f : State -> A) : M A := fun s => (f s, s).

Definition update_widget (i : WidgetId) (f : QWidget -> QWidget) : M unit :=
  modify (fun s => with_widgets (alter f i (widgets s)) s).

(** Run [body] for each element in turn. *)
Fixpoint for_each {A} (l : list A) (body : A -> M unit) : M unit :=
  match l with
  | [] => skip
  | a :: l' => body a ;; for_each l' body
  end.

(** [QObject::property] on the dynamic properties of the widget: a name that
    was never set reads as the invalid variant.  Names that the widget's class
    declares with [Q_PROPERTY] are attributes of the widget with setters of
    their own; they are not part of this map. *)
Definition property (w : QWidget) (name : string) : QVariant :=
  match properties w !! name with
  | Some v => v
  | None => None
  end.

Definition QWidget_update (i : WidgetId) : M unit := call (Update i).

Definition QWidget_resize (i : WidgetId) (sz : QSize) : M unit :=
  call (Resize i sz) ;; update_widget i (fun w => set_size (boundedSize w sz) w).

Definition QWidget_move (i : WidgetId) (p : QPoint) : M unit :=
  call (Move i p) ;; update_widget i (set_pos p).

(** *** File-level helpers (lines 87-155) *)

Definition isWidgetFixedSize (ws : Store) (widget : option WidgetId) : bool :=
  match deref ws widget with
  | None => false
  | Some w =>
      if testFlags (windowFlags w) MSWindowsFixedSizeDialogHint then true
      else
        let minSize := minimumSize w in
        let maxSize := maximumSize w in
        if negb (QSize_isEmpty minSize) && negb (QSize_isEmpty maxSize)
           && bool_decide (minSize = maxSize) then true
        else
          let sizePolicy := sizePolicy w in
          if bool_decide (horizontalPolicy sizePolicy = Fixed)
             && bool_decide (verticalPolicy sizePolicy = Fixed) then true
          else false
  end.

Definition margins : QMargins := mkMargins 10 10 10 10.
Definition offset : QPoint := mkPoint 10 10.

Definition forceWidgetRepaint (widget : option WidgetId) : M unit :=
  match widget with
  | None => skip
  | Some i =>
      w0 ← gets (fun s => widgets s !! i);
      match w0 with
      | None => skip
      | Some w =>
          QWidget_update i ;;
          (if negb (isWindow w)
              || negb (testFlags (windowState w)
                         (Z.lor (Z.lor WindowMinimized WindowMaximized) WindowFullScreen))
           then
             s ← get;
             (if negb (isWidgetFixedSize (widgets s) (Some i)) then
                originalSize ← gets (fun s => size (default w (widgets s !! i)));
                QWidget_resize i (QSize_shrunkBy originalSize margins) ;;
                QWidget_resize i (QSize_grownBy originalSize margins) ;;
                QWidget_resize i originalSize
              else skip) ;;
             originalPosition ← gets (fun s => pos (default w (widgets s !! i)));
             QWidget_move i (QPoint_sub originalPosition offset) ;;
             QWidget_move i (QPoint_add originalPosition offset) ;;
             QWidget_move i originalPosition
           else skip) ;;
          s ← get;
          (if Q_OS_WINDOWS s then
             if isWindow w then
               if hasWindowHandle w then call (updateInternalWindowFrameMargins i) else skip
             else skip
           else skip) ;;
          QWidget_update i
      end
  end.

(** *** Member functions *)

Definition emitSignalForAllInstances (signal : option string) : M unit :=
  match signal with
  | None => skip
  | Some sig =>
      if decide (sig = EmptyString) then skip
      else
        s ← get;
        match deref (widgets s) (m_window s) with
        | None => skip
        | Some w =>
            let instances := helperInstances w in
            match instances with
            | [] => skip
            | _ => for_each instances (fun instance => call (invokeMethod instance sig))
            end
        end
  end.

Definition setProperty (name : option string) (value : QVariant) : M unit :=
  match name with
  | None => skip
  | Some n =>
      if decide (n = EmptyString) then skip
      else if negb (QVariant_isValid value) then skip
      else
        s ← get;
        match QPointer_data (widgets s) (m_window s) with
        | None => skip
        | Some i => update_widget i (set_property n value)
        end
  end.

Definition getProperty (name : option string) (defaultValue : QVariant) : M QVariant :=
  match name with
  | None => mret None
  | Some n =>
      if decide (n = EmptyString) then mret None
      else
        s ← get;
        match deref (widgets s) (m_window s) with
        | None => mret None
        | Some w =>
            let value := property w n in
            mret (if QVariant_isValid value then value else defaultValue)
        end
  end.

(** [getWindowData]: the record of [m_window]'s native handle, inserted on
    first use.  The const and the mutable accessor have the same body; the
    const one is read through here, so it yields the record, and the mutable
    one yields the place of the record in the table, its key. *)
Definition getWindowData : M (option FramelessWidgetsHelperData) :=
  s ← get;
  match deref (widgets s) (m_window s) with
  | None => mret None
  | Some w =>
      let windowId := winId w in
      match g_framelessWidgetsHelperData s !! windowId with
      | Some d => mret (Some d)
      | None =>
          modify (with_data (<[windowId := defaultData]> (g_framelessWidgetsHelperData s))) ;;
          mret (Some defaultData)
      end
  end.

Definition getWindowDataMutable : M (option WId) :=
  s ← get;
  match deref (widgets s) (m_window s) with
  | None => mret None
  | Some w =>
      let windowId := winId w in
      match g_framelessWidgetsHelperData s !! windowId with
      | Some d => mret (Some windowId)
      | None =>
          modify (with_data (<[windowId := defaultData]> (g_framelessWidgetsHelperData s))) ;;
          mret (Some windowId)
      end
  end.

(** Read and write through the pointer [getWindowDataMutable] returned. *)
Definition load (data : WId) : M FramelessWidgetsHelperData :=
  gets (fun s => default defaultData (g_framelessWidgetsHelperData s !! data)).

Definition store (data : WId) (f : FramelessWidgetsHelperData -> FramelessWidgetsHelperData)
  : M unit :=
  modify (fun s => with_data (alter f data (g_framelessWidgetsHelperData s)) s).

Definition isContentExtendedIntoTitleBar : M bool :=
  data ← getWindowData;
  mret (match data with Some d => ready d | None => false end).

Definition setTitleBarWidget (widget : option WidgetId) : M unit :=
  match widget with
  | None => skip
  | Some i =>
      data ← getWindowDataMutable;
      match data with
      | None => skip
      | Some data =>
          d ← load data;
          ws ← gets widgets;
          if decide (QPointer_data ws (titleBarWidget d) = Some i) then skip
          else
            store data (set_titleBarWidget (Some i)) ;;
            emitSignalForAllInstances (Some "titleBarWidgetChanged"%string)
      end
  end.

Definition getTitleBarWidget : M (option WidgetId) :=
  data ← getWindowData;
  ws ← gets widgets;
  mret (match data with Some d => QPointer_data ws (titleBarWidget d) | None => None end).

(** [QList::removeAll(widget)] on a list of QPointers drops the entries that
    currently read as [widget]. *)
Definition removeAll_widget (ws : Store) (i : WidgetId) (l : list QPointer) : list QPointer :=
  List.filter (fun q => negb (bool_decide (QPointer_data ws q = Some i))) l.

Definition removeAll_rect (r : QRect) (l : list QRect) : list QRect :=
  List.filter (fun q => negb (bool_decide (q = r))) l.

Definition setHitTestVisible (widget : option WidgetId) (visible : bool) : M unit :=
  match widget with
  | None => skip
  | Some i =>
      data ← getWindowDataMutable;
      match data with
      | None => skip
      | Some data =>
          d ← load data;
          ws ← gets widgets;
          if visible then
            store data (set_hitTestVisibleWidgets (hitTestVisibleWidgets d ++ [Some i]))
          else
            store data (set_hitTestVisibleWidgets (removeAll_widget ws i (hitTestVisibleWidgets d)))
      end
  end.

Definition setHitTestVisible_rect (rect : QRect) (visible : bool) : M unit :=
  if negb (QRect_isValid rect) then skip
  else
    data ← getWindowDataMutable;
    match data with
    | None => skip
    | Some data =>
        d ← load data;
        if visible then
          store data (set_hitTestVisibleRects (hitTestVisibleRects d ++ [rect]))
        else
          store data (set_hitTestVisibleRects (removeAll_rect rect (hitTestVisibleRects d)))
    end.

Definition findTopLevelWindow : M (option WidgetId) :=
  s ← get;
  mret (match q_parent s with
        | Some (AWidget p) =>
            match widgets s !! p with
            | Some _ => Some (window (widgets s) p)
            | None => None
            end
        | _ => None
        end).

Definition attach : M unit :=
  window ← findTopLevelWindow;
  match window with
  | None => skip
  | Some window =>
      s ← get;
      if decide (QPointer_data (widgets s) (m_window s) = Some window) then skip
      else
        modify (with_m_window (Some window)) ;;
        w ← gets (fun s => widgets s !! window);
        (if negb (from_option WA_DontCreateNativeAncestors true w)
         then update_widget window set_WA_DontCreateNativeAncestors else skip) ;;
        (if negb (from_option WA_NativeWindow true w)
         then update_widget window set_WA_NativeWindow else skip) ;;
        data ← getWindowDataMutable;
        match data with
        | None => skip
        | Some data =>
            d ← load data;
            if ready d then skip
            else
              s ← get;
              let params := mkClosures window (this s) in
              call (addWindow (from_option winId 0%N (widgets s !! window)) params) ;;
              store data (set_params (Some params)) ;;
              store data (set_ready true) ;;
              call (singleShot (m_qpaWaitTime s) (AttachSettled (this s)))
        end
  end.

Definition detach : M unit :=
  s ← get;
  match deref (widgets s) (m_window s) with
  | None => skip
  | Some w =>
      let windowId := winId w in
      match g_framelessWidgetsHelperData s !! windowId with
      | None => skip
      | Some _ =>
          modify (with_data (delete windowId (g_framelessWidgetsHelperData s))) ;;
          call (removeWindow windowId) ;;
          modify (with_m_window None) ;;
          emitSignalForAllInstances (Some "windowChanged"%string)
      end
  end.

Definition extendsContentIntoTitleBar (value : bool) : M unit :=
  current ← isContentExtendedIntoTitleBar;
  if bool_decide (current = value) then skip
  else
    (if value then attach else detach) ;;
    s ← get;
    if negb (m_destroying s)
    then emitSignalForAllInstances (Some "extendsContentIntoTitleBarChanged"%string)
    else skip.

(** [~FramelessWidgetsHelperPrivate]. *)
Definition destructor : M unit :=
  modify (with_m_destroying true) ;;
  extendsContentIntoTitleBar false.

(** The default-constructed [QRect{}]. *)
Definition nullRect : QRect := mkRect 0 0 (-1) (-1).

Definition mapWidgetGeometryToScene (s : State) (widget : option WidgetId) : QRect :=
  match widget with
  | None => nullRect
  | Some i =>
      match widgets s !! i with
      | None => nullRect
      | Some w =>
          match QPointer_data (widgets s) (m_window s) with
          | None => nullRect
          | Some m =>
              let originPoint := mapTo (widgets s) i m (mkPoint 0 0) in
              QRect_of originPoint (size w)
          end
      end
  end.

(** [button && button->isVisible() && button->isEnabled()]. *)
Definition usable (ws : Store) (button : QPointer) : bool :=
  match deref ws button with
  | Some w => isVisible w && isEnabled w
  | None => false
  end.

Definition geometry_contains (ws : Store) (button : QPointer) (pos : QPoint) : bool :=
  match deref ws button with
  | Some w => QRect_contains (geometry w) pos
  | None => false
  end.

(** The out-parameter [SystemButtonType *button] is passed as the value the
    caller's variable holds ([None] for a null pointer) and handed back with
    the result. *)
Definition isInSystemButtons (pos : QPoint) (button : option SystemButtonType)
  : M (bool * option SystemButtonType) :=
  match button with
  | None => mret (false, None)
  | Some before =>
      data ← getWindowData;
      match data with
      | None => mret (false, Some before)
      | Some data =>
          ws ← gets widgets;
          if usable ws (windowIconButton data) && geometry_contains ws (windowIconButton data) pos
          then mret (true, Some WindowIcon)
          else if usable ws (contextHelpButton data) && geometry_contains ws (contextHelpButton data) pos
          then mret (true, Some Help)
          else if usable ws (minimizeButton data) && geometry_contains ws (minimizeButton data) pos
          then mret (true, Some Minimize)
          else if usable ws (maximizeButton data) && geometry_contains ws (maximizeButton data) pos
          then mret (true, Some Maximize)
          else if usable ws (closeButton data) && geometry_contains ws (closeButton data) pos
          then mret (true, Some Close)
          else mret (false, Some Unknown)
      end
  end.

Definition isInTitleBarDraggableArea (pos : QPoint) : M bool :=
  data ← getWindowData;
  match data with
  | None => mret false
  | Some data =>
      s ← get;
      let ws := widgets s in
      match deref ws (titleBarWidget data) with
      | None => mret false
      | Some titleBar =>
          if negb (isVisible titleBar) || negb (isEnabled titleBar) then mret false
          else
            match deref ws (m_window s) with
            | None => mret false
            | Some m =>
                let windowRect := QRect_of (mkPoint 0 0) (size m) in
                let titleBarRect :=
                  mapWidgetGeometryToScene s (QPointer_data ws (titleBarWidget data)) in
                if negb (QRect_intersects titleBarRect windowRect) then mret false
                else
                  let region := QRegion_of titleBarRect in
                  let systemButtons :=
                    [windowIconButton data; contextHelpButton data;
                     minimizeButton data; maximizeButton data;
                     closeButton data] in
                  let region :=
                    fold_left (fun region button =>
                                 if usable ws button
                                 then QRegion_subtracted region
                                        (QRegion_of (mapWidgetGeometryToScene s
                                                       (QPointer_data ws button)))
                                 else region) systemButtons region in
                  let region :=
                    fold_left (fun region widget =>
                                 if usable ws widget
                                 then QRegion_subtracted region
                                        (QRegion_of (mapWidgetGeometryToScene s
                                                       (QPointer_data ws widget)))
                                 else region) (hitTestVisibleWidgets data) region in
                  let region :=
                    fold_left (fun region rect =>
                                 if QRect_isValid rect
                                 then QRegion_subtracted region (QRegion_of rect)
                                 else region) (hitTestVisibleRects data) region in
                  mret (QRegion_contains region pos)
            end
      end
  end.

(** Modelled from the spec: [kDefaultResizeBorderThickness] is declared in the
    core library's global header, outside this translation unit; the border
    band is 8 pixels thick. *)
Definition kDefaultResizeBorderThickness : Z := 8.

(** Modelled from the spec: [Utils::windowStatesToWindowState] is defined in
    the core library, outside this translation unit.  It reduces the state
    flags to one state, which is the normal state [WindowNoState] exactly when
    the window is neither minimized nor maximized nor fullscreen. *)
Definition windowStatesToWindowState (states : Z) : Z :=
  if testFlags states WindowFullScreen then WindowFullScreen
  else if testFlags states WindowMaximized then WindowMaximized
  else if testFlags states WindowMinimized then WindowMinimized
  else WindowNoState.

Definition shouldIgnoreMouseEvents (s : State) (pos : QPoint) : bool :=
  match deref (widgets s) (m_window s) with
  | None => false
  | Some m =>
      let withinFrameBorder :=
        if py pos <? kDefaultResizeBorderThickness then true
        else if Q_OS_WINDOWS s && isWindowFrameBorderVisible s then false
        else (px pos <? kDefaultResizeBorderThickness)
             || (width m - kDefaultResizeBorderThickness <=? px pos) in
      bool_decide (windowStatesToWindowState (windowState m) = WindowNoState)
      && withinFrameBorder
  end.

Definition setSystemButtonState (button : SystemButtonType) (state : ButtonState) : M unit :=
  if decide (button = Unknown) then skip
  else
    data ← getWindowData;
    match data with
    | None => skip
    | Some data =>
        ws ← gets widgets;
        let widgetButton : option WidgetId :=
          match button with
          | WindowIcon => QPointer_data ws (windowIconButton data)
          | Help => QPointer_data ws (contextHelpButton data)
          | Minimize => QPointer_data ws (minimizeButton data)
          | Maximize | Restore => QPointer_data ws (maximizeButton data)
          | Close => QPointer_data ws (closeButton data)
          | Unknown => None
          end in
        match widgetButton with
        | None => skip
        | Some btn =>
            s ← get;
            match widgets s !! btn with
            | None => skip
            | Some b =>
                let window := window ws btn in
                let globalPos := cursorPos s in
                let localPos := mapFromGlobal ws btn globalPos in
                let scenePos := mapFromGlobal ws window globalPos in
                let hoverEnabled := WA_Hover b in
                call (emulateQtMouseEvent btn window state globalPos scenePos localPos
                        (underMouse b) hoverEnabled)
            end
        end
    end.

Definition setSystemButton (widget : option WidgetId) (buttonType : SystemButtonType) : M unit :=
  match widget with
  | None => skip
  | Some i =>
      if decide (buttonType = Unknown) then skip
      else
        data ← getWindowDataMutable;
        match data with
        | None => skip
        | Some data =>
            match buttonType with
            | WindowIcon => store data (set_windowIconButton (Some i))
            | Help => store data (set_contextHelpButton (Some i))
            | Minimize => store data (set_minimizeButton (Some i))
            | Maximize | Restore => store data (set_maximizeButton (Some i))
            | Close => store data (set_closeButton (Some i))
            | Unknown => skip
            end
        end
  end.

End Helper.
Export Helper.

(** ** Concrete windows used by the examples *)

Module Examples.

Definition plainWidget : QWidget :=
  mkWidget None false 0%N (mkPoint 0 0) (mkSize 0 0) true true 0 WindowNoState
    (mkSize 0 0) (mkSize 16777215 16777215) (mkPolicy Preferred Preferred)
    false false false false false ∅ [].

Definition topLevel (id : WId) (p : QPoint) (sz : QSize) (states : Z) (helpers : list HelperId)
  : QWidget :=
  mkWidget None true id p sz true true 0 states
    (mkSize 0 0) (mkSize 16777215 16777215) (mkPolicy Preferred Preferred)
    false false false false true ∅ helpers.

Definition child (parent : WidgetId) (x y w h : Z) : QWidget :=
  mkWidget (Some parent) false 0%N (mkPoint x y) (mkSize w h) true true 0 WindowNoState
    (mkSize 0 0) (mkSize 16777215 16777215) (mkPolicy Preferred Preferred)
    false false false false false ∅ [].

(** A helper (object 9) parented to the window 1, not yet attached. *)
Definition fresh (ws : Store) : State :=
  mkState ws ∅ 9%positive (Some (AWidget 1%positive)) None false false 0%N
    false false (mkPoint 0 0) [].

(** A 400x300 window with a title bar (0,0,400,30) that carries a close
    button at (370,0,30,30). *)
Definition titleBarTopLevel : QWidget :=
  topLevel 100%N (mkPoint 50 50) (mkSize 400 300) WindowNoState [9%positive].

Definition titleBarStore : Store :=
  <[1%positive := titleBarTopLevel]>
  (<[2%positive := child 1%positive 0 0 400 30]>
  (<[3%positive := child 2%positive 370 0 30 30]> ∅)).

Definition titleBarWindow : State :=
  snd ((extendsContentIntoTitleBar true ;;
        setTitleBarWidget (Some 2%positive) ;;
        setSystemButton (Some 3%positive) Close) (fresh titleBarStore)).

(** A window whose window-icon button (0,0,30,30) and help button
    (10,0,30,30) overlap. *)
Definition overlapStore : Store :=
  <[1%positive := titleBarTopLevel]>
  (<[2%positive := child 1%positive 0 0 30 30]>
  (<[3%positive := child 1%positive 10 0 30 30]> ∅)).

Definition overlapWindow : State :=
  snd ((extendsContentIntoTitleBar true ;;
        setSystemButton (Some 2%positive) WindowIcon ;;
        setSystemButton (Some 3%positive) Help) (fresh overlapStore)).

(** The same window, maximized. *)
Definition maximizedStore : Store :=
  <[1%positive := topLevel 100%N (mkPoint 0 0) (mkSize 400 300) WindowMaximized [9%positive]]> ∅.

Definition maximizedWindow : State :=
  snd (extendsContentIntoTitleBar true (fresh maximizedStore)).

(** A maximized top-level window of fixed size (both policies [Fixed]), and a
    fixed-size child widget of a normal window. *)
Definition fixedMaximizedWidget : QWidget :=
  mkWidget None true 100%N (mkPoint 0 0) (mkSize 400 300) true true 0
    WindowMaximized (mkSize 0 0) (mkSize 16777215 16777215)
    (mkPolicy Fixed Fixed) false false false false true ∅ [].

Definition fixedMaximized : State :=
  fresh (<[1%positive := fixedMaximizedWidget]> ∅).

Definition fixedChildWidget : QWidget :=
  mkWidget (Some 1%positive) false 0%N (mkPoint 5 7) (mkSize 30 30) true true 0
    WindowNoState (mkSize 30 30) (mkSize 30 30)
    (mkPolicy Preferred Preferred) false false false false false ∅ [].

Definition fixedChild : State :=
  fresh (<[1%positive := topLevel 100%N (mkPoint 50 50) (mkSize 400 300) WindowNoState []]>
         (<[2%positive := fixedChildWidget]> ∅)).

End Examples.

(** ** The vocabulary of the specification

    The specification speaks of the record of the attached window, of the
    system-button slots and of the region of the title bar.  These
    definitions follow its words; the theorems relate them to the code. *)

Module Spec.

(** The helper is attached when its window reference names a live widget. *)
Definition attachedWindow (s : State) : option QWidget := deref (widgets s) (m_window s).

(** The per-window record of the attached window; a window that has no entry
    in the table yet reads as the default record. *)
Definition recordOf (s : State) : option FramelessWidgetsHelperData :=
  match attachedWindow s with
  | Some w => Some (default defaultData (g_framelessWidgetsHelperData s !! winId w))
  | None => None
  end.

Definition theRecord (s : State) : FramelessWidgetsHelperData :=
  default defaultData (recordOf s).

(** The title-bar widget, if one is set (and alive). *)
Definition titleBarOf (s : State) : option QWidget :=
  deref (widgets s) (titleBarWidget (theRecord s)).

(** The rectangle of a widget mapped into window coordinates. *)
Definition sceneRect (s : State) (q : QPointer) : QRect :=
  mapWidgetGeometryToScene s (QPointer_data (widgets s) q).

Definition titleBarRect (s : State) : QRect := sceneRect s (titleBarWidget (theRecord s)).

Definition clientRect (s : State) : QRect :=
  match attachedWindow s with
  | Some m => QRect_of (mkPoint 0 0) (size m)
  | None => nullRect
  end.

(** The five system-button slots in their priority order. *)
Definition slots (d : FramelessWidgetsHelperData) : list (SystemButtonType * QPointer) :=
  [(WindowIcon, windowIconButton d); (Help, contextHelpButton d);
   (Minimize, minimizeButton d); (Maximize, maximizeButton d); (Close, closeButton d)].

(** The cases in which there is no draggable title bar at all. *)
Definition noTitleBar (s : State) : Prop :=
  attachedWindow s = None
  \/ titleBarOf s = None
  \/ (exists titleBar, titleBarOf s = Some titleBar
                        /\ (isVisible titleBar = false \/ isEnabled titleBar = false))
  \/ QRect_intersects (titleBarRect s) (clientRect s) = false.

(** The title-bar rectangle minus the rectangle of every visible and enabled
    system button, minus that of every visible and enabled excluded widget,
    minus every valid excluded rectangle. *)
Definition inDraggableRegion (s : State) (p : QPoint) : Prop :=
  in_rect (titleBarRect s) p
  /\ (forall role b, In (role, b) (slots (theRecord s)) ->
        usable (widgets s) b = true -> ~ in_rect (sceneRect s b) p)
  /\ (forall w, In w (hitTestVisibleWidgets (theRecord s)) ->
        usable (widgets s) w = true -> ~ in_rect (sceneRect s w) p)
  /\ (forall r, In r (hitTestVisibleRects (theRecord s)) ->
        QRect_isValid r = true -> ~ in_rect r p).

(** A slot is hit when its button is assigned, visible and enabled and its
    rectangle contains the point; the first hit in priority order decides. *)
Definition hit (ws : Store) (p : QPoint) (slot : SystemButtonType * QPointer) : bool :=
  usable ws (snd slot) && geometry_contains ws (snd slot) p.

Definition firstHit (ws : Store) (d : FramelessWidgetsHelperData) (p : QPoint)
  : option SystemButtonType :=
  option_map fst (List.find (hit ws p) (slots d)).



(** The flag [isContentExtendedIntoTitleBar] reports. *)
Definition contentExtended (s : State) : bool := fst (isContentExtendedIntoTitleBar s).

(** The states one helper goes through on a window: its parent resolves to a
    top-level window, and whenever it is bound to a window the record of that
    window is in the table and ready.  [attach] establishes the second part
    and [detach] clears the binding together with the record. *)
Definition coherent (s : State) : Prop :=
  (exists w, fst (findTopLevelWindow s) = Some w)
  /\ match attachedWindow s with
     | Some w0 => exists d, g_framelessWidgetsHelperData s !! winId w0 = Some d
                            /\ ready d = true
     | None => True
     end.

(** The notification that ends [extendsContentIntoTitleBar]. *)
Definition notifyChanged : M unit :=
  s ← get;
  if negb (m_destroying s)
  then emitSignalForAllInstances (Some "extendsContentIntoTitleBarChanged"%string)
  else skip.

(** The window is in its normal state: not minimized, not maximized, not
    fullscreen. *)
Definition normalState (m : QWidget) : Prop :=
  testFlags (windowState m) WindowMinimized = false
  /\ testFlags (windowState m) WindowMaximized = false
  /\ testFlags (windowState m) WindowFullScreen = false.

(** The resize-border bands along the top, left and right edges. *)
Definition topBand (p : QPoint) : Prop := py p < kDefaultResizeBorderThickness.
Definition leftBand (p : QPoint) : Prop := px p < kDefaultResizeBorderThickness.
Definition rightBand (m : QWidget) (p : QPoint) : Prop :=
  width m - kDefaultResizeBorderThickness <= px p.

(** The platform draws a native frame border. *)
Definition nativeFrameBorder (s : State) : bool :=
  Q_OS_WINDOWS s && isWindowFrameBorderVisible s.

(** A top-level window that is minimized, maximized or fullscreen. *)
Definition settledWindow (w : QWidget) : bool :=
  isWindow w
  && testFlags (windowState w)
       (Z.lor (Z.lor WindowMinimized WindowMaximized) WindowFullScreen).

(** The position perturbation of the repaint forcer: away, the other way,
    and back. *)
Definition nudges (i : WidgetId) (w : QWidget) : list Effect :=
  [Move i (QPoint_sub (pos w) offset); Move i (QPoint_add (pos w) offset); Move i (pos w)].

(** The Windows-only frame-margin update of a top-level window that has a
    native handle. *)
Definition frameMargins (s : State) (i : WidgetId) (w : QWidget) : list Effect :=
  if Q_OS_WINDOWS s && isWindow w && hasWindowHandle w
  then [updateInternalWindowFrameMargins i] else [].

(** The slot a role names; maximize and restore share one, and [Unknown]
    names none. *)
Definition slotFor (role : SystemButtonType) (d : FramelessWidgetsHelperData) : QPointer :=
  match role with
  | WindowIcon => windowIconButton d
  | Help => contextHelpButton d
  | Minimize => minimizeButton d
  | Maximize | Restore => maximizeButton d
  | Close => closeButton d
  | Unknown => None
  end.

(** The widget that occupies the slot of [role], if any. *)
Definition occupant (s : State) (role : SystemButtonType) : option WidgetId :=
  QPointer_data (widgets s) (slotFor role (theRecord s)).

(** The exclusion lists of the attached window (empty when there is none),
    and how often a widget, or a rectangle, occurs in them. *)
Definition excludedWidgets (s : State) : list QPointer := hitTestVisibleWidgets (theRecord s).
Definition excludedRects (s : State) : list QRect := hitTestVisibleRects (theRecord s).

Definition occurrences (ws : Store) (i : WidgetId) (l : list QPointer) : nat :=
  length (List.filter (fun q => bool_decide (QPointer_data ws q = Some i)) l).

Definition rectOccurrences (r : QRect) (l : list QRect) : nat :=
  length (List.filter (fun q => bool_decide (q = r)) l).


(** *** What the member functions compute, in closed form *)

(** The code of [isInTitleBarDraggableArea], read off the state in which it
    is called. *)
Definition draggableArea (s : State) (d : FramelessWidgetsHelperData) (p : QPoint) : bool :=
  match deref (widgets s) (titleBarWidget d) with
  | None => false
  | Some titleBar =>
      if negb (isVisible titleBar) || negb (isEnabled titleBar) then false
      else
        match attachedWindow s with
        | None => false
        | Some m =>
            if negb (QRect_intersects (sceneRect s (titleBarWidget d))
                       (QRect_of (mkPoint 0 0) (size m))) then false
            else
              QRegion_contains
                (fold_left (fun region rect =>
                              if QRect_isValid rect
                              then QRegion_subtracted region (QRegion_of rect) else region)
                   (hitTestVisibleRects d)
                   (fold_left (fun region widget =>
                                 if usable (widgets s) widget
                                 then QRegion_subtracted region (QRegion_of (sceneRect s widget))
                                 else region)
                      (hitTestVisibleWidgets d)
                      (fold_left (fun region button =>
                                    if usable (widgets s) button
                                    then QRegion_subtracted region
                                           (QRegion_of (sceneRect s button))
                                    else region)
                         (map snd (slots d))
                         (QRegion_of (sceneRect s (titleBarWidget d)))))) p
        end
  end.

(** The window once both attributes are set. *)
Definition nativeWindow (w : QWidget) : QWidget :=
  set_WA_NativeWindow (set_WA_DontCreateNativeAncestors w).

(** The window [attach] resolves. *)
Definition resolved (s : State) : option WidgetId := fst (findTopLevelWindow s).

(** The state [attach] leaves when it binds the helper to the window [w],
    whose attributes were [w0]. *)
Definition attachResult (s : State) (w : WidgetId) (w0 : QWidget) : State :=
  let s1 := with_widgets (alter nativeWindow w (widgets s)) (with_m_window (Some w) s) in
  let d0 := default defaultData (g_framelessWidgetsHelperData s !! winId w0) in
  if ready d0 then s1
  else
    let ps := mkClosures w (this s) in
    with_trace (trace s ++ [addWindow (winId w0) ps;
                            singleShot (m_qpaWaitTime s) (AttachSettled (this s))])
      (with_data (<[winId w0 := set_ready true (set_params (Some ps) d0)]>
                    (g_framelessWidgetsHelperData s)) s1).

(** The instances [emitSignalForAllInstances] reaches: the helper children of
    the window the helper is bound to at the time of the call. *)
Definition audience (s : State) : list HelperId :=
  match attachedWindow s with
  | Some w => helperInstances w
  | None => []
  end.

End Spec.
Export Spec.

(** ** The remaining member functions and the vocabulary of their properties *)

Module Rest.

Definition with_m_qpaWaitTime (t : N) (s : State) : State :=
  mkState (widgets s) (g_framelessWidgetsHelperData s) (this s) (q_parent s) (m_window s)
    (m_destroying s) (m_qpaReady s) t (Q_OS_WINDOWS s)
    (isWindowFrameBorderVisible s) (cursorPos s) (trace s).

Definition isWindowFixedSize (s : State) : bool :=
  match QPointer_data (widgets s) (m_window s) with
  | None => false
  | Some m => isWidgetFixedSize (widgets s) (Some m)
  end.

Definition readyWaitTime (s : State) : N := m_qpaWaitTime s.

Definition setReadyWaitTime (time : N) : M unit :=
  s ← get;
  if decide (m_qpaWaitTime s = time) then skip
  else modify (with_m_qpaWaitTime time).

(** [setHitTestVisible(QObject *, bool)]: only a widget gets through the
    [qobject_cast]. *)
Definition setHitTestVisible_object (object : option QObjectRef) (visible : bool) : M unit :=
  match object with
  | None => skip
  | Some (AWidget widget) => setHitTestVisible (Some widget) visible
  | Some AnObject => skip
  end.

(** The signal [sig] delivered to each of the instances [l] in turn. *)
Definition delivered (sig : string) (l : list HelperId) : list Effect :=
  map (fun instance => invokeMethod instance sig) l.

(** The record the table holds for a window handle, a missing one reading as
    the default record. *)
Definition recordAt (s : State) (id : WId) : FramelessWidgetsHelperData :=
  default defaultData (g_framelessWidgetsHelperData s !! id).

(** Two roles that are served by the same slot. *)
Definition sharesSlot (a b : SystemButtonType) : Prop :=
  a = b \/ (a = Maximize /\ b = Restore) \/ (a = Restore /\ b = Maximize).

(** A widget placed directly in the window [m], with a size that is not
    negative. *)
Definition directChild (ws : Store) (m i : WidgetId) : Prop :=
  exists w, ws !! i = Some w /\ parentWidget w = Some m /\ i <> m
            /\ 0 <= wd (size w) /\ 0 <= ht (size w).

(** A size that [QWidget::resize] accepts as it is. *)
Definition withinBounds (w : QWidget) (sz : QSize) : Prop :=
  wd (minimumSize w) <= wd sz <= wd (maximumSize w)
  /\ ht (minimumSize w) <= ht sz <= ht (maximumSize w).

(** The size perturbation of the repaint forcer. *)
Definition stretches (i : WidgetId) (w : QWidget) : list Effect :=
  [Resize i (QSize_shrunkBy (size w) margins); Resize i (QSize_grownBy (size w) margins);
   Resize i (size w)].

(** A window whose close button sits in a container inside the title bar:
    title bar (0,0,400,60), container (0,30,400,30) in the title bar, close
    button (370,0,30,30) in the container. *)
Definition nestedStore : Store :=
  <[1%positive := Examples.titleBarTopLevel]>
  (<[2%positive := Examples.child 1%positive 0 0 400 60]>
  (<[4%positive := Examples.child 2%positive 0 30 400 30]>
  (<[3%positive := Examples.child 4%positive 370 0 30 30]> ∅))).

Definition nestedWindow : State :=
  snd ((extendsContentIntoTitleBar true ;;
        setTitleBarWidget (Some 2%positive) ;;
        setSystemButton (Some 3%positive) Close) (Examples.fresh nestedStore)).

(** A window whose title bar (0,0,400,30) and close button (370,0,30,30) are
    both placed directly in the window. *)
Definition flatStore : Store :=
  <[1%positive := Examples.titleBarTopLevel]>
  (<[2%positive := Examples.child 1%positive 0 0 400 30]>
  (<[3%positive := Examples.child 1%positive 370 0 30 30]> ∅)).

Definition flatWindow : State :=
  snd ((extendsContentIntoTitleBar true ;;
        setTitleBarWidget (Some 2%positive) ;;
        setSystemButton (Some 3%positive) Close) (Examples.fresh flatStore)).

(** [noTitleBar] and [inDraggableRegion] read with the record [d] in place of
    the record of the bound window. *)
Definition noTitleBarFor (s : State) (d : FramelessWidgetsHelperData) : Prop :=
  attachedWindow s = None
  \/ deref (widgets s) (titleBarWidget d) = None
  \/ (exists titleBar, deref (widgets s) (titleBarWidget d) = Some titleBar
                        /\ (isVisible titleBar = false \/ isEnabled titleBar = false))
  \/ QRect_intersects (sceneRect s (titleBarWidget d)) (clientRect s) = false.

Definition inRegionFor (s : State) (d : FramelessWidgetsHelperData) (p : QPoint) : Prop :=
  in_rect (sceneRect s (titleBarWidget d)) p
  /\ (forall role b, In (role, b) (slots d) ->
        usable (widgets s) b = true -> ~ in_rect (sceneRect s b) p)
  /\ (forall w, In w (hitTestVisibleWidgets d) ->
        usable (widgets s) w = true -> ~ in_rect (sceneRect s w) p)
  /\ (forall r, In r (hitTestVisibleRects d) ->
        QRect_isValid r = true -> ~ in_rect r p).

(** Several helpers can be children of one window:
    [emitSignalForAllInstances] walks them.  Each helper has its own private
    fields; the widgets, the table of records, the surroundings and the calls
    made are shared.  [resume h s] is the helper with the private fields of
    [h] taking its turn in the world that [s] ends in. *)
Definition resume (h s : State) : State :=
  mkState (widgets s) (g_framelessWidgetsHelperData s) (this h) (q_parent h) (m_window h)
    (m_destroying h) (m_qpaReady h) (m_qpaWaitTime h) (Q_OS_WINDOWS s)
    (isWindowFrameBorderVisible s) (cursorPos s) (trace s).

(** A window with two helpers, objects 9 and 10, both parented to it and
    neither attached yet. *)
Definition sharedStore : Store :=
  <[1%positive := Examples.topLevel 100%N (mkPoint 50 50) (mkSize 400 300) WindowNoState
                    [9%positive; 10%positive]]> ∅.

Definition secondHelper (ws : Store) : State :=
  mkState ws ∅ 10%positive (Some (AWidget 1%positive)) None false false 0%N
    false false (mkPoint 0 0) [].

(** The first helper turns the frameless mode on, then the second does, then
    the first turns it off; [secondAfterFirstOff] is the second helper at its
    next turn. *)
Definition firstOn : State :=
  snd (extendsContentIntoTitleBar true (Examples.fresh sharedStore)).

Definition secondOn : State :=
  snd (extendsContentIntoTitleBar true (resume (secondHelper sharedStore) firstOn)).

Definition firstOff : State :=
  snd (extendsContentIntoTitleBar false (resume firstOn secondOn)).

Definition secondAfterFirstOff : State := resume secondOn firstOff.

End Rest.
Export Rest.

(** * Properties *)

(** ** Rectangles and regions *)

Section Regions.

Implicit Types (r s : QRect) (p : QPoint) (R S : QRegion).

Ltac geometry :=
  unfold in_rect, QRect_isEmpty, QRect_isValid, QRect_isNull, QRect_contains in *;
  simpl in *;
  repeat match goal with
         | |- context [if ?c then _ else _] => destruct c eqn:?
         | H : context [if ?c then _ else _] |- _ => destruct c eqn:?
         end;
  simpl in *; try lia; try (intuition (try discriminate; lia)).

Lemma in_rect_nonempty r p : in_rect r p -> QRect_isEmpty r = false.
Proof. geometry. Qed.

Lemma QRect_contains_in_rect r p :
  QRect_isEmpty r = false -> QRect_contains r p = true <-> in_rect r p.
Proof. destruct r, p. geometry. Qed.

Lemma QRect_isValid_nonempty r : QRect_isValid r = negb (QRect_isEmpty r).
Proof. destruct r. geometry. Qed.

Lemma proper_QRegion_of r : proper (QRegion_of r).
Proof.
  unfold proper, QRegion_of. intros q Hq.
  destruct (QRect_isEmpty r) eqn:E; simpl in Hq; [tauto|].
  destruct Hq as [<-|[]]. exact E.
Qed.

Lemma covers_QRegion_of r p : covers (QRegion_of r) p <-> in_rect r p.
Proof.
  unfold covers, QRegion_of. split.
  - intros (q & Hq & Hp). destruct (QRect_isEmpty r); simpl in Hq; [tauto|].
    destruct Hq as [<-|[]]. exact Hp.
  - intros Hp. exists r. split; [|exact Hp].
    rewrite (in_rect_nonempty _ _ Hp). now left.
Qed.

Lemma QRegion_contains_covers R p :
  proper R -> QRegion_contains R p = true <-> covers R p.
Proof.
  intros HR. unfold QRegion_contains, covers. rewrite existsb_exists.
  split; intros (q & Hq & Hp); exists q; split; trivial;
    apply (QRect_contains_in_rect q p (HR q Hq)); exact Hp.
Qed.

Lemma proper_QRect_minus r s : QRect_isEmpty r = false -> proper (QRect_minus r s).
Proof.
  intros Hr q. unfold QRect_minus.
  destruct (_ || _) eqn:E.
  - intros [<-|[]]. exact Hr.
  - rewrite filter_In. intros [_ H]. now apply negb_true_iff in H.
Qed.

Lemma covers_QRect_minus r s p :
  covers (QRect_minus r s) p <-> in_rect r p /\ ~ in_rect s p.
Proof.
  unfold covers, QRect_minus.
  destruct (_ || _) eqn:E.
  - split.
    + intros (q & [<-|[]] & Hp). split; [exact Hp|].
      unfold in_rect in *. rewrite !orb_true_iff, !Z.ltb_lt in E. lia.
    + intros [Hp _]. exists r. split; [now left | exact Hp].
  - rewrite !orb_false_iff, !Z.ltb_ge in E. split.
    + intros (q & Hq & Hp). apply filter_In in Hq as [Hq _].
      simpl in Hq. unfold in_rect in *.
      destruct Hq as [<-|[<-|[<-|[<-|[]]]]]; simpl in Hp; lia.
    + intros [Hr Hs]. unfold in_rect in Hr, Hs.
      assert (py p < y1 s \/ y2 s < py p \/
              (y1 s <= py p <= y2 s /\ (px p < x1 s \/ x2 s < px p))) as C by lia.
      destruct C as [C|[C|[C1 C2]]];
        [ exists (mkRect (x1 r) (y1 r) (x2 r) (y1 s - 1))
        | exists (mkRect (x1 r) (y2 s + 1) (x2 r) (y2 r))
        | destruct C2;
          [ exists (mkRect (x1 r) (Z.max (y1 r) (y1 s)) (x1 s - 1) (Z.min (y2 r) (y2 s)))
          | exists (mkRect (x2 s + 1) (Z.max (y1 r) (y1 s)) (x2 r) (Z.min (y2 r) (y2 s))) ] ];
        (split;
         [ apply filter_In; split;
           [ simpl; tauto
           | apply negb_true_iff; unfold QRect_isEmpty; simpl;
             apply orb_false_iff; rewrite !Z.ltb_ge; lia ]
         | unfold in_rect; simpl; lia ]).
Qed.

Lemma proper_QRegion_minus_rect R s : proper R -> proper (QRegion_minus_rect R s).
Proof.
  intros HR q Hq. apply in_flat_map in Hq as (r & Hr & Hq).
  exact (proper_QRect_minus r s (HR r Hr) q Hq).
Qed.

Lemma covers_QRegion_minus_rect R s p :
  covers (QRegion_minus_rect R s) p <-> covers R p /\ ~ in_rect s p.
Proof.
  unfold QRegion_minus_rect. split.
  - intros (q & Hq & Hp). apply in_flat_map in Hq as (r & Hr & Hq).
    destruct (proj1 (covers_QRect_minus r s p)) as [H1 H2]; [now exists q|].
    split; [now exists r | exact H2].
  - intros [(r & Hr & Hp) Hs].
    destruct (proj2 (covers_QRect_minus r s p) (conj Hp Hs)) as (q & Hq & Hq').
    exists q. split; [|exact Hq']. apply in_flat_map. now exists r.
Qed.

Lemma QRegion_subtracted_spec S : forall R p,
  proper R ->
  proper (QRegion_subtracted R S)
  /\ (covers (QRegion_subtracted R S) p <-> covers R p /\ ~ covers S p).
Proof.
  unfold QRegion_subtracted.
  induction S as [|s S IH]; intros R p HR; simpl.
  - split; [exact HR|]. unfold covers at 3. simpl. firstorder.
  - destruct (IH (QRegion_minus_rect R s) p (proper_QRegion_minus_rect R s HR)) as [H1 H2].
    split; [exact H1|]. rewrite H2, covers_QRegion_minus_rect.
    unfold covers at 2 4. simpl. split.
    + intros [[HRp Hs] HS]. split; [exact HRp|].
      intros (q & [<-|Hq] & Hp); [tauto|]. apply HS. now exists q.
    + intros [HRp HS]. repeat split; trivial.
      * intros Hs. apply HS. exists s. tauto.
      * intros (q & Hq & Hp). apply HS. exists q. tauto.
Qed.

(** One exclusion loop of [isInTitleBarDraggableArea]: every element that
    passes [keep] has its rectangle [rect_of] taken out of the region. *)
Lemma exclusion_loop {A} (keep : A -> bool) (rect_of : A -> QRect) (l : list A) :
  forall R p,
    proper R ->
    let R' := fold_left (fun region a =>
                           if keep a then QRegion_subtracted region (QRegion_of (rect_of a))
                           else region) l R in
    proper R'
    /\ (covers R' p <->
        covers R p /\ forall a, In a l -> keep a = true -> ~ in_rect (rect_of a) p).
Proof.
  induction l as [|a l IH]; intros R p HR; simpl.
  - split; [exact HR|]. firstorder.
  - destruct (keep a) eqn:Ka.
    + destruct (QRegion_subtracted_spec (QRegion_of (rect_of a)) R p HR) as [H1 H2].
      destruct (IH _ p H1) as [H3 H4]. split; [exact H3|].
      rewrite H4, H2, covers_QRegion_of. split.
      * intros [[HRp Ha] Hl]. split; [exact HRp|].
        intros b [<-|Hb] Kb; [exact Ha | now apply Hl].
      * intros [HRp Hl]. repeat split; trivial.
        -- apply Hl; [now left | exact Ka].
        -- intros b Hb. apply Hl. now right.
    + destruct (IH R p HR) as [H3 H4]. split; [exact H3|].
      rewrite H4. split.
      * intros [HRp Hl]. split; [exact HRp|].
        intros b [<-|Hb] Kb; [congruence | now apply Hl].
      * intros [HRp Hl]. split; [exact HRp|]. intros b Hb. apply Hl. now right.
Qed.

End Regions.

(** ** The state monad and the window record *)

Ltac run :=
  unfold mbind, M_bind, mret, M_ret, get, gets, modify, skip, call,
    update_widget, load, store in *; simpl in *.

Lemma getWindowData_fst s : fst (getWindowData s) = recordOf s.
Proof.
  unfold getWindowData, recordOf, attachedWindow. run.
  destruct (deref (widgets s) (m_window s)) as [w|]; simpl; [|reflexivity].
  destruct (g_framelessWidgetsHelperData s !! winId w); reflexivity.
Qed.

(** The lazy insertion touches nothing but the table, and in the table only
    adds the default record under the handle of the attached window. *)
Lemma getWindowData_snd s :
  snd (getWindowData s) = s
  \/ exists w, attachedWindow s = Some w
               /\ g_framelessWidgetsHelperData s !! winId w = None
               /\ snd (getWindowData s)
                  = with_data (<[winId w := defaultData]> (g_framelessWidgetsHelperData s)) s.
Proof.
  unfold getWindowData, attachedWindow. run.
  destruct (deref (widgets s) (m_window s)) as [w|]; simpl; [|now left].
  destruct (g_framelessWidgetsHelperData s !! winId w) eqn:E; simpl; [now left|].
  right. exists w. auto.
Qed.

Lemma getWindowData_frame s :
  let s' := snd (getWindowData s) in
  widgets s' = widgets s /\ m_window s' = m_window s /\ trace s' = trace s
  /\ cursorPos s' = cursorPos s.
Proof.
  destruct (getWindowData_snd s) as [->|(w & _ & _ & ->)]; simpl; auto.
Qed.

Lemma recordOf_stable s : recordOf (snd (getWindowData s)) = recordOf s.
Proof.
  destruct (getWindowData_snd s) as [->|(w & Hw & Hn & ->)]; [reflexivity|].
  unfold recordOf, attachedWindow in *. simpl. rewrite Hw.
  now rewrite lookup_insert_eq, Hn.
Qed.

(** ** The draggable area of the title bar *)

Lemma mapWidgetGeometryToScene_ext s s' w :
  widgets s' = widgets s -> m_window s' = m_window s ->
  mapWidgetGeometryToScene s' w = mapWidgetGeometryToScene s w.
Proof. intros Hw Hm. unfold mapWidgetGeometryToScene. now rewrite Hw, Hm. Qed.


Lemma isInTitleBarDraggableArea_unfold s p :
  fst (isInTitleBarDraggableArea p s)
  = match recordOf s with Some d => draggableArea s d p | None => false end.
Proof.
  unfold isInTitleBarDraggableArea. run.
  pose proof (getWindowData_fst s) as Hd.
  pose proof (getWindowData_snd s) as Hs.
  destruct (getWindowData s) as [data s1]. simpl in *. subst data.
  destruct (recordOf s) as [d|]; [|reflexivity].
  assert (widgets s1 = widgets s /\ m_window s1 = m_window s
          /\ mapWidgetGeometryToScene s1 = mapWidgetGeometryToScene s) as (Hw & Hm & Hg).
  { destruct Hs as [->|(w & _ & _ & ->)]; auto. }
  unfold draggableArea, attachedWindow, sceneRect. rewrite Hw, Hm, Hg.
  destruct (deref (widgets s) (titleBarWidget d)) as [tb|]; [|reflexivity].
  destruct (negb (isVisible tb) || negb (isEnabled tb)); [reflexivity|].
  destruct (deref (widgets s) (m_window s)) as [m|]; [|reflexivity].
  destruct (negb _); reflexivity.
Qed.

Lemma recordOf_theRecord s m : attachedWindow s = Some m -> recordOf s = Some (theRecord s).
Proof. unfold theRecord, recordOf. now intros ->. Qed.

Lemma draggable_without_title_bar s p :
  noTitleBar s -> fst (isInTitleBarDraggableArea p s) = false.
Proof.
  intros H. rewrite isInTitleBarDraggableArea_unfold.
  destruct (attachedWindow s) as [m|] eqn:Hm.
  2:{ unfold recordOf. now rewrite Hm. }
  rewrite (recordOf_theRecord s m Hm). unfold draggableArea. rewrite Hm.
  unfold noTitleBar, titleBarOf, titleBarRect, clientRect in H. rewrite Hm in H.
  destruct H as [H|[H|[(tb & Htb & H)|H]]].
  - discriminate.
  - now rewrite H.
  - rewrite Htb. destruct H as [-> | ->]; simpl; [reflexivity|].
    now rewrite orb_true_r.
  - destruct (deref _ _); [|reflexivity].
    destruct (negb _ || negb _); [reflexivity|]. now rewrite H.
Qed.

Lemma draggable_with_title_bar s p :
  ~ noTitleBar s ->
  fst (isInTitleBarDraggableArea p s) = true <-> inDraggableRegion s p.
Proof.
  intros H. rewrite isInTitleBarDraggableArea_unfold.
  unfold noTitleBar, titleBarOf, titleBarRect, clientRect in H.
  destruct (attachedWindow s) as [m|] eqn:Hm; [|tauto].
  rewrite (recordOf_theRecord s m Hm). unfold draggableArea. rewrite Hm.
  set (d := theRecord s) in *.
  destruct (deref (widgets s) (titleBarWidget d)) as [tb|] eqn:Htb; [|tauto].
  destruct (isVisible tb) eqn:Hv;
    [|exfalso; apply H; right; right; left; exists tb; auto].
  destruct (isEnabled tb) eqn:He;
    [|exfalso; apply H; right; right; left; exists tb; auto].
  destruct (QRect_intersects _ _) eqn:Hi; [|tauto]. simpl.
  pose proof (proper_QRegion_of (sceneRect s (titleBarWidget d))) as P0.
  destruct (exclusion_loop (usable (widgets s)) (sceneRect s) (map snd (slots d))
              _ p P0) as [P1 C1].
  destruct (exclusion_loop (usable (widgets s)) (sceneRect s) (hitTestVisibleWidgets d)
              _ p P1) as [P2 C2].
  destruct (exclusion_loop QRect_isValid (fun r => r) (hitTestVisibleRects d)
              _ p P2) as [P3 C3].
  rewrite (QRegion_contains_covers _ p P3), C3, C2, C1, covers_QRegion_of.
  unfold inDraggableRegion, titleBarRect. fold d. split.
  - intros [[[H0 H1] H2] H3]. split; [exact H0|]. split; [|split; assumption].
    intros role b Hb. apply H1. apply in_map_iff. now exists (role, b).
  - intros (H0 & H1 & H2 & H3). split; [split; [split; [exact H0|]|]|]; trivial.
    intros b Hb. apply in_map_iff in Hb as ([role b'] & <- & Hb). now apply (H1 role).
Qed.

(** C1.  [isInTitleBarDraggableArea] returns false when there is no usable
    title bar (none set, hidden, disabled, helper unattached, or mapped
    outside the client rectangle of the window); otherwise it returns true
    exactly for the points of the title-bar rectangle that lie in no visible
    and enabled system button, in no visible and enabled excluded widget and
    in no valid excluded rectangle.  With the title bar at (0,0,400,30), the
    close button at (370,0,30,30) and nothing else excluded, (385,15) is
    outside the area, (10,15) inside and (10,50) outside. *)
Theorem isInTitleBarDraggableArea_spec (s : State) (p : QPoint) :
  (noTitleBar s -> fst (isInTitleBarDraggableArea p s) = false)
  /\ (~ noTitleBar s ->
      (fst (isInTitleBarDraggableArea p s) = true <-> inDraggableRegion s p))
  /\ (~ noTitleBar s ->
      titleBarRect s = QRect_xywh 0 0 400 30 ->
      usable (widgets s) (closeButton (theRecord s)) = true ->
      sceneRect s (closeButton (theRecord s)) = QRect_xywh 370 0 30 30 ->
      (forall role b, In (role, b) (slots (theRecord s)) ->
                      usable (widgets s) b = true -> role = Close) ->
      hitTestVisibleWidgets (theRecord s) = [] ->
      hitTestVisibleRects (theRecord s) = [] ->
      fst (isInTitleBarDraggableArea (mkPoint 385 15) s) = false
      /\ fst (isInTitleBarDraggableArea (mkPoint 10 15) s) = true
      /\ fst (isInTitleBarDraggableArea (mkPoint 10 50) s) = false).
Proof.
  split; [apply draggable_without_title_bar|].
  split; [apply draggable_with_title_bar|].
  intros Hbar Htb Hclose Hrect Honly Hws Hrs.
  split; [|split].
  - apply not_true_is_false. rewrite (draggable_with_title_bar s _ Hbar).
    intros (_ & Hb & _). apply (Hb Close (closeButton (theRecord s))).
    + simpl. tauto.
    + exact Hclose.
    + rewrite Hrect. unfold in_rect. simpl. lia.
  - rewrite (draggable_with_title_bar s _ Hbar).
    unfold inDraggableRegion. rewrite Htb, Hws, Hrs.
    split; [unfold in_rect; simpl; lia|].
    split; [|split; intros ? []].
    intros role b Hin Hb. pose proof (Honly role b Hin Hb) as ->.
    assert (b = closeButton (theRecord s)) as ->.
    { simpl in Hin. intuition congruence. }
    rewrite Hrect. unfold in_rect. simpl. lia.
  - apply not_true_is_false. rewrite (draggable_with_title_bar s _ Hbar).
    intros (Hin & _). rewrite Htb in Hin. unfold in_rect in Hin. simpl in Hin. lia.
Qed.

Lemma isInTitleBarDraggableArea_spec_witness :
  fst (isInTitleBarDraggableArea (mkPoint 385 15) Examples.titleBarWindow) = false
  /\ fst (isInTitleBarDraggableArea (mkPoint 10 15) Examples.titleBarWindow) = true
  /\ fst (isInTitleBarDraggableArea (mkPoint 10 50) Examples.titleBarWindow) = false.
Proof.
  apply (isInTitleBarDraggableArea_spec Examples.titleBarWindow (mkPoint 0 0)).
  - intros [H|[H|[(tb & H1 & H2)|H]]].
    + vm_compute in H. discriminate.
    + vm_compute in H. discriminate.
    + vm_compute in H1. injection H1 as <-. vm_compute in H2.
      destruct H2; discriminate.
    + vm_compute in H. discriminate.
  - vm_compute. reflexivity.
  - vm_compute. reflexivity.
  - vm_compute. reflexivity.
  - intros role b Hin Hb. vm_compute in Hin.
    destruct Hin as [Hin|[Hin|[Hin|[Hin|[Hin|[]]]]]]; injection Hin as <- <-;
      try reflexivity; vm_compute in Hb; discriminate.
  - vm_compute. reflexivity.
  - vm_compute. reflexivity.
Defined.

(** ** System buttons *)

Lemma isInSystemButtons_unattached s p before :
  attachedWindow s = None ->
  isInSystemButtons p (Some before) s = ((false, Some before), s).
Proof.
  intros H. unfold isInSystemButtons, getWindowData. run.
  unfold attachedWindow in H. now rewrite H.
Qed.

Lemma isInSystemButtons_attached s p before m :
  attachedWindow s = Some m ->
  fst (isInSystemButtons p (Some before) s)
  = match firstHit (widgets s) (theRecord s) p with
    | Some role => (true, Some role)
    | None => (false, Some Unknown)
    end.
Proof.
  intros Hm. unfold isInSystemButtons. run.
  pose proof (getWindowData_fst s) as Hd.
  pose proof (getWindowData_frame s) as (Hw & _).
  destruct (getWindowData s) as [data s1]. simpl in *. subst data.
  rewrite (recordOf_theRecord s m Hm), Hw.
  unfold firstHit, hit. simpl.
  repeat (destruct (usable _ _ && geometry_contains _ _ _); [reflexivity|]).
  reflexivity.
Qed.

(** C2 as stated fails on a helper that is not attached: the function leaves
    before it writes [Unknown], so with no button matching the caller's role
    variable keeps the value it had, here [Close]. *)
Lemma isInSystemButtons_unattached_keeps_role :
  firstHit (widgets (Examples.fresh Examples.titleBarStore))
    (theRecord (Examples.fresh Examples.titleBarStore)) (mkPoint 0 0) = None
  /\ fst (isInSystemButtons (mkPoint 0 0) (Some Close) (Examples.fresh Examples.titleBarStore))
     <> (false, Some Unknown).
Proof. split; [reflexivity|]. vm_compute. discriminate. Qed.

(** C2, amended.  On an attached helper [isInSystemButtons] tests the point
    against the assigned, visible and enabled buttons in the order
    window-icon, help, minimize, maximize/restore, close; the first button
    whose rectangle contains the point gives the result, true with its role,
    and when none does the result is false with role [Unknown].  When the
    window-icon button is hit the role is window-icon whatever the help button
    does.  On a helper that is not attached the result is false and the
    caller's role variable is left as it was. *)
Theorem isInSystemButtons_spec (s : State) (p : QPoint) (before : SystemButtonType) :
  (attachedWindow s <> None ->
   fst (isInSystemButtons p (Some before) s)
   = match firstHit (widgets s) (theRecord s) p with
     | Some role => (true, Some role)
     | None => (false, Some Unknown)
     end)
  /\ (attachedWindow s <> None ->
      hit (widgets s) p (WindowIcon, windowIconButton (theRecord s)) = true ->
      fst (isInSystemButtons p (Some before) s) = (true, Some WindowIcon))
  /\ (attachedWindow s = None ->
      fst (isInSystemButtons p (Some before) s) = (false, Some before)).
Proof.
  split; [|split].
  - destruct (attachedWindow s) as [m|] eqn:Hm; [|tauto].
    intros _. now apply isInSystemButtons_attached with m.
  - destruct (attachedWindow s) as [m|] eqn:Hm; [|tauto].
    intros _ Hicon. rewrite (isInSystemButtons_attached s p before m Hm).
    unfold firstHit. simpl. now rewrite Hicon.
  - intros H. now rewrite isInSystemButtons_unattached.
Qed.

Lemma isInSystemButtons_spec_witness :
  fst (isInSystemButtons (mkPoint 15 15) (Some Unknown) Examples.overlapWindow)
  = (true, Some WindowIcon)
  /\ fst (isInSystemButtons (mkPoint 15 15) (Some Unknown) Examples.titleBarWindow)
     = (false, Some Unknown)
  /\ fst (isInSystemButtons (mkPoint 15 15) (Some Close)
            (Examples.fresh Examples.overlapStore))
     = (false, Some Close).
Proof.
  destruct (isInSystemButtons_spec Examples.overlapWindow (mkPoint 15 15) Unknown)
    as (_ & H2 & _).
  destruct (isInSystemButtons_spec Examples.titleBarWindow (mkPoint 15 15) Unknown)
    as (H1 & _ & _).
  destruct (isInSystemButtons_spec (Examples.fresh Examples.overlapStore)
              (mkPoint 15 15) Close) as (_ & _ & H3).
  split; [|split].
  - apply H2.
    + vm_compute. discriminate.
    + vm_compute. reflexivity.
  - apply H1. vm_compute. discriminate.
  - apply H3. reflexivity.
Defined.

(** ** The widget tree under attribute updates *)

Section Tree.

Variable f : QWidget -> QWidget.
Hypothesis f_parent : forall w, parentWidget (f w) = parentWidget w.
Hypothesis f_isWindow : forall w, isWindow (f w) = isWindow w.

Lemma alter_alive (ws : Store) (i j : WidgetId) :
  is_Some (alter f i ws !! j) <-> is_Some (ws !! j).
Proof.
  rewrite lookup_alter. destruct (decide (i = j)) as [->|]; [|reflexivity].
  now rewrite fmap_is_Some.
Qed.

Lemma QPointer_data_alter (ws : Store) (i : WidgetId) (q : QPointer) :
  QPointer_data (alter f i ws) q = QPointer_data ws q.
Proof.
  destruct q as [j|]; [|reflexivity]. simpl.
  pose proof (alter_alive ws i j) as H.
  destruct (alter f i ws !! j), (ws !! j); trivial.
  - destruct (proj1 H) as [? ?]; [eauto | discriminate].
  - destruct (proj2 H) as [? ?]; [eauto | discriminate].
Qed.

Lemma size_alter (ws : Store) (i : WidgetId) : base.size (alter f i ws) = base.size ws.
Proof. now rewrite <- !(size_dom (D := gset WidgetId)), dom_alter_L. Qed.

Lemma window_from_alter (ws : Store) (i : WidgetId) (fuel : nat) :
  forall j, window_from (alter f i ws) fuel j = window_from ws fuel j.
Proof.
  induction fuel as [|fuel IH]; intros j; simpl; [reflexivity|].
  rewrite lookup_alter. destruct (decide (i = j)) as [->|].
  - destruct (ws !! j) as [w|]; simpl; [|reflexivity].
    rewrite f_isWindow, f_parent, QPointer_data_alter.
    destruct (isWindow w); [reflexivity|].
    destruct (QPointer_data ws (parentWidget w)); [apply IH | reflexivity].
  - destruct (ws !! j) as [w|]; [|reflexivity].
    rewrite QPointer_data_alter.
    destruct (isWindow w); [reflexivity|].
    destruct (QPointer_data ws (parentWidget w)); [apply IH | reflexivity].
Qed.

Lemma window_alter (ws : Store) (i j : WidgetId) : window (alter f i ws) j = window ws j.
Proof. unfold window. now rewrite size_alter, window_from_alter. Qed.

End Tree.

(** [QWidget::window()] of a live widget is a live widget. *)
Lemma window_from_alive (ws : Store) (fuel : nat) :
  forall j, is_Some (ws !! j) -> is_Some (ws !! window_from ws fuel j).
Proof.
  induction fuel as [|fuel IH]; intros j Hj; simpl; [exact Hj|].
  destruct Hj as [w E]. rewrite E.
  destruct (isWindow w); [now rewrite E|].
  destruct (parentWidget w) as [q|]; simpl; [|now rewrite E].
  destruct (ws !! q) eqn:Eq; [|now rewrite E].
  apply IH. now rewrite Eq.
Qed.

Lemma findTopLevelWindow_alive s w :
  fst (findTopLevelWindow s) = Some w -> is_Some (widgets s !! w).
Proof.
  unfold findTopLevelWindow. run.
  destruct (q_parent s) as [[q|]|]; try discriminate.
  destruct (widgets s !! q) eqn:E; [|discriminate].
  intros [= <-]. apply window_from_alive. now rewrite E.
Qed.

(** ** attach *)


Lemma setAttributes_alter (ws : Store) (w : WidgetId) (w0 : QWidget) :
  ws !! w = Some w0 ->
  (if negb (WA_NativeWindow w0) then alter set_WA_NativeWindow w else fun m => m)
    ((if negb (WA_DontCreateNativeAncestors w0)
      then alter set_WA_DontCreateNativeAncestors w else fun m => m) ws)
  = alter nativeWindow w ws.
Proof.
  intros Hw. apply map_eq. intros j.
  destruct (decide (w = j)) as [<-|Hne].
  - rewrite lookup_alter_eq, Hw. simpl.
    destruct w0 as [? ? ? ? ? ? ? ? ? ? ? ? a b ? ? ? ? ?]. simpl.
    destruct a, b; simpl;
      rewrite ?lookup_alter_eq, ?Hw; reflexivity.
  - rewrite lookup_alter_ne by exact Hne.
    destruct (negb (WA_NativeWindow w0)), (negb (WA_DontCreateNativeAncestors w0));
      rewrite ?lookup_alter_ne by exact Hne; reflexivity.
Qed.

Lemma findTopLevelWindow_eq s : findTopLevelWindow s = (resolved s, s).
Proof. reflexivity. Qed.

Lemma alter_as_insert `{Countable K} {A} (g : A -> A) (k : K) (t : gmap K A) (d : A) :
  t !! k = Some d -> alter g k t = <[k := g d]> t.
Proof.
  intros Hk. apply map_eq. intros j. destruct (decide (k = j)) as [<-|Hne].
  - now rewrite lookup_alter_eq, lookup_insert_eq, Hk.
  - now rewrite lookup_alter_ne, lookup_insert_ne.
Qed.

Lemma attach_eq s w w0 :
  resolved s = Some w -> widgets s !! w = Some w0 ->
  QPointer_data (widgets s) (m_window s) <> Some w ->
  attach s = (tt, attachResult s w w0).
Proof.
  intros Hr Hw Hm. unfold attach.
  unfold mbind at 1. unfold M_bind at 1. rewrite findTopLevelWindow_eq, Hr.
  unfold mbind, M_bind, mret, M_ret, get, gets, modify, skip, call,
    update_widget, load, store. simpl.
  destruct (decide _) as [|_]; [contradiction|].
  rewrite Hw. simpl.
  pose proof (setAttributes_alter (widgets s) w w0 Hw) as Hattr.
  unfold attachResult, getWindowDataMutable.
  unfold mbind, M_bind, mret, M_ret, get, gets, modify.
  destruct (WA_DontCreateNativeAncestors w0), (WA_NativeWindow w0); simpl in *;
    rewrite ?lookup_alter_eq, ?Hw; simpl;
    (destruct (g_framelessWidgetsHelperData s !! winId w0) as [d|] eqn:T; simpl;
     [ rewrite T; simpl; destruct (ready d) eqn:Rd; simpl;
       [ rewrite <- Hattr; reflexivity
       | rewrite ?lookup_alter_eq, ?Hw; simpl;
         rewrite (alter_as_insert _ _ _ d T), alter_insert_eq, ?insert_insert_eq;
         rewrite <- Hattr, <- app_assoc; reflexivity ]
     | rewrite lookup_insert_eq; simpl;
       rewrite ?lookup_alter_eq, ?Hw; simpl;
       rewrite !alter_insert_eq, ?insert_insert_eq;
       rewrite <- Hattr, <- app_assoc; reflexivity ]).
Qed.


Lemma attach_already s w :
  resolved s = Some w -> QPointer_data (widgets s) (m_window s) = Some w ->
  attach s = (tt, s).
Proof.
  intros Hr Hm. unfold attach. unfold mbind at 1. unfold M_bind at 1.
  rewrite findTopLevelWindow_eq, Hr. run.
  destruct (decide _); [reflexivity | contradiction].
Qed.

Lemma nativeWindow_parent w : parentWidget (nativeWindow w) = parentWidget w.
Proof. reflexivity. Qed.

Lemma nativeWindow_isWindow w : isWindow (nativeWindow w) = isWindow w.
Proof. reflexivity. Qed.

(** Setting the two attributes does not move the window the helper finds. *)
Lemma resolved_nativeWindow s s' w :
  q_parent s' = q_parent s -> widgets s' = alter nativeWindow w (widgets s) ->
  resolved s' = resolved s.
Proof.
  intros Hq Hw. unfold resolved, findTopLevelWindow. run. rewrite Hq, Hw.
  destruct (q_parent s) as [[q|]|]; trivial.
  rewrite (window_alter nativeWindow nativeWindow_parent nativeWindow_isWindow).
  pose proof (alter_alive nativeWindow (widgets s) w q) as H.
  destruct (alter nativeWindow w (widgets s) !! q), (widgets s !! q); trivial.
  - destruct (proj1 H) as [? ?]; [eauto | discriminate].
  - destruct (proj2 H) as [? ?]; [eauto | discriminate].
Qed.

Lemma attachResult_frame s w w0 :
  let s' := attachResult s w w0 in
  q_parent s' = q_parent s /\ widgets s' = alter nativeWindow w (widgets s)
  /\ m_window s' = Some w /\ m_destroying s' = m_destroying s.
Proof. unfold attachResult. destruct (ready _); simpl; auto. Qed.





(** ** detach *)

Lemma detach_unattached s : attachedWindow s = None -> detach s = (tt, s).
Proof. unfold attachedWindow, detach. intros H. run. now rewrite H. Qed.

Lemma detach_without_record s w0 :
  attachedWindow s = Some w0 -> g_framelessWidgetsHelperData s !! winId w0 = None ->
  detach s = (tt, s).
Proof. unfold attachedWindow, detach. intros H T. run. now rewrite H, T. Qed.

Lemma detach_eq s w0 d :
  attachedWindow s = Some w0 -> g_framelessWidgetsHelperData s !! winId w0 = Some d ->
  detach s
  = (tt, with_m_window None
           (with_trace (trace s ++ [removeWindow (winId w0)])
              (with_data (delete (winId w0) (g_framelessWidgetsHelperData s)) s))).
Proof.
  unfold attachedWindow, detach. intros H T. run. rewrite H, T. reflexivity.
Qed.

(** ** Notifications *)

Lemma for_each_invokeMethod (sig : string) (l : list HelperId) s :
  for_each l (fun instance => call (invokeMethod instance sig)) s
  = (tt, with_trace (trace s ++ map (fun instance => invokeMethod instance sig) l) s).
Proof.
  revert s. induction l as [|i l IH]; intros s; simpl.
  - rewrite app_nil_r. now destruct s.
  - run. rewrite IH. simpl. now rewrite <- app_assoc.
Qed.


Lemma emitSignalForAllInstances_eq (sig : string) s :
  sig <> EmptyString ->
  emitSignalForAllInstances (Some sig) s
  = (tt, with_trace (trace s ++ map (fun instance => invokeMethod instance sig) (audience s)) s).
Proof.
  intros Hs. unfold emitSignalForAllInstances, audience, attachedWindow.
  destruct (decide _) as [|_]; [contradiction|]. run.
  destruct (deref (widgets s) (m_window s)) as [w|].
  - destruct (helperInstances w) as [|i l] eqn:E.
    + simpl. rewrite app_nil_r. now destruct s.
    + rewrite <- E. apply for_each_invokeMethod.
  - simpl. rewrite app_nil_r. now destruct s.
Qed.

(** ** extendsContentIntoTitleBar *)

Lemma QPointer_data_deref (ws : Store) (q : QPointer) :
  deref ws q = None -> QPointer_data ws q = None.
Proof. destruct q as [i|]; simpl; [|trivial]. now intros ->. Qed.

Lemma contentExtended_eq s :
  contentExtended s = match recordOf s with Some d => ready d | None => false end.
Proof.
  unfold contentExtended, isContentExtendedIntoTitleBar. run.
  pose proof (getWindowData_fst s) as H.
  destruct (getWindowData s) as [d s1]. simpl in *. now subst d.
Qed.

Lemma contentExtended_attached s w0 :
  coherent s -> attachedWindow s = Some w0 -> contentExtended s = true.
Proof.
  intros [_ H] Hw. rewrite contentExtended_eq. unfold recordOf. rewrite Hw in *.
  destruct H as (d & -> & Hd). exact Hd.
Qed.

Lemma contentExtended_unattached s : attachedWindow s = None -> contentExtended s = false.
Proof. intros Hw. rewrite contentExtended_eq. unfold recordOf. now rewrite Hw. Qed.

(** On a coherent state the query inserts nothing. *)
Lemma isContentExtendedIntoTitleBar_coherent s :
  coherent s -> isContentExtendedIntoTitleBar s = (contentExtended s, s).
Proof.
  intros [_ H]. unfold contentExtended, isContentExtendedIntoTitleBar. run.
  destruct (getWindowData_snd s) as [Hs|(w & Hw & Hn & _)].
  - destruct (getWindowData s) as [d s1]. simpl in *. now subst s1.
  - rewrite Hw in H. destruct H as (d & Hd & _). congruence.
Qed.

Lemma notifyChanged_eq s : exists t, notifyChanged s = (tt, with_trace t s).
Proof.
  unfold notifyChanged, mbind, M_bind, get. destruct (negb (m_destroying s)).
  - rewrite emitSignalForAllInstances_eq by discriminate. eauto.
  - exists (trace s). now destruct s.
Qed.

Lemma coherent_with_trace t s : coherent (with_trace t s) <-> coherent s.
Proof. reflexivity. Qed.

Lemma contentExtended_with_trace t s : contentExtended (with_trace t s) = contentExtended s.
Proof. rewrite !contentExtended_eq. reflexivity. Qed.

Lemma extendsContentIntoTitleBar_eq s value :
  coherent s ->
  extendsContentIntoTitleBar value s
  = if bool_decide (contentExtended s = value) then (tt, s)
    else notifyChanged (snd ((if value then attach else detach) s)).
Proof.
  intros H. unfold extendsContentIntoTitleBar.
  unfold mbind at 1. unfold M_bind at 1.
  rewrite (isContentExtendedIntoTitleBar_coherent s H).
  destruct (bool_decide _); [reflexivity|].
  unfold mbind at 1. unfold M_bind at 1.
  destruct ((if value then attach else detach) s) as [[] s1]. reflexivity.
Qed.

Lemma attach_coherent s :
  coherent s -> contentExtended s = false ->
  coherent (snd (attach s)) /\ contentExtended (snd (attach s)) = true.
Proof.
  intros H Hf. pose proof H as [[w Hr] _]. fold (resolved s) in Hr.
  destruct (findTopLevelWindow_alive s w Hr) as [w0 Hw].
  assert (attachedWindow s = None) as Hm.
  { destruct (attachedWindow s) as [m|] eqn:E; [|reflexivity].
    rewrite (contentExtended_attached s m H E) in Hf. discriminate. }
  assert (QPointer_data (widgets s) (m_window s) <> Some w) as Hne.
  { rewrite (QPointer_data_deref _ _ Hm). discriminate. }
  rewrite (attach_eq s w w0 Hr Hw Hne). simpl.
  destruct (attachResult_frame s w w0) as (Hq & Hws & Hmw & _).
  assert (coherent (attachResult s w w0)) as Hc.
  { split.
    - exists w. fold (resolved (attachResult s w w0)).
      now rewrite (resolved_nativeWindow s _ w Hq Hws).
    - unfold attachedWindow. rewrite Hmw, Hws. simpl.
      rewrite lookup_alter_eq, Hw. simpl.
      unfold attachResult.
      destruct (g_framelessWidgetsHelperData s !! winId w0) as [d|] eqn:T; simpl.
      + destruct (ready d) eqn:Rd; simpl.
        * exists d. auto.
        * rewrite lookup_insert_eq. eauto.
      + rewrite lookup_insert_eq. eauto. }
  split; [exact Hc|].
  apply contentExtended_attached with (nativeWindow w0); [exact Hc|].
  unfold attachedWindow. rewrite Hmw, Hws. simpl. now rewrite lookup_alter_eq, Hw.
Qed.

Lemma detach_coherent s :
  coherent s -> contentExtended s = true ->
  coherent (snd (detach s)) /\ contentExtended (snd (detach s)) = false.
Proof.
  intros H Hf. pose proof H as [Hr Hrec].
  destruct (attachedWindow s) as [w0|] eqn:Hm.
  2:{ rewrite (contentExtended_unattached s Hm) in Hf. discriminate. }
  destruct Hrec as (d & T & _).
  rewrite (detach_eq s w0 d Hm T). simpl. split.
  - split; [exact Hr | exact I].
  - now apply contentExtended_unattached.
Qed.

Lemma extendsContentIntoTitleBar_coherent s value :
  coherent s ->
  let s' := snd (extendsContentIntoTitleBar value s) in
  coherent s' /\ contentExtended s' = value.
Proof.
  intros H. simpl. rewrite (extendsContentIntoTitleBar_eq s value H).
  destruct (bool_decide_reflect (contentExtended s = value)) as [He|Hne]; [now split|].
  assert (contentExtended s = negb value) as Hf by (destruct (contentExtended s), value; tauto).
  destruct value; simpl in *.
  - destruct (attach_coherent s H Hf) as [Hc Ht].
    destruct (notifyChanged_eq (snd (attach s))) as [t ->]. simpl.
    now rewrite coherent_with_trace, contentExtended_with_trace.
  - destruct (detach_coherent s H Hf) as [Hc Ht].
    destruct (notifyChanged_eq (snd (detach s))) as [t ->]. simpl.
    now rewrite coherent_with_trace, contentExtended_with_trace.
Qed.

Lemma last_cons_default {A} (l : list A) : forall a d d',
  List.last (a :: l) d = List.last (a :: l) d'.
Proof.
  induction l as [|b l IH]; intros a d d'; [reflexivity|].
  change (List.last (b :: l) d = List.last (b :: l) d'). apply IH.
Qed.

Lemma extendsContentIntoTitleBar_sequence (calls : list bool) : forall s,
  coherent s ->
  let s' := snd (for_each calls extendsContentIntoTitleBar s) in
  coherent s' /\ contentExtended s' = List.last calls (contentExtended s).
Proof.
  induction calls as [|value calls IH]; intros s H; simpl; [now split|].
  unfold mbind, M_bind.
  destruct (extendsContentIntoTitleBar_coherent s value H) as [Hc Hv].
  destruct (extendsContentIntoTitleBar value s) as [[] s1]. simpl in *.
  destruct (IH s1 Hc) as [Hc' Hl]. split; [exact Hc'|].
  rewrite Hl, Hv. destruct calls; [reflexivity | apply last_cons_default].
Qed.

(** X18. While the binding of the helper and the record of the window agree
    ([coherent]: the parent resolves to a window, and a bound helper finds
    the record of its window ready; true at construction and kept by these
    calls of the helper itself), after any sequence of
    [extendsContentIntoTitleBar] calls the flag
    [isContentExtendedIntoTitleBar] is the value the last call asked for:
    true after an attach, false after a detach.  A call that asks for the
    value in effect changes nothing at all; a call that asks for the other
    value runs [attach] (for true) or [detach] (for false), then the
    notification, and flips the flag. *)
Theorem extendsContentIntoTitleBar_spec (s : State) (calls : list bool) (value : bool) :
  coherent s ->
  contentExtended (snd (for_each calls extendsContentIntoTitleBar s))
  = List.last calls (contentExtended s)
  /\ (contentExtended s = value -> extendsContentIntoTitleBar value s = (tt, s))
  /\ (contentExtended s <> value ->
      snd (extendsContentIntoTitleBar value s)
      = snd (notifyChanged (snd ((if value then attach else detach) s)))
      /\ contentExtended (snd (extendsContentIntoTitleBar value s)) = value).
Proof.
  intros H. split; [apply (extendsContentIntoTitleBar_sequence calls s H)|].
  split.
  - intros He. rewrite (extendsContentIntoTitleBar_eq s value H).
    now rewrite bool_decide_eq_true_2.
  - intros Hne. split; [|apply (extendsContentIntoTitleBar_coherent s value H)].
    rewrite (extendsContentIntoTitleBar_eq s value H).
    now rewrite bool_decide_eq_false_2.
Qed.

(** A helper that has just been constructed under a widget is coherent. *)
Lemma coherent_constructed s w :
  fst (findTopLevelWindow s) = Some w -> m_window s = None -> coherent s.
Proof.
  intros Hr Hm. split; [now exists w|]. unfold attachedWindow. now rewrite Hm.
Qed.

Lemma coherent_fresh : coherent (Examples.fresh Examples.titleBarStore).
Proof. split; [exists 1%positive; reflexivity | exact I]. Defined.

Lemma extendsContentIntoTitleBar_spec_witness :
  contentExtended
    (snd (for_each [true; false; true] extendsContentIntoTitleBar
            (Examples.fresh Examples.titleBarStore))) = true
  /\ contentExtended
       (snd (for_each [true; true; false] extendsContentIntoTitleBar
               (Examples.fresh Examples.titleBarStore))) = false.
Proof.
  split.
  - exact (proj1 (extendsContentIntoTitleBar_spec (Examples.fresh Examples.titleBarStore)
                    [true; false; true] true coherent_fresh)).
  - exact (proj1 (extendsContentIntoTitleBar_spec (Examples.fresh Examples.titleBarStore)
                    [true; true; false] true coherent_fresh)).
Defined.

(** Two helpers on one window.  [detach] erases the record of the window, which
    all its helpers share, and clears the window reference of the calling
    helper only.  A second helper stays bound to the window; its next query
    re-creates the record, not ready, and [attach] returns at its guard
    [m_window == window] before it would register the window. *)
Lemma extendsContentIntoTitleBar_bound_unready s w :
  resolved s = Some w -> QPointer_data (widgets s) (m_window s) = Some w ->
  contentExtended s = false ->
  extendsContentIntoTitleBar true s = notifyChanged (snd (getWindowData s)).
Proof.
  intros Hr Hm Hf. unfold extendsContentIntoTitleBar.
  unfold mbind at 1. unfold M_bind at 1.
  assert (isContentExtendedIntoTitleBar s = (false, snd (getWindowData s))) as ->.
  { unfold contentExtended in Hf. revert Hf.
    unfold isContentExtendedIntoTitleBar, mbind, M_bind, mret, M_ret.
    destruct (getWindowData s) as [[d|] s1]; simpl; intros Hf; now rewrite ?Hf. }
  cbv beta iota. rewrite bool_decide_eq_false_2 by discriminate.
  destruct (getWindowData_frame s) as (Hw & Hmw & _).
  unfold mbind at 1. unfold M_bind at 1.
  rewrite (attach_already (snd (getWindowData s)) w).
  - reflexivity.
  - unfold resolved, findTopLevelWindow, mbind, M_bind, get, mret, M_ret in *.
    cbn [fst] in *. rewrite Hw.
    destruct (getWindowData_snd s) as [->|(w1 & _ & _ & ->)]; exact Hr.
  - now rewrite Hw, Hmw.
Qed.

(** C4.  The flag does not always follow the last call.  Let two helpers be
    children of one window and let the first turn the frameless mode on,
    the second turn it on, and the first turn it off.  The flag is then
    false, as the claim says.  When the second helper now calls
    [extendsContentIntoTitleBar(true)], [attach] runs and
    "extendsContentIntoTitleBarChanged" is delivered to both helpers, but the
    window is not registered and the flag stays false: this helper is still
    bound to the window, so [attach] returns at once.  The same happens from
    every state in which the helper is bound to the window its parent resolves
    to while the flag reads false. *)
Theorem extendsContentIntoTitleBar_stays_off (s : State) (w : WidgetId) :
  (resolved s = Some w -> QPointer_data (widgets s) (m_window s) = Some w ->
   contentExtended s = false ->
   let s' := snd (extendsContentIntoTitleBar true s) in
   contentExtended s' = false
   /\ trace s' = trace s ++ (if m_destroying s then []
                             else delivered "extendsContentIntoTitleBarChanged" (audience s))
   /\ widgets s' = widgets s /\ m_window s' = m_window s)
  /\ contentExtended firstOn = true
  /\ contentExtended secondOn = true
  /\ contentExtended firstOff = false
  /\ resolved secondAfterFirstOff = Some 1%positive
  /\ QPointer_data (widgets secondAfterFirstOff) (m_window secondAfterFirstOff)
     = Some 1%positive
  /\ contentExtended secondAfterFirstOff = false
  /\ contentExtended (snd (extendsContentIntoTitleBar true secondAfterFirstOff)) = false
  /\ trace (snd (extendsContentIntoTitleBar true secondAfterFirstOff))
     = trace secondAfterFirstOff
       ++ [invokeMethod 9%positive "extendsContentIntoTitleBarChanged";
           invokeMethod 10%positive "extendsContentIntoTitleBarChanged"].
Proof.
  split; [|repeat split; vm_compute; reflexivity].
  intros Hr Hm Hf. cbv zeta.
  rewrite (extendsContentIntoTitleBar_bound_unready s w Hr Hm Hf).
  destruct (getWindowData_frame s) as (Hw & Hmw & Ht & _).
  assert (audience (snd (getWindowData s)) = audience s) as Ha
      by (unfold audience, attachedWindow; now rewrite Hw, Hmw).
  assert (m_destroying (snd (getWindowData s)) = m_destroying s) as Hd
      by (destruct (getWindowData_snd s) as [->|(w1 & _ & _ & ->)]; reflexivity).
  assert (contentExtended (snd (getWindowData s)) = false) as Hc
      by (now rewrite contentExtended_eq, recordOf_stable, <- contentExtended_eq).
  unfold notifyChanged, mbind, M_bind, get. rewrite Hd.
  destruct (m_destroying s); cbn [negb].
  - unfold skip, mret, M_ret. cbn [snd]. rewrite app_nil_r. auto.
  - rewrite emitSignalForAllInstances_eq by discriminate. cbn [snd].
    rewrite contentExtended_with_trace, Ha, Ht. auto.
Qed.

Lemma extendsContentIntoTitleBar_stays_off_witness :
  contentExtended (snd (extendsContentIntoTitleBar true secondAfterFirstOff)) = false.
Proof.
  apply (proj1 (extendsContentIntoTitleBar_stays_off secondAfterFirstOff 1%positive));
    vm_compute; reflexivity.
Defined.

Lemma detach_snd s :
  snd (detach s)
  = match attachedWindow s with
    | Some w0 =>
        match g_framelessWidgetsHelperData s !! winId w0 with
        | Some _ =>
            with_m_window None
              (with_trace (trace s ++ [removeWindow (winId w0)])
                 (with_data (delete (winId w0) (g_framelessWidgetsHelperData s)) s))
        | None => s
        end
    | None => s
    end.
Proof.
  destruct (attachedWindow s) as [w0|] eqn:Hm.
  - destruct (g_framelessWidgetsHelperData s !! winId w0) as [d|] eqn:T.
    + now rewrite (detach_eq s w0 d Hm T).
    + now rewrite (detach_without_record s w0 Hm T).
  - now rewrite (detach_unattached s Hm).
Qed.

(** The destructor runs [detach] with [m_destroying] set and sends nothing. *)
Lemma destructor_snd s :
  coherent s -> attachedWindow s <> None ->
  snd (destructor s) = snd (detach (with_m_destroying true s)).
Proof.
  intros H Hm. unfold destructor, mbind, M_bind, modify.
  assert (coherent (with_m_destroying true s)) as H' by exact H.
  rewrite (extendsContentIntoTitleBar_eq _ false H').
  destruct (attachedWindow s) as [w0|] eqn:E; [|contradiction].
  rewrite (contentExtended_attached _ w0 H' E).
  rewrite bool_decide_eq_false_2 by discriminate.
  unfold notifyChanged, mbind, M_bind, get.
  rewrite detach_snd. change (attachedWindow (with_m_destroying true s)) with (attachedWindow s).
  destruct H as [_ H]. rewrite E in *. destruct H as (d & T & _). simpl. now rewrite T.
Qed.

(** C5 (what the code does).  [detach] is a no-op on a helper that is not
    bound to a window; on a bound helper whose record is in the table it
    erases the record, calls [removeWindow] once and clears [m_window].  It
    never delivers "windowChanged": the window reference is cleared before
    [emitSignalForAllInstances] runs, and that function returns at once when
    the reference is null.  On the example window, whose child list holds the
    helper instance 9, the trace grows by the single [removeWindow]. *)
Theorem detach_delivers_no_windowChanged :
  (forall s,
     trace (snd (detach s))
     = trace s ++ match attachedWindow s with
                  | Some w0 =>
                      match g_framelessWidgetsHelperData s !! winId w0 with
                      | Some _ => [removeWindow (winId w0)]
                      | None => []
                      end
                  | None => []
                  end)
  /\ audience Examples.titleBarWindow = [9%positive]
  /\ trace (snd (detach Examples.titleBarWindow))
     = trace Examples.titleBarWindow ++ [removeWindow 100%N]
  /\ ~ In (invokeMethod 9%positive "windowChanged")
          (trace (snd (detach Examples.titleBarWindow))).
Proof.
  split; [|split; [|split]].
  - intros s. rewrite detach_snd.
    destruct (attachedWindow s) as [w0|]; [|now rewrite app_nil_r].
    destruct (g_framelessWidgetsHelperData s !! winId w0); [reflexivity|].
    now rewrite app_nil_r.
  - reflexivity.
  - vm_compute. reflexivity.
  - vm_compute. intuition discriminate.
Qed.

(** ** The resize border *)

Lemma windowStatesToWindowState_normal (m : QWidget) :
  windowStatesToWindowState (windowState m) = WindowNoState <-> normalState m.
Proof.
  unfold windowStatesToWindowState, normalState.
  destruct (testFlags (windowState m) WindowFullScreen),
           (testFlags (windowState m) WindowMaximized),
           (testFlags (windowState m) WindowMinimized);
    unfold WindowFullScreen, WindowMaximized, WindowMinimized, WindowNoState;
    intuition congruence.
Qed.

(** C6.  On an attached helper [shouldIgnoreMouseEvents] is true exactly when
    the window is in its normal state and the point is in the top band of the
    resize border or, where no native frame border is drawn, in the left or
    the right band.  With the thickness 8, a point with y = 3 is ignored on a
    normal window and not ignored on a maximized one. *)
Theorem shouldIgnoreMouseEvents_spec (s : State) (m : QWidget) (p : QPoint) :
  attachedWindow s = Some m ->
  (shouldIgnoreMouseEvents s p = true <->
   normalState m
   /\ (topBand p \/ (nativeFrameBorder s = false /\ (leftBand p \/ rightBand m p))))
  /\ (normalState m -> py p = 3 -> shouldIgnoreMouseEvents s p = true)
  /\ (testFlags (windowState m) WindowMaximized = true ->
      shouldIgnoreMouseEvents s p = false).
Proof.
  intros Hm. unfold shouldIgnoreMouseEvents. unfold attachedWindow in Hm. rewrite Hm.
  unfold topBand, leftBand, rightBand, nativeFrameBorder.
  pose proof (windowStatesToWindowState_normal m) as Hn.
  split; [|split].
  - rewrite andb_true_iff, bool_decide_eq_true, Hn.
    destruct (py p <? kDefaultResizeBorderThickness) eqn:Ey.
    + apply Z.ltb_lt in Ey. tauto.
    + apply Z.ltb_ge in Ey.
      destruct (Q_OS_WINDOWS s && isWindowFrameBorderVisible s).
      * intuition (try discriminate; lia).
      * rewrite orb_true_iff, Z.ltb_lt, Z.leb_le. intuition lia.
  - intros Hnormal Hy. apply andb_true_iff. split.
    + apply bool_decide_eq_true. now apply Hn.
    + rewrite Hy. reflexivity.
  - intros Hmax. apply andb_false_iff. left. apply bool_decide_eq_false.
    rewrite Hn. unfold normalState. rewrite Hmax. intuition discriminate.
Qed.

Lemma shouldIgnoreMouseEvents_spec_witness :
  shouldIgnoreMouseEvents Examples.titleBarWindow (mkPoint 200 3) = true
  /\ shouldIgnoreMouseEvents Examples.maximizedWindow (mkPoint 200 3) = false.
Proof.
  split.
  - eapply (shouldIgnoreMouseEvents_spec Examples.titleBarWindow _ (mkPoint 200 3)).
    + vm_compute. reflexivity.
    + vm_compute. auto.
    + reflexivity.
  - eapply (shouldIgnoreMouseEvents_spec Examples.maximizedWindow _ (mkPoint 200 3)).
    + vm_compute. reflexivity.
    + vm_compute. reflexivity.
Defined.

(** ** The repaint forcer *)

Lemma nudged_back (ws : Store) (i : WidgetId) (w : QWidget) (p1 p2 : QPoint) :
  ws !! i = Some w ->
  alter (set_pos (pos w)) i (alter (set_pos p2) i (alter (set_pos p1) i ws)) = ws.
Proof.
  intros Hw. apply map_eq. intros j. destruct (decide (i = j)) as [<-|Hne].
  - rewrite !lookup_alter_eq, Hw. simpl. now destruct w.
  - now rewrite !lookup_alter_ne.
Qed.

Lemma with_widgets_same s : with_widgets (widgets s) s = s.
Proof. now destruct s. Qed.

Lemma forceWidgetRepaint_settled s i w :
  widgets s !! i = Some w -> settledWindow w = true ->
  snd (forceWidgetRepaint (Some i) s)
  = with_trace (trace s ++ [Update i] ++ frameMargins s i w ++ [Update i]) s.
Proof.
  intros Hw Hs. unfold forceWidgetRepaint, QWidget_update, frameMargins. run.
  rewrite Hw. unfold settledWindow in Hs. apply andb_true_iff in Hs as [Hs1 Hs2].
  rewrite Hs1 in *. simpl in *. rewrite Hs2. simpl.
  destruct (Q_OS_WINDOWS s); simpl; [destruct (hasWindowHandle w); simpl|];
    rewrite <- ?app_assoc; reflexivity.
Qed.

Lemma forceWidgetRepaint_fixed s i w :
  widgets s !! i = Some w -> settledWindow w = false ->
  isWidgetFixedSize (widgets s) (Some i) = true ->
  snd (forceWidgetRepaint (Some i) s)
  = with_trace (trace s ++ [Update i] ++ nudges i w ++ frameMargins s i w ++ [Update i]) s.
Proof.
  intros Hw Hs Hf.
  unfold forceWidgetRepaint, QWidget_update, QWidget_move, frameMargins, nudges. run.
  rewrite Hw. unfold settledWindow in Hs.
  assert (negb (isWindow w)
          || negb (testFlags (windowState w)
                     (Z.lor (Z.lor WindowMinimized WindowMaximized) WindowFullScreen)) = true)
    as Hgo.
  { rewrite <- negb_andb. now rewrite Hs. }
  simpl in Hgo. rewrite Hgo. simpl. rewrite Hf. simpl. rewrite Hw. simpl.
  rewrite (nudged_back (widgets s) i w _ _ Hw).
  destruct (Q_OS_WINDOWS s); simpl;
    [destruct (isWindow w); simpl; [destruct (hasWindowHandle w); simpl|]|];
    rewrite <- ?app_assoc; simpl; now destruct s.
Qed.

(** C7 as stated fails on a fixed-size top-level window that is maximized: it
    is not minimized, so the claim has its position perturbed, but the forcer
    leaves every maximized window alone. *)
Lemma forceWidgetRepaint_maximized_not_nudged :
  ~ (forall s i w,
       widgets s !! i = Some w ->
       isWidgetFixedSize (widgets s) (Some i) = true ->
       isWindow w && testFlags (windowState w) WindowMinimized = false ->
       exists p, In (Move i p) (trace (snd (forceWidgetRepaint (Some i) s)))).
Proof.
  intros H.
  destruct (H Examples.fixedMaximized 1%positive _ eq_refl) as [p Hp].
  - vm_compute. reflexivity.
  - vm_compute. reflexivity.
  - vm_compute in Hp. intuition discriminate.
Qed.

(** C7, amended.  For a fixed-size widget the repaint forcer performs no
    resize and leaves the widget as it was, size and position included; its
    position is still perturbed and restored, unless the widget is a
    minimized, maximized or fullscreen top-level window.  For such a window
    all size and position perturbation is skipped: apart from the Windows
    frame-margin update only the two [update] calls happen. *)
Theorem forceWidgetRepaint_spec (s : State) (i : WidgetId) (w : QWidget) :
  widgets s !! i = Some w ->
  let s' := snd (forceWidgetRepaint (Some i) s) in
  (isWidgetFixedSize (widgets s) (Some i) = true ->
   widgets s' !! i = Some w
   /\ (forall sz, In (Resize i sz) (trace s') -> In (Resize i sz) (trace s))
   /\ (settledWindow w = false ->
       trace s' = trace s ++ [Update i] ++ nudges i w ++ frameMargins s i w ++ [Update i]))
  /\ (settledWindow w = true ->
      widgets s' = widgets s
      /\ trace s' = trace s ++ [Update i] ++ frameMargins s i w ++ [Update i]).
Proof.
  intros Hw. cbv zeta. split.
  - intros Hf. destruct (settledWindow w) eqn:Hs.
    + rewrite (forceWidgetRepaint_settled s i w Hw Hs). simpl.
      split; [exact Hw|]. split; [|discriminate].
      intros sz Hin. apply in_app_or in Hin as [Hin|Hin]; [exact Hin|].
      unfold frameMargins in Hin. destruct (_ && _) in Hin; simpl in Hin;
        intuition discriminate.
    + rewrite (forceWidgetRepaint_fixed s i w Hw Hs Hf). simpl.
      split; [exact Hw|]. split; [|reflexivity].
      intros sz Hin. apply in_app_or in Hin as [Hin|Hin]; [exact Hin|].
      unfold frameMargins in Hin. destruct (_ && _) in Hin; simpl in Hin;
        intuition discriminate.
  - intros Hs. rewrite (forceWidgetRepaint_settled s i w Hw Hs). simpl. auto.
Qed.

Lemma forceWidgetRepaint_spec_witness :
  widgets (snd (forceWidgetRepaint (Some 2%positive) Examples.fixedChild)) !! 2%positive
  = Some Examples.fixedChildWidget
  /\ trace (snd (forceWidgetRepaint (Some 2%positive) Examples.fixedChild))
     = [Update 2%positive; Move 2%positive (mkPoint (-5) (-3));
        Move 2%positive (mkPoint 15 17); Move 2%positive (mkPoint 5 7); Update 2%positive]
  /\ trace (snd (forceWidgetRepaint (Some 1%positive) Examples.fixedMaximized))
     = [Update 1%positive; Update 1%positive].
Proof.
  destruct (forceWidgetRepaint_spec Examples.fixedChild 2%positive
              Examples.fixedChildWidget eq_refl) as [H _].
  destruct (H eq_refl) as (H1 & _ & H3).
  destruct (forceWidgetRepaint_spec Examples.fixedMaximized 1%positive
              Examples.fixedMaximizedWidget eq_refl) as [_ H'].
  split; [exact H1|]. split; [exact (H3 eq_refl) | exact (proj2 (H' eq_refl))].
Defined.

(** ** Button state feedback *)

Lemma QPointer_data_alive (ws : Store) (q : QPointer) (i : WidgetId) :
  QPointer_data ws q = Some i -> is_Some (ws !! i).
Proof.
  destruct q as [j|]; simpl; [|discriminate].
  destruct (ws !! j) eqn:E; [|discriminate]. intros [= <-]. now rewrite E.
Qed.

Lemma setSystemButtonState_eq s role state :
  role <> Unknown ->
  setSystemButtonState role state s
  = let s1 := snd (getWindowData s) in
    match occupant s role with
    | None => (tt, s1)
    | Some btn =>
        match widgets s !! btn with
        | None => (tt, s1)
        | Some b =>
            let window := window (widgets s) btn in
            (tt, with_trace
                   (trace s1 ++
                    [emulateQtMouseEvent btn window state (cursorPos s)
                       (mapFromGlobal (widgets s) window (cursorPos s))
                       (mapFromGlobal (widgets s) btn (cursorPos s))
                       (underMouse b) (WA_Hover b)]) s1)
        end
    end.
Proof.
  intros Hrole. unfold setSystemButtonState, occupant.
  destruct (decide (role = Unknown)) as [|_]; [contradiction|].
  unfold mbind, M_bind, mret, M_ret, get, gets, skip, call, modify.
  pose proof (getWindowData_fst s) as Hd.
  pose proof (getWindowData_frame s) as (Hw & _ & _ & Hc).
  destruct (getWindowData s) as [data s1]. simpl in *. subst data.
  unfold theRecord. destruct (recordOf s) as [d|]; simpl.
  - rewrite Hw.
    assert (match role with
            | Unknown => None
            | WindowIcon => QPointer_data (widgets s) (windowIconButton d)
            | Help => QPointer_data (widgets s) (contextHelpButton d)
            | Minimize => QPointer_data (widgets s) (minimizeButton d)
            | Close => QPointer_data (widgets s) (closeButton d)
            | _ => QPointer_data (widgets s) (maximizeButton d)
            end = QPointer_data (widgets s) (slotFor role d)) as ->
        by (destruct role; reflexivity).
    destruct (QPointer_data (widgets s) (slotFor role d)) as [btn|]; [|reflexivity].
    simpl. rewrite Hw, Hc.
    destruct (widgets s !! btn); reflexivity.
  - now destruct role.
Qed.

(** C8.  [setSystemButtonState] does nothing when the slot of the role is
    empty: the trace gains no event and no widget changes (the only possible
    change is the record the lookup inserts for a window that had none).  An
    event is emulated only when a widget occupies the slot, and then on that
    widget and with the requested state. *)
Theorem setSystemButtonState_spec (s : State) (role : SystemButtonType) (state : ButtonState) :
  let s' := snd (setSystemButtonState role state s) in
  (occupant s role = None ->
   trace s' = trace s /\ widgets s' = widgets s
   /\ (s' = s \/ s' = snd (getWindowData s)))
  /\ (forall btn,
        occupant s role = Some btn ->
        widgets s' = widgets s
        /\ exists window globalPos scenePos localPos under hover,
             trace s' = trace s ++ [emulateQtMouseEvent btn window state globalPos
                                      scenePos localPos under hover])
  /\ (forall btn window st globalPos scenePos localPos under hover,
        In (emulateQtMouseEvent btn window st globalPos scenePos localPos under hover)
           (trace s') ->
        ~ In (emulateQtMouseEvent btn window st globalPos scenePos localPos under hover)
             (trace s) ->
        occupant s role = Some btn /\ st = state).
Proof.
  cbv zeta.
  pose proof (getWindowData_frame s) as (Hw & _ & Ht & _).
  destruct (decide (role = Unknown)) as [->|Hrole].
  { unfold setSystemButtonState, occupant. simpl. split; [auto|].
    split; [discriminate|]. intros; contradiction. }
  rewrite (setSystemButtonState_eq s role state Hrole). cbv zeta.
  destruct (occupant s role) as [btn|] eqn:Ho.
  - destruct (QPointer_data_alive _ _ _ Ho) as [b Hb]. rewrite Hb. simpl.
    rewrite Hw, Ht. split; [discriminate|]. split.
    + intros ? [= <-]. split; [reflexivity|]. eauto 10.
    + intros btn' window st gp sp lp um he Hin Hnot.
      apply in_app_or in Hin as [Hin|[Hin|[]]]; [contradiction|].
      injection Hin as <- _ <- _ _ _ _ _. auto.
  - simpl. rewrite Hw, Ht. split; [auto|]. split; [discriminate|].
    intros; contradiction.
Qed.

Lemma setSystemButtonState_spec_witness :
  trace (snd (setSystemButtonState Minimize Hovered Examples.titleBarWindow))
  = trace Examples.titleBarWindow
  /\ exists window globalPos scenePos localPos under hover,
       trace (snd (setSystemButtonState Close Hovered Examples.titleBarWindow))
       = trace Examples.titleBarWindow
         ++ [emulateQtMouseEvent 3%positive window Hovered globalPos scenePos localPos
               under hover].
Proof.
  split.
  - destruct (setSystemButtonState_spec Examples.titleBarWindow Minimize Hovered) as [H _].
    exact (proj1 (H eq_refl)).
  - destruct (setSystemButtonState_spec Examples.titleBarWindow Close Hovered) as (_ & H & _).
    exact (proj2 (H 3%positive eq_refl)).
Defined.

(** ** Window properties *)

(** C9.  With no window attached [getProperty] returns the invalid variant,
    not the default the caller supplied.  On an attached helper and a
    non-empty name it returns the property of the window when that is valid
    and the default otherwise; so a valid default comes back only from an
    attached helper, for a property that is unset or invalid (or equal to the
    default).  The call changes nothing. *)
Theorem getProperty_spec (s : State) (name : option string) (defaultValue : QVariant) :
  snd (getProperty name defaultValue s) = s
  /\ (attachedWindow s = None -> fst (getProperty name defaultValue s) = None)
  /\ (forall w n,
        attachedWindow s = Some w -> name = Some n -> n <> EmptyString ->
        fst (getProperty name defaultValue s)
        = if QVariant_isValid (property w n) then property w n else defaultValue)
  /\ (defaultValue <> None ->
      fst (getProperty name defaultValue s) = defaultValue ->
      exists w n, attachedWindow s = Some w /\ name = Some n /\ n <> EmptyString
                  /\ (property w n = None \/ property w n = defaultValue)).
Proof.
  unfold getProperty, attachedWindow.
  destruct name as [n|]; simpl.
  2:{ repeat split; trivial; [discriminate | congruence]. }
  destruct (decide (n = EmptyString)) as [He|He]; simpl.
  { repeat split; trivial; [congruence | congruence]. }
  unfold mbind, M_bind, mret, M_ret, get.
  destruct (deref (widgets s) (m_window s)) as [w|]; simpl.
  - split; [reflexivity|]. split; [discriminate|]. split.
    + intros w' n' [= <-] [= <-] _. reflexivity.
    + intros Hd Hr. exists w, n. repeat split; trivial.
      destruct (property w n) as [v|]; simpl in *; auto.
  - split; [reflexivity|]. split; [reflexivity|]. split; [discriminate|congruence].
Qed.

Lemma getProperty_spec_witness :
  fst (getProperty (Some "opacity"%string) (Some (VInt 7))
         (Examples.fresh Examples.titleBarStore)) = None
  /\ fst (getProperty (Some "opacity"%string) (Some (VInt 7)) Examples.titleBarWindow)
     = Some (VInt 7).
Proof.
  split.
  - apply (getProperty_spec (Examples.fresh Examples.titleBarStore)). reflexivity.
  - destruct (getProperty_spec Examples.titleBarWindow (Some "opacity"%string)
                (Some (VInt 7))) as (_ & _ & H & _).
    apply (H (nativeWindow Examples.titleBarTopLevel) "opacity"%string).
    + vm_compute. reflexivity.
    + reflexivity.
    + discriminate.
Defined.

(** ** Hit-test exclusions *)

Lemma theRecord_attached s w0 :
  attachedWindow s = Some w0 ->
  theRecord s = default defaultData (g_framelessWidgetsHelperData s !! winId w0).
Proof. unfold theRecord, recordOf. now intros ->. Qed.

Lemma theRecord_unattached s : attachedWindow s = None -> theRecord s = defaultData.
Proof. unfold theRecord, recordOf. now intros ->. Qed.

Lemma setHitTestVisible_unattached s widget visible :
  attachedWindow s = None -> setHitTestVisible widget visible s = (tt, s).
Proof.
  unfold attachedWindow, setHitTestVisible, getWindowDataMutable. intros H.
  destruct widget; [|reflexivity]. run. now rewrite H.
Qed.

Lemma setHitTestVisible_attached s w0 i visible :
  attachedWindow s = Some w0 ->
  let s' := snd (setHitTestVisible (Some i) visible s) in
  attachedWindow s' = Some w0
  /\ theRecord s'
     = set_hitTestVisibleWidgets
         (if visible then excludedWidgets s ++ [Some i]
          else removeAll_widget (widgets s) i (excludedWidgets s))
         (theRecord s).
Proof.
  intros Hm. unfold excludedWidgets. rewrite (theRecord_attached s w0 Hm).
  unfold attachedWindow, setHitTestVisible, getWindowDataMutable in *. run. rewrite Hm.
  destruct (g_framelessWidgetsHelperData s !! winId w0) as [d|] eqn:T; simpl;
    rewrite ?T, ?lookup_insert_eq; simpl;
    destruct visible; simpl; (split; [exact Hm|]);
    unfold theRecord, recordOf, attachedWindow; simpl; rewrite Hm;
    rewrite lookup_alter_eq, ?T, ?lookup_insert_eq; reflexivity.
Qed.

Lemma setHitTestVisible_rect_unattached s rect visible :
  attachedWindow s = None -> setHitTestVisible_rect rect visible s = (tt, s).
Proof.
  unfold attachedWindow, setHitTestVisible_rect, getWindowDataMutable. intros H.
  destruct (negb _); [reflexivity|]. run. now rewrite H.
Qed.

Lemma setHitTestVisible_rect_attached s w0 rect visible :
  attachedWindow s = Some w0 -> QRect_isValid rect = true ->
  let s' := snd (setHitTestVisible_rect rect visible s) in
  attachedWindow s' = Some w0
  /\ theRecord s'
     = set_hitTestVisibleRects
         (if visible then excludedRects s ++ [rect]
          else removeAll_rect rect (excludedRects s))
         (theRecord s).
Proof.
  intros Hm Hv. unfold excludedRects. rewrite (theRecord_attached s w0 Hm).
  unfold attachedWindow, setHitTestVisible_rect, getWindowDataMutable in *.
  rewrite Hv. run. rewrite Hm.
  destruct (g_framelessWidgetsHelperData s !! winId w0) as [d|] eqn:T; simpl;
    rewrite ?T, ?lookup_insert_eq; simpl;
    destruct visible; simpl; (split; [exact Hm|]);
    unfold theRecord, recordOf, attachedWindow; simpl; rewrite Hm;
    rewrite lookup_alter_eq, ?T, ?lookup_insert_eq; reflexivity.
Qed.

Lemma occurrences_removeAll (ws : Store) (i : WidgetId) (l : list QPointer) :
  occurrences ws i (removeAll_widget ws i l) = 0%nat.
Proof.
  unfold occurrences, removeAll_widget. induction l as [|q l IH]; simpl; [reflexivity|].
  destruct (bool_decide (QPointer_data ws q = Some i)) eqn:E; simpl; [exact IH|].
  now rewrite E.
Qed.

Lemma rectOccurrences_removeAll (r : QRect) (l : list QRect) :
  rectOccurrences r (removeAll_rect r l) = 0%nat.
Proof.
  unfold rectOccurrences, removeAll_rect. induction l as [|q l IH]; simpl; [reflexivity|].
  destruct (bool_decide (q = r)) eqn:E; simpl; [exact IH|].
  now rewrite E.
Qed.

Lemma occurrences_app (ws : Store) (i : WidgetId) (l l' : list QPointer) :
  occurrences ws i (l ++ l') = (occurrences ws i l + occurrences ws i l')%nat.
Proof. unfold occurrences. now rewrite List.filter_app, length_app. Qed.

(** C10.  [setHitTestVisible(widget, true)] appends without looking for
    duplicates, so two calls leave the widget in the list twice more than
    before; [setHitTestVisible(widget, false)] removes every occurrence, so
    after one such call the widget occurs nowhere in the list, whatever the
    calls before it were.  The overload for valid rectangles behaves the same
    way. *)
Theorem setHitTestVisible_spec (s : State) (i : WidgetId) (rect : QRect) :
  (attachedWindow s <> None ->
   excludedWidgets (snd (setHitTestVisible (Some i) true s)) = excludedWidgets s ++ [Some i])
  /\ (attachedWindow s <> None -> is_Some (widgets s !! i) ->
      occurrences (widgets s) i
        (excludedWidgets
           (snd (setHitTestVisible (Some i) true (snd (setHitTestVisible (Some i) true s)))))
      = S (S (occurrences (widgets s) i (excludedWidgets s))))
  /\ occurrences (widgets s) i (excludedWidgets (snd (setHitTestVisible (Some i) false s)))
     = 0%nat
  /\ (QRect_isValid rect = true -> attachedWindow s <> None ->
      excludedRects (snd (setHitTestVisible_rect rect true s)) = excludedRects s ++ [rect])
  /\ (QRect_isValid rect = true ->
      rectOccurrences rect (excludedRects (snd (setHitTestVisible_rect rect false s)))
      = 0%nat).
Proof.
  destruct (attachedWindow s) as [w0|] eqn:Hm.
  - destruct (setHitTestVisible_attached s w0 i true Hm) as [Hm1 H1].
    destruct (setHitTestVisible_attached _ w0 i true Hm1) as [_ H2].
    destruct (setHitTestVisible_attached s w0 i false Hm) as [_ H3].
    cbv zeta in *. unfold excludedWidgets in *.
    split; [intros _; now rewrite H1|].
    split.
    { intros _ [w Hw]. rewrite H2, H1. simpl.
      rewrite <- app_assoc, occurrences_app. unfold occurrences at 2. simpl.
      rewrite Hw, bool_decide_eq_true_2 by reflexivity. simpl. lia. }
    split; [rewrite H3; apply occurrences_removeAll|].
    split.
    + intros Hv _.
      destruct (setHitTestVisible_rect_attached s w0 rect true Hm Hv) as [_ H4].
      cbv zeta in H4. unfold excludedRects in *. now rewrite H4.
    + intros Hv.
      destruct (setHitTestVisible_rect_attached s w0 rect false Hm Hv) as [_ H5].
      cbv zeta in H5. unfold excludedRects in *. rewrite H5.
      apply rectOccurrences_removeAll.
  - split; [congruence|]. split; [congruence|].
    rewrite (setHitTestVisible_unattached s (Some i) false Hm),
      (setHitTestVisible_rect_unattached s rect false Hm).
    unfold excludedWidgets, excludedRects. simpl. rewrite (theRecord_unattached s Hm).
    split; [reflexivity|]. split; [congruence | reflexivity].
Qed.

Lemma setHitTestVisible_spec_witness :
  occurrences (widgets Examples.titleBarWindow) 3%positive
    (excludedWidgets
       (snd (setHitTestVisible (Some 3%positive) true
               (snd (setHitTestVisible (Some 3%positive) true Examples.titleBarWindow)))))
  = 2%nat
  /\ excludedRects (snd (setHitTestVisible_rect (QRect_xywh 0 0 10 10) true
                           Examples.titleBarWindow))
     = [QRect_xywh 0 0 10 10]
  /\ rectOccurrences (QRect_xywh 0 0 10 10)
       (excludedRects (snd (setHitTestVisible_rect (QRect_xywh 0 0 10 10) false
                              Examples.titleBarWindow))) = 0%nat.
Proof.
  destruct (setHitTestVisible_spec Examples.titleBarWindow 3%positive (QRect_xywh 0 0 10 10))
    as (_ & H2 & _ & H4 & H5).
  split; [|split].
  - apply H2.
    + vm_compute. discriminate.
    + vm_compute. eauto.
  - apply H4.
    + reflexivity.
    + vm_compute. discriminate.
  - apply H5. reflexivity.
Defined.

(** * Further properties of the helper *)

(** ** The lazily created window record *)

Lemma getWindowDataMutable_eq s :
  getWindowDataMutable s = (winId <$> attachedWindow s, snd (getWindowData s)).
Proof.
  unfold getWindowDataMutable, getWindowData, attachedWindow. run.
  destruct (deref (widgets s) (m_window s)) as [w|]; simpl; [|reflexivity].
  destruct (g_framelessWidgetsHelperData s !! winId w); reflexivity.
Qed.

Lemma getWindowData_attached s w0 :
  attachedWindow s = Some w0 ->
  getWindowData s
  = (Some (recordAt s (winId w0)),
     with_data (<[winId w0 := recordAt s (winId w0)]> (g_framelessWidgetsHelperData s)) s).
Proof.
  unfold getWindowData, attachedWindow, recordAt. intros Hm. run. rewrite Hm.
  destruct (g_framelessWidgetsHelperData s !! winId w0) as [d|] eqn:T; simpl.
  - rewrite (insert_id _ _ _ T). now destruct s.
  - reflexivity.
Qed.

Lemma getWindowData_unattached s : attachedWindow s = None -> getWindowData s = (None, s).
Proof. unfold getWindowData, attachedWindow. intros H. run. now rewrite H. Qed.

(** X1. The window record is created on first use and never overwritten by the
    lookup: an unbound helper gets no record and changes nothing; a bound
    helper gets the record of its window, which is in the table afterwards;
    every record that was in the table is still there unchanged; no handle
    other than the window's gains a record; a second lookup changes nothing;
    and the mutable accessor leaves the same state and points at the same
    record. *)
Theorem getWindowData_lazy (s : State) :
  (attachedWindow s = None -> getWindowData s = (None, s))
  /\ (forall w0, attachedWindow s = Some w0 ->
        fst (getWindowData s) = Some (recordAt s (winId w0))
        /\ g_framelessWidgetsHelperData (snd (getWindowData s)) !! winId w0
           = Some (recordAt s (winId w0)))
  /\ (forall k d, g_framelessWidgetsHelperData s !! k = Some d ->
        g_framelessWidgetsHelperData (snd (getWindowData s)) !! k = Some d)
  /\ (forall k, g_framelessWidgetsHelperData s !! k = None ->
        winId <$> attachedWindow s <> Some k ->
        g_framelessWidgetsHelperData (snd (getWindowData s)) !! k = None)
  /\ getWindowData (snd (getWindowData s)) = (fst (getWindowData s), snd (getWindowData s))
  /\ getWindowDataMutable s = (winId <$> attachedWindow s, snd (getWindowData s)).
Proof.
  split; [|split; [|split; [|split; [|split]]]].
  - apply getWindowData_unattached.
  - intros w0 Hm. rewrite (getWindowData_attached s w0 Hm). simpl.
    now rewrite lookup_insert_eq.
  - intros k d Hk. destruct (getWindowData_snd s) as [->|(w & Hw & Hn & ->)]; [exact Hk|].
    simpl. rewrite lookup_insert_ne; [exact Hk | congruence].
  - intros k Hk Hne. destruct (getWindowData_snd s) as [->|(w & Hw & Hn & ->)]; [exact Hk|].
    simpl. rewrite Hw in Hne. simpl in Hne. rewrite lookup_insert_ne; [exact Hk | congruence].
  - destruct (attachedWindow s) as [w0|] eqn:Hm.
    + rewrite (getWindowData_attached s w0 Hm). cbn [fst snd].
      rewrite (getWindowData_attached (with_data _ s) w0 Hm). unfold recordAt. simpl.
      now rewrite lookup_insert_eq, insert_insert_eq.
    + rewrite (getWindowData_unattached s Hm). cbn [fst snd].
      now apply getWindowData_unattached.
  - apply getWindowDataMutable_eq.
Qed.

Lemma getWindowData_lazy_witness :
  fst (getWindowData Examples.titleBarWindow) = Some (recordAt Examples.titleBarWindow 100%N)
  /\ g_framelessWidgetsHelperData (snd (getWindowData Examples.titleBarWindow)) !! 100%N
     = Some (recordAt Examples.titleBarWindow 100%N).
Proof.
  apply (proj1 (proj2 (getWindowData_lazy Examples.titleBarWindow))
           (nativeWindow Examples.titleBarTopLevel)).
  vm_compute. reflexivity.
Defined.

(** ** Closed forms of the record mutators *)

Lemma recordAt_theRecord s w0 : attachedWindow s = Some w0 -> theRecord s = recordAt s (winId w0).
Proof. apply theRecord_attached. Qed.

Lemma theRecord_with_data s w0 t d :
  attachedWindow s = Some w0 -> theRecord (with_data (<[winId w0 := d]> t) s) = d.
Proof.
  intros Hm. unfold theRecord, recordOf.
  change (attachedWindow (with_data (<[winId w0 := d]> t) s)) with (attachedWindow s).
  rewrite Hm. simpl. now rewrite lookup_insert_eq.
Qed.

Ltac mutate Hm T :=
  unfold attachedWindow, getWindowDataMutable, recordAt in *; run; rewrite Hm;
  match goal with
  | |- context [g_framelessWidgetsHelperData ?s !! winId ?w] =>
      destruct (g_framelessWidgetsHelperData s !! winId w) as [?d|] eqn:T; simpl;
      rewrite ?T, ?lookup_insert_eq; simpl
  end.

Lemma setHitTestVisible_state s w0 i visible :
  attachedWindow s = Some w0 ->
  setHitTestVisible (Some i) visible s
  = (tt, with_data
           (<[winId w0 :=
                set_hitTestVisibleWidgets
                  (if visible then hitTestVisibleWidgets (recordAt s (winId w0)) ++ [Some i]
                   else removeAll_widget (widgets s) i
                          (hitTestVisibleWidgets (recordAt s (winId w0))))
                  (recordAt s (winId w0))]> (g_framelessWidgetsHelperData s)) s).
Proof.
  intros Hm. unfold setHitTestVisible. mutate Hm T; destruct visible; simpl; unfold store, modify; simpl;
    rewrite ?(alter_as_insert _ _ _ _ T), ?alter_insert_eq, ?insert_insert_eq; reflexivity.
Qed.

Lemma setHitTestVisible_rect_state s w0 rect visible :
  attachedWindow s = Some w0 -> QRect_isValid rect = true ->
  setHitTestVisible_rect rect visible s
  = (tt, with_data
           (<[winId w0 :=
                set_hitTestVisibleRects
                  (if visible then hitTestVisibleRects (recordAt s (winId w0)) ++ [rect]
                   else removeAll_rect rect (hitTestVisibleRects (recordAt s (winId w0))))
                  (recordAt s (winId w0))]> (g_framelessWidgetsHelperData s)) s).
Proof.
  intros Hm Hv. unfold setHitTestVisible_rect. rewrite Hv.
  mutate Hm T; destruct visible; simpl; unfold store, modify; simpl;
    rewrite ?(alter_as_insert _ _ _ _ T), ?alter_insert_eq, ?insert_insert_eq; reflexivity.
Qed.

(** The record with the slot of [role] set to [q]. *)
Lemma setSystemButton_state s w0 i role :
  attachedWindow s = Some w0 -> role <> Unknown ->
  setSystemButton (Some i) role s
  = (tt, with_data
           (<[winId w0 :=
                match role with
                | WindowIcon => set_windowIconButton (Some i)
                | Help => set_contextHelpButton (Some i)
                | Minimize => set_minimizeButton (Some i)
                | Close => set_closeButton (Some i)
                | _ => set_maximizeButton (Some i)
                end (recordAt s (winId w0))]> (g_framelessWidgetsHelperData s)) s).
Proof.
  intros Hm Hr. unfold setSystemButton.
  destruct (decide (role = Unknown)) as [|_]; [contradiction|].
  mutate Hm T; destruct role; try contradiction; simpl; unfold store, modify; simpl;
    rewrite ?(alter_as_insert _ _ _ _ T), ?alter_insert_eq, ?insert_insert_eq; reflexivity.
Qed.

(** ** System-button slots *)

Lemma sharesSlot_slotFor a b d : sharesSlot a b -> slotFor a d = slotFor b d.
Proof. intros [->|[[-> ->]|[-> ->]]]; reflexivity. Qed.

(** X2. [setSystemButton] writes the slot of the role and nothing else: the
    widget occupies that slot afterwards (maximize and restore being one
    slot), every other slot keeps its widget, the title bar, the exclusion
    lists and the ready flag of the record are untouched, and so are the
    widgets, the binding and the trace.  A null widget, the role [Unknown]
    or an unbound helper make the call a no-op. *)
Theorem setSystemButton_slots (s : State) (widget : option WidgetId) (i : WidgetId)
    (role : SystemButtonType) :
  (forall w0, attachedWindow s = Some w0 -> role <> Unknown ->
     let s' := snd (setSystemButton (Some i) role s) in
     (forall role', sharesSlot role role' -> slotFor role' (theRecord s') = Some i)
     /\ (forall role', ~ sharesSlot role role' ->
           slotFor role' (theRecord s') = slotFor role' (theRecord s))
     /\ titleBarWidget (theRecord s') = titleBarWidget (theRecord s)
     /\ hitTestVisibleWidgets (theRecord s') = hitTestVisibleWidgets (theRecord s)
     /\ hitTestVisibleRects (theRecord s') = hitTestVisibleRects (theRecord s)
     /\ ready (theRecord s') = ready (theRecord s)
     /\ widgets s' = widgets s /\ m_window s' = m_window s /\ trace s' = trace s)
  /\ setSystemButton None role s = (tt, s)
  /\ setSystemButton widget Unknown s = (tt, s)
  /\ (attachedWindow s = None -> setSystemButton widget role s = (tt, s)).
Proof.
  split; [|split; [|split]].
  - intros w0 Hm Hr. cbv zeta. rewrite (setSystemButton_state s w0 i role Hm Hr).
    cbn [snd]. rewrite (theRecord_with_data s w0 _ _ Hm), (recordAt_theRecord s w0 Hm).
    split; [|split].
    + intros role' Hs. rewrite <- (sharesSlot_slotFor role role' _ Hs).
      destruct role; try contradiction; reflexivity.
    + intros role' Hs. unfold sharesSlot in Hs.
      destruct role, role'; try contradiction; try reflexivity; exfalso; apply Hs; auto.
    + destruct role; try contradiction; repeat split; reflexivity.
  - reflexivity.
  - destruct widget; reflexivity.
  - intros Hm. destruct widget as [j|]; [|reflexivity]. unfold setSystemButton.
    destruct (decide _); [reflexivity|]. unfold mbind, M_bind.
    rewrite getWindowDataMutable_eq, (getWindowData_unattached s Hm), Hm. reflexivity.
Qed.

Lemma setSystemButton_slots_witness :
  slotFor Maximize
    (theRecord (snd (setSystemButton (Some 2%positive) Restore Examples.titleBarWindow)))
  = Some 2%positive
  /\ slotFor Close
       (theRecord (snd (setSystemButton (Some 2%positive) Restore Examples.titleBarWindow)))
     = Some 3%positive
  /\ setSystemButton (Some 2%positive) Close (Examples.fresh Examples.titleBarStore)
     = (tt, Examples.fresh Examples.titleBarStore).
Proof.
  destruct (setSystemButton_slots Examples.titleBarWindow None 2%positive Restore)
    as (H & _).
  destruct (H (nativeWindow Examples.titleBarTopLevel)) as (H1 & H2 & _).
  - vm_compute. reflexivity.
  - discriminate.
  - split; [|split].
    + apply H1. right. right. split; reflexivity.
    + rewrite H2; [reflexivity|]. intros [H0|[[H0 _]|[_ H0]]]; discriminate.
    + apply (setSystemButton_slots (Examples.fresh Examples.titleBarStore)
               (Some 2%positive) 2%positive Close). reflexivity.
Defined.

Lemma slots_slotFor role q d :
  In (role, q) (slots d) -> q = slotFor role d /\ role <> Unknown /\ role <> Restore.
Proof.
  simpl. intros [H|[H|[H|[H|[H|[]]]]]]; injection H as <- <-;
    repeat split; try reflexivity; discriminate.
Qed.

Lemma isInSystemButtons_true s p before r :
  fst (isInSystemButtons p (Some before) s) = (true, Some r) ->
  r <> Unknown /\ r <> Restore
  /\ exists btn w, occupant s r = Some btn /\ widgets s !! btn = Some w
                   /\ isVisible w = true /\ isEnabled w = true
                   /\ QRect_contains (geometry w) p = true.
Proof.
  destruct (attachedWindow s) as [m|] eqn:Hm.
  - rewrite (isInSystemButtons_attached s p before m Hm). unfold firstHit.
    destruct (List.find _ _) as [[role q]|] eqn:F; simpl; try discriminate.
    intros [= <-]. apply find_some in F as [Hin Hhit].
    destruct (slots_slotFor role q _ Hin) as (-> & H1 & H2).
    split; [exact H1|]. split; [exact H2|].
    unfold hit, usable, geometry_contains, occupant in *. simpl in Hhit.
    destruct (slotFor role (theRecord s)) as [btn|]; simpl in *; [|discriminate].
    destruct (widgets s !! btn) as [w|] eqn:Hw; [|discriminate].
    apply andb_true_iff in Hhit as [Hu Hc]. apply andb_true_iff in Hu as [Hv He].
    exists btn, w. auto.
  - rewrite (isInSystemButtons_unattached s p before Hm). simpl. discriminate.
Qed.

(** X3. The hit test of the system buttons is sound and complete.  When
    [isInSystemButtons] answers true with role [r], then [r] is one of
    window-icon, help, minimize, maximize, close (never restore, never
    unknown), and the widget in the slot of [r] is alive, visible, enabled and
    its geometry contains the point.  When it answers false, no slot holds
    such a widget. *)
Theorem isInSystemButtons_sound (s : State) (p : QPoint) (before : SystemButtonType) :
  (forall r, fst (isInSystemButtons p (Some before) s) = (true, Some r) ->
     r <> Unknown /\ r <> Restore
     /\ exists btn w, occupant s r = Some btn /\ widgets s !! btn = Some w
                      /\ isVisible w = true /\ isEnabled w = true
                      /\ QRect_contains (geometry w) p = true)
  /\ (fst (fst (isInSystemButtons p (Some before) s)) = false ->
      forall role q, In (role, q) (slots (theRecord s)) -> hit (widgets s) p (role, q) = false).
Proof.
  split; [intros r; apply isInSystemButtons_true|].
  destruct (attachedWindow s) as [m|] eqn:Hm.
  - rewrite (isInSystemButtons_attached s p before m Hm). unfold firstHit.
    destruct (List.find _ _) as [[role q]|] eqn:F; simpl; try discriminate.
    intros _ role q Hin. exact (find_none _ _ F _ Hin).
  - intros _ role q Hin. rewrite (theRecord_unattached s Hm) in Hin.
    apply slots_slotFor in Hin as (-> & _). now destruct role.
Qed.

Lemma isInSystemButtons_sound_witness :
  exists btn w, occupant Examples.overlapWindow WindowIcon = Some btn
                /\ widgets Examples.overlapWindow !! btn = Some w
                /\ isVisible w = true /\ isEnabled w = true
                /\ QRect_contains (geometry w) (mkPoint 15 15) = true.
Proof.
  destruct (isInSystemButtons_sound Examples.overlapWindow (mkPoint 15 15) Unknown)
    as [H _].
  apply (H WindowIcon). vm_compute. reflexivity.
Defined.

(** ** Buttons and the draggable area agree for direct children *)

Lemma draggable_iff s p :
  fst (isInTitleBarDraggableArea p s) = true <-> ~ noTitleBar s /\ inDraggableRegion s p.
Proof.
  split.
  - intros H. assert (~ noTitleBar s) as Hn.
    { intros Hn. rewrite (draggable_without_title_bar s p Hn) in H. discriminate. }
    split; [exact Hn|]. now apply draggable_with_title_bar.
  - intros [Hn H]. now apply draggable_with_title_bar.
Qed.

Lemma mapTo_directChild (ws : Store) (m i : WidgetId) (w : QWidget) :
  ws !! i = Some w -> parentWidget w = Some m -> i <> m ->
  mapTo ws i m (mkPoint 0 0) = mkPoint (px (pos w)) (py (pos w)).
Proof.
  intros Hw Hp Hne. unfold mapTo.
  destruct (base.size ws) as [|n] eqn:E.
  { apply map_size_empty_inv in E. subst ws. rewrite lookup_empty in Hw. discriminate. }
  simpl. destruct (decide (i = m)) as [|_]; [contradiction|].
  rewrite Hw, Hp. destruct (decide (m = m)) as [_|]; [|contradiction].
  unfold QPoint_add. simpl. now destruct (pos w) as [[] []].
Qed.

Lemma QRect_contains_sized (pt : QPoint) (sz : QSize) (p : QPoint) :
  0 <= wd sz -> 0 <= ht sz ->
  QRect_contains (QRect_of pt sz) p = true -> in_rect (QRect_of pt sz) p.
Proof.
  intros Hw Hh. unfold QRect_contains, QRect_of, in_rect. simpl.
  repeat match goal with
         | |- context [?a <? ?b] => destruct (Z.ltb_spec a b)
         end; simpl; try discriminate; try lia; intros _; lia.
Qed.

Lemma sceneRect_directChild s m i :
  QPointer_data (widgets s) (m_window s) = Some m -> directChild (widgets s) m i ->
  exists w, widgets s !! i = Some w /\ sceneRect s (Some i) = geometry w
            /\ 0 <= wd (size w) /\ 0 <= ht (size w).
Proof.
  intros Hm (w & Hw & Hp & Hne & Hwd & Hht). exists w. split; [exact Hw|].
  split; [|auto]. unfold sceneRect, mapWidgetGeometryToScene. simpl.
  rewrite Hw. simpl. rewrite Hw, Hm, (mapTo_directChild _ _ _ _ Hw Hp Hne). reflexivity.
Qed.

Lemma slotFor_in_slots r d :
  r <> Unknown -> r <> Restore -> In (r, slotFor r d) (slots d).
Proof. destruct r; simpl; intros; try contradiction; tauto. Qed.

(** X4. A point on a system button is not draggable, provided the button is
    placed directly in the window.  [isInSystemButtons] tests the button's
    geometry, which is relative to its parent, while
    [isInTitleBarDraggableArea] cuts out the button's rectangle mapped into
    the window; the two coincide for a direct child of the window.  Without
    that proviso they can disagree: on the example window, whose close button
    sits in a container inside the title bar, (385,15) is at once on the close
    button and draggable. *)
Theorem button_hit_not_draggable (s : State) (p : QPoint) (before r : SystemButtonType)
    (m : WidgetId) :
  (QPointer_data (widgets s) (m_window s) = Some m ->
   fst (isInSystemButtons p (Some before) s) = (true, Some r) ->
   (forall btn, occupant s r = Some btn -> directChild (widgets s) m btn) ->
   fst (isInTitleBarDraggableArea p s) = false)
  /\ fst (isInSystemButtons (mkPoint 385 15) (Some Unknown) nestedWindow) = (true, Some Close)
  /\ fst (isInTitleBarDraggableArea (mkPoint 385 15) nestedWindow) = true.
Proof.
  split; [|split; vm_compute; reflexivity].
  intros Hm Hhit Hchild.
  destruct (isInSystemButtons_true s p before r Hhit)
    as (Hr1 & Hr2 & btn & w & Ho & Hw & Hv & He & Hc).
  destruct (sceneRect_directChild s m btn Hm (Hchild btn Ho))
    as (w' & Hw' & Hrect & Hwd & Hht).
  assert (w' = w) as -> by congruence.
  assert (slotFor r (theRecord s) = Some btn) as Hslot.
  { unfold occupant in Ho. destruct (slotFor r (theRecord s)) as [j|]; simpl in Ho;
      [|discriminate]. destruct (widgets s !! j); congruence. }
  apply not_true_is_false. rewrite draggable_iff. intros [_ (_ & Hb & _)].
  apply (Hb r (slotFor r (theRecord s)) (slotFor_in_slots r _ Hr1 Hr2)).
  - unfold usable. rewrite Hslot. simpl. now rewrite Hw, Hv, He.
  - rewrite Hslot, Hrect. now apply QRect_contains_sized.
Qed.

Lemma button_hit_not_draggable_witness :
  fst (isInTitleBarDraggableArea (mkPoint 385 15) flatWindow) = false.
Proof.
  apply (proj1 (button_hit_not_draggable flatWindow (mkPoint 385 15)
                  Unknown Close 1%positive)).
  - vm_compute. reflexivity.
  - vm_compute. reflexivity.
  - intros btn Hb. vm_compute in Hb. injection Hb as <-.
    exists (Examples.child 1%positive 370 0 30 30). vm_compute.
    repeat split; try discriminate; congruence.
Defined.

(** ** Exclusions and the draggable area *)

Lemma draggable_For s p :
  fst (isInTitleBarDraggableArea p s) = true
  <-> ~ noTitleBarFor s (theRecord s) /\ inRegionFor s (theRecord s) p.
Proof. apply draggable_iff. Qed.

Lemma draggable_with_data s w0 t d p :
  attachedWindow s = Some w0 ->
  fst (isInTitleBarDraggableArea p (with_data (<[winId w0 := d]> t) s)) = true
  <-> ~ noTitleBarFor s d /\ inRegionFor s d p.
Proof.
  intros Hm. rewrite draggable_iff.
  unfold noTitleBar, inDraggableRegion, titleBarOf, titleBarRect.
  rewrite (theRecord_with_data s w0 t d Hm). reflexivity.
Qed.

(** X5. Excluding a valid rectangle, or a widget, takes exactly its points
    out of the draggable area.  After [setHitTestVisible(rect, true)] a point
    is draggable if and only if it was draggable before and lies outside the
    rectangle; after [setHitTestVisible(widget, true)] if and only if it was
    draggable before and, when the widget is alive, visible and enabled, lies
    outside the widget's rectangle mapped into the window. *)
Theorem exclusion_shrinks_draggable_area (s : State) (w0 : QWidget) (p : QPoint)
    (rect : QRect) (i : WidgetId) :
  attachedWindow s = Some w0 ->
  (QRect_isValid rect = true ->
   (fst (isInTitleBarDraggableArea p (snd (setHitTestVisible_rect rect true s))) = true
    <-> fst (isInTitleBarDraggableArea p s) = true /\ ~ in_rect rect p))
  /\ (fst (isInTitleBarDraggableArea p (snd (setHitTestVisible (Some i) true s))) = true
      <-> fst (isInTitleBarDraggableArea p s) = true
          /\ (usable (widgets s) (Some i) = true -> ~ in_rect (sceneRect s (Some i)) p)).
Proof.
  intros Hm. split.
  - intros Hv. rewrite (setHitTestVisible_rect_state s w0 rect true Hm Hv). cbn [snd].
    rewrite (draggable_with_data s w0 _ _ p Hm), draggable_For.
    rewrite <- (recordAt_theRecord s w0 Hm).
    unfold noTitleBarFor, inRegionFor. simpl. split.
    + intros (Hn & H0 & H1 & H2 & H3).
      split; [split; [exact Hn | split; [exact H0 | split; [exact H1 | split; [exact H2|]]]]|].
      * intros r Hr. apply H3. apply in_or_app. now left.
      * apply H3; [|exact Hv]. apply in_or_app. right. now left.
    + intros ((Hn & H0 & H1 & H2 & H3) & Hr).
      split; [exact Hn | split; [exact H0 | split; [exact H1 | split; [exact H2|]]]].
      intros r Hin Hvalid. apply in_app_or in Hin as [Hin|[<-|[]]]; [now apply H3 | exact Hr].
  - rewrite (setHitTestVisible_state s w0 i true Hm). cbn [snd].
    rewrite (draggable_with_data s w0 _ _ p Hm), draggable_For.
    rewrite <- (recordAt_theRecord s w0 Hm).
    unfold noTitleBarFor, inRegionFor. simpl. split.
    + intros (Hn & H0 & H1 & H2 & H3).
      split; [split; [exact Hn | split; [exact H0 | split; [exact H1 | split; [|exact H3]]]]|].
      * intros w Hw. apply H2. apply in_or_app. now left.
      * apply H2. apply in_or_app. right. now left.
    + intros ((Hn & H0 & H1 & H2 & H3) & Hr).
      split; [exact Hn | split; [exact H0 | split; [exact H1 | split; [|exact H3]]]].
      intros w Hin Hu. apply in_app_or in Hin as [Hin|[<-|[]]]; [now apply H2 | now apply Hr].
Qed.

Lemma exclusion_shrinks_draggable_area_witness :
  fst (isInTitleBarDraggableArea (mkPoint 20 5)
         (snd (setHitTestVisible_rect (QRect_xywh 0 0 10 10) true flatWindow))) = true.
Proof.
  destruct (exclusion_shrinks_draggable_area flatWindow
              (nativeWindow Examples.titleBarTopLevel) (mkPoint 20 5)
              (QRect_xywh 0 0 10 10) 3%positive) as [H _].
  - vm_compute. reflexivity.
  - apply H; [reflexivity|]. split; [vm_compute; reflexivity|].
    unfold in_rect. simpl. lia.
Defined.

Lemma removeAll_widget_absent (ws : Store) (i : WidgetId) (l : list QPointer) :
  occurrences ws i l = 0%nat -> removeAll_widget ws i l = l.
Proof.
  unfold occurrences, removeAll_widget. induction l as [|q l IH]; simpl; [reflexivity|].
  destruct (bool_decide (QPointer_data ws q = Some i)); simpl; [discriminate|].
  intros H. now rewrite IH.
Qed.

Lemma removeAll_rect_absent (r : QRect) (l : list QRect) :
  rectOccurrences r l = 0%nat -> removeAll_rect r l = l.
Proof.
  unfold rectOccurrences, removeAll_rect. induction l as [|q l IH]; simpl; [reflexivity|].
  destruct (bool_decide (q = r)); simpl; [discriminate|].
  intros H. now rewrite IH.
Qed.

Lemma occurrences_removeAll_other (ws : Store) (i j : WidgetId) (l : list QPointer) :
  i <> j -> occurrences ws j (removeAll_widget ws i l) = occurrences ws j l.
Proof.
  intros Hne. unfold occurrences, removeAll_widget.
  induction l as [|q l IH]; simpl; [reflexivity|].
  destruct (bool_decide_reflect (QPointer_data ws q = Some i)) as [Hq|Hq]; simpl.
  - rewrite bool_decide_eq_false_2 by congruence. exact IH.
  - destruct (bool_decide (QPointer_data ws q = Some j)); simpl; now rewrite IH.
Qed.

Lemma rectOccurrences_removeAll_other (r r' : QRect) (l : list QRect) :
  r <> r' -> rectOccurrences r' (removeAll_rect r l) = rectOccurrences r' l.
Proof.
  intros Hne. unfold rectOccurrences, removeAll_rect.
  induction l as [|q l IH]; simpl; [reflexivity|].
  destruct (bool_decide_reflect (q = r)) as [Hq|Hq]; simpl.
  - rewrite bool_decide_eq_false_2 by congruence. exact IH.
  - destruct (bool_decide (q = r')); simpl; now rewrite IH.
Qed.

(** X6. Excluding and then re-admitting a widget (or a valid rectangle) is a
    round trip only if it was not excluded before.  In general the pair of
    calls leaves the list with every earlier occurrence removed as well; when
    there was none, the list is exactly what it was.  Re-admitting one widget
    or rectangle never changes how often another one occurs. *)
Theorem exclusion_round_trip (s : State) (w0 : QWidget) (i : WidgetId) (rect : QRect) :
  attachedWindow s = Some w0 ->
  (is_Some (widgets s !! i) ->
   let s2 := snd (setHitTestVisible (Some i) false (snd (setHitTestVisible (Some i) true s))) in
   excludedWidgets s2 = removeAll_widget (widgets s) i (excludedWidgets s)
   /\ (occurrences (widgets s) i (excludedWidgets s) = 0%nat ->
       excludedWidgets s2 = excludedWidgets s))
  /\ (forall j, i <> j ->
        occurrences (widgets s) j (excludedWidgets (snd (setHitTestVisible (Some i) false s)))
        = occurrences (widgets s) j (excludedWidgets s))
  /\ (QRect_isValid rect = true ->
      let s2 := snd (setHitTestVisible_rect rect false
                       (snd (setHitTestVisible_rect rect true s))) in
      excludedRects s2 = removeAll_rect rect (excludedRects s)
      /\ (rectOccurrences rect (excludedRects s) = 0%nat -> excludedRects s2 = excludedRects s))
  /\ (QRect_isValid rect = true -> forall r', rect <> r' ->
        rectOccurrences r' (excludedRects (snd (setHitTestVisible_rect rect false s)))
        = rectOccurrences r' (excludedRects s)).
Proof.
  intros Hm. unfold excludedWidgets, excludedRects.
  split; [|split; [|split]].
  - intros [w Hw]. cbv zeta.
    rewrite (setHitTestVisible_state s w0 i true Hm). cbn [snd].
    rewrite (setHitTestVisible_state (with_data _ s) w0 i false Hm). cbn [snd].
    rewrite (theRecord_with_data (with_data _ s) w0 _ _ Hm). unfold recordAt. simpl.
    rewrite lookup_insert_eq. simpl.
    rewrite (recordAt_theRecord s w0 Hm). unfold recordAt.
    assert (removeAll_widget (widgets s) i
              (hitTestVisibleWidgets
                 (default defaultData (g_framelessWidgetsHelperData s !! winId w0))
               ++ [Some i])
            = removeAll_widget (widgets s) i
                (hitTestVisibleWidgets
                   (default defaultData (g_framelessWidgetsHelperData s !! winId w0)))) as ->.
    { unfold removeAll_widget. rewrite List.filter_app. simpl. rewrite Hw.
      rewrite bool_decide_eq_true_2 by reflexivity. simpl. apply app_nil_r. }
    split; [reflexivity | apply removeAll_widget_absent].
  - intros j Hne. rewrite (setHitTestVisible_state s w0 i false Hm). cbn [snd].
    rewrite (theRecord_with_data s w0 _ _ Hm), (recordAt_theRecord s w0 Hm). simpl.
    now apply occurrences_removeAll_other.
  - intros Hv. cbv zeta.
    rewrite (setHitTestVisible_rect_state s w0 rect true Hm Hv). cbn [snd].
    rewrite (setHitTestVisible_rect_state (with_data _ s) w0 rect false Hm Hv). cbn [snd].
    rewrite (theRecord_with_data (with_data _ s) w0 _ _ Hm). unfold recordAt. simpl.
    rewrite lookup_insert_eq. simpl.
    rewrite (recordAt_theRecord s w0 Hm). unfold recordAt.
    assert (removeAll_rect rect
              (hitTestVisibleRects
                 (default defaultData (g_framelessWidgetsHelperData s !! winId w0))
               ++ [rect])
            = removeAll_rect rect
                (hitTestVisibleRects
                   (default defaultData (g_framelessWidgetsHelperData s !! winId w0)))) as ->.
    { unfold removeAll_rect. rewrite List.filter_app. simpl.
      rewrite bool_decide_eq_true_2 by reflexivity. simpl. apply app_nil_r. }
    split; [reflexivity | apply removeAll_rect_absent].
  - intros Hv r' Hne. rewrite (setHitTestVisible_rect_state s w0 rect false Hm Hv). cbn [snd].
    rewrite (theRecord_with_data s w0 _ _ Hm), (recordAt_theRecord s w0 Hm). simpl.
    now apply rectOccurrences_removeAll_other.
Qed.

(** ** What extendsContentIntoTitleBar and the destructor send *)

Lemma attachResult_window s w wd :
  widgets s !! w = Some wd ->
  attachedWindow (attachResult s w wd) = Some (nativeWindow wd).
Proof.
  intros Hw. destruct (attachResult_frame s w wd) as (_ & Hws & Hmw & _).
  unfold attachedWindow. rewrite Hmw, Hws. simpl. now rewrite lookup_alter_eq, Hw.
Qed.

Lemma extend_state s w wd :
  coherent s -> attachedWindow s = None ->
  resolved s = Some w -> widgets s !! w = Some wd ->
  snd (extendsContentIntoTitleBar true s)
  = with_trace
      (trace (attachResult s w wd)
       ++ (if m_destroying s then []
           else delivered "extendsContentIntoTitleBarChanged" (helperInstances wd)))
      (attachResult s w wd).
Proof.
  intros H Hm Hr Hw. rewrite (extendsContentIntoTitleBar_eq s true H).
  rewrite (contentExtended_unattached s Hm). simpl.
  assert (QPointer_data (widgets s) (m_window s) <> Some w) as Hne.
  { rewrite (QPointer_data_deref _ _ Hm). discriminate. }
  rewrite (attach_eq s w wd Hr Hw Hne). cbn [snd].
  unfold notifyChanged, mbind, M_bind, get.
  destruct (attachResult_frame s w wd) as (_ & _ & _ & ->).
  destruct (m_destroying s); cbn [negb].
  - rewrite app_nil_r. now destruct (attachResult s w wd).
  - rewrite emitSignalForAllInstances_eq by discriminate. cbn [snd].
    unfold audience. now rewrite (attachResult_window s w wd Hw).
Qed.

Lemma retract_state s w0 :
  coherent s -> attachedWindow s = Some w0 ->
  snd (extendsContentIntoTitleBar false s)
  = with_m_window None
      (with_trace (trace s ++ [removeWindow (winId w0)])
         (with_data (delete (winId w0) (g_framelessWidgetsHelperData s)) s)).
Proof.
  intros H Hm. rewrite (extendsContentIntoTitleBar_eq s false H).
  rewrite (contentExtended_attached s w0 H Hm). simpl.
  destruct H as [_ H]. rewrite Hm in H. destruct H as (d & T & _).
  rewrite (detach_eq s w0 d Hm T). cbn [snd].
  unfold notifyChanged, mbind, M_bind, get. cbn [m_destroying with_m_window with_trace with_data].
  destruct (m_destroying s); cbn [negb]; [reflexivity|].
  rewrite emitSignalForAllInstances_eq by discriminate. simpl.
  now rewrite app_nil_r.
Qed.


Lemma coherent_titleBarWindow : coherent Examples.titleBarWindow.
Proof.
  split; [exists 1%positive; vm_compute; reflexivity|].
  assert (attachedWindow Examples.titleBarWindow
          = Some (nativeWindow Examples.titleBarTopLevel)) as -> by (vm_compute; reflexivity).
  eexists. split; vm_compute; reflexivity.
Defined.


(** X8. Destroying the helper unbinds it silently.  On a coherent helper the
    destructor sets [m_destroying]; if the helper is bound it erases the
    record of the window, unregisters the window once and clears the window
    reference; it delivers no signal in either case, and every other record
    of the table stays. *)
Theorem destructor_unbinds (s : State) :
  coherent s ->
  snd (destructor s)
  = match attachedWindow s with
    | Some w0 =>
        with_m_window None
          (with_trace (trace s ++ [removeWindow (winId w0)])
             (with_data (delete (winId w0) (g_framelessWidgetsHelperData s))
                (with_m_destroying true s)))
    | None => with_m_destroying true s
    end.
Proof.
  intros H. destruct (attachedWindow s) as [w0|] eqn:Hm.
  - rewrite (destructor_snd s H) by congruence. rewrite detach_snd.
    change (attachedWindow (with_m_destroying true s)) with (attachedWindow s).
    rewrite Hm. destruct H as [_ H]. rewrite Hm in H. destruct H as (d & T & _).
    simpl. now rewrite T.
  - unfold destructor, mbind, M_bind, modify.
    assert (coherent (with_m_destroying true s)) as H' by exact H.
    rewrite (extendsContentIntoTitleBar_eq _ false H').
    rewrite (contentExtended_unattached (with_m_destroying true s) Hm). reflexivity.
Qed.

Lemma destructor_unbinds_witness :
  trace (snd (destructor Examples.titleBarWindow))
  = trace Examples.titleBarWindow ++ [removeWindow 100%N]
  /\ m_window (snd (destructor Examples.titleBarWindow)) = None
  /\ g_framelessWidgetsHelperData (snd (destructor Examples.titleBarWindow)) !! 100%N = None.
Proof.
  rewrite (destructor_unbinds Examples.titleBarWindow coherent_titleBarWindow).
  vm_compute. auto.
Defined.

(** ** Detaching forgets the configuration *)

Lemma getTitleBarWidget_fst s :
  fst (getTitleBarWidget s) = QPointer_data (widgets s) (titleBarWidget (theRecord s)).
Proof.
  unfold getTitleBarWidget. run.
  pose proof (getWindowData_fst s) as Hd.
  pose proof (getWindowData_frame s) as (Hw & _).
  destruct (getWindowData s) as [d s1]. simpl in *. subst d. rewrite Hw.
  unfold theRecord. now destruct (recordOf s).
Qed.

Lemma reattach_record s w wd :
  coherent s -> QPointer_data (widgets s) (m_window s) = Some w ->
  resolved s = Some w -> widgets s !! w = Some wd ->
  let s2 := snd (extendsContentIntoTitleBar true (snd (extendsContentIntoTitleBar false s))) in
  attachedWindow s2 = Some (nativeWindow wd)
  /\ theRecord s2 = set_ready true (set_params (Some (mkClosures w (this s))) defaultData).
Proof.
  intros H Hq Hr Hw. cbv zeta.
  assert (attachedWindow s = Some wd) as Hm.
  { unfold attachedWindow. destruct (m_window s) as [j|]; simpl in *; [|discriminate].
    destruct (widgets s !! j) eqn:E; [|discriminate]. congruence. }
  pose proof (extendsContentIntoTitleBar_coherent s false H) as [H1 _]. cbv zeta in H1.
  rewrite (retract_state s wd H Hm) in *.
  set (s1 := with_m_window None _) in *.
  assert (attachedWindow s1 = None) as Hm1 by reflexivity.
  assert (resolved s1 = Some w) as Hr1 by exact Hr.
  assert (widgets s1 !! w = Some wd) as Hw1 by exact Hw.
  rewrite (extend_state s1 w wd H1 Hm1 Hr1 Hw1).
  assert (attachedWindow (attachResult s1 w wd) = Some (nativeWindow wd)) as Ha
      by (apply attachResult_window; exact Hw1).
  split; [exact Ha|].
  unfold theRecord, recordOf.
  change (attachedWindow (with_trace ?t ?x)) with (attachedWindow x). rewrite Ha.
  unfold attachResult. subst s1. simpl. rewrite lookup_delete_eq. simpl.
  now rewrite lookup_insert_eq.
Qed.

(** X9. Detaching forgets what was configured for the window.  After
    [extendsContentIntoTitleBar(false)] followed by
    [extendsContentIntoTitleBar(true)] on a helper bound to the window its
    parent resolves to, the window has a fresh ready record: no title-bar
    widget, no system buttons, no exclusions.  So no point is draggable and no
    point is on a system button until they are set again. *)
Theorem reattach_forgets (s : State) (w : WidgetId) (wd : QWidget) :
  coherent s -> QPointer_data (widgets s) (m_window s) = Some w ->
  resolved s = Some w -> widgets s !! w = Some wd ->
  let s2 := snd (extendsContentIntoTitleBar true (snd (extendsContentIntoTitleBar false s))) in
  contentExtended s2 = true
  /\ fst (getTitleBarWidget s2) = None
  /\ excludedWidgets s2 = [] /\ excludedRects s2 = []
  /\ (forall p, fst (isInTitleBarDraggableArea p s2) = false)
  /\ (forall p before, fst (isInSystemButtons p (Some before) s2) = (false, Some Unknown)).
Proof.
  intros H Hq Hr Hw. destruct (reattach_record s w wd H Hq Hr Hw) as [Ha Hrec].
  cbv zeta in *.
  set (s2 := snd (extendsContentIntoTitleBar true _)) in *.
  split; [|split; [|split; [|split; [|split]]]].
  - rewrite contentExtended_eq. rewrite (recordOf_theRecord s2 _ Ha), Hrec. reflexivity.
  - rewrite getTitleBarWidget_fst, Hrec. reflexivity.
  - unfold excludedWidgets. now rewrite Hrec.
  - unfold excludedRects. now rewrite Hrec.
  - intros p. apply draggable_without_title_bar. right. left.
    unfold titleBarOf. now rewrite Hrec.
  - intros p before. rewrite (isInSystemButtons_attached s2 p before _ Ha), Hrec.
    reflexivity.
Qed.

Lemma reattach_forgets_witness :
  fst (isInTitleBarDraggableArea (mkPoint 10 15)
         (snd (extendsContentIntoTitleBar true
                 (snd (extendsContentIntoTitleBar false Examples.titleBarWindow))))) = false.
Proof.
  apply (reattach_forgets Examples.titleBarWindow 1%positive
           (nativeWindow Examples.titleBarTopLevel) coherent_titleBarWindow);
    vm_compute; reflexivity.
Defined.

(** ** The title-bar widget: set, then get *)

Lemma setTitleBarWidget_state s w0 i :
  attachedWindow s = Some w0 ->
  setTitleBarWidget (Some i) s
  = if decide (QPointer_data (widgets s) (titleBarWidget (recordAt s (winId w0))) = Some i)
    then (tt, with_data (<[winId w0 := recordAt s (winId w0)]>
                           (g_framelessWidgetsHelperData s)) s)
    else (tt, with_trace (trace s ++ delivered "titleBarWidgetChanged" (helperInstances w0))
                (with_data (<[winId w0 := set_titleBarWidget (Some i) (recordAt s (winId w0))]>
                              (g_framelessWidgetsHelperData s)) s)).
Proof.
  intros Hm. unfold setTitleBarWidget, delivered.
  mutate Hm T; try (destruct (decide _) as [E|E]); simpl;
    first
      [ rewrite (insert_id _ _ _ T); now destruct s
      | unfold mbind, M_bind, get, skip, mret, M_ret; simpl; rewrite ?Hm;
        rewrite ?(alter_as_insert _ _ _ _ T), ?alter_insert_eq, ?insert_insert_eq;
        destruct (helperInstances w0) as [|j l]; cbv beta iota;
        [ simpl; rewrite app_nil_r; reflexivity
        | rewrite for_each_invokeMethod; reflexivity ] ].
Qed.

(** X11. The title-bar widget that was set is the one that is read, and the
    change is announced once.  On a bound helper, after
    [setTitleBarWidget(widget)] with a live widget, [getTitleBarWidget]
    returns that widget; "titleBarWidgetChanged" goes to every helper instance
    of the window exactly when the widget was not the title bar already;
    the system-button slots and exclusion lists are kept; and repeating the
    call changes nothing. *)
Theorem setTitleBarWidget_round_trip (s : State) (w0 : QWidget) (i : WidgetId) :
  attachedWindow s = Some w0 -> is_Some (widgets s !! i) ->
  let s' := snd (setTitleBarWidget (Some i) s) in
  fst (getTitleBarWidget s') = Some i
  /\ trace s'
     = trace s ++ (if decide (fst (getTitleBarWidget s) = Some i) then []
                   else delivered "titleBarWidgetChanged" (helperInstances w0))
  /\ slots (theRecord s') = slots (theRecord s)
  /\ excludedWidgets s' = excludedWidgets s /\ excludedRects s' = excludedRects s
  /\ setTitleBarWidget (Some i) s' = (tt, s').
Proof.
  intros Hm [w Hw]. cbv zeta. unfold excludedWidgets, excludedRects.
  rewrite !getTitleBarWidget_fst, (recordAt_theRecord s w0 Hm).
  rewrite (setTitleBarWidget_state s w0 i Hm).
  destruct (decide (QPointer_data (widgets s) (titleBarWidget (recordAt s (winId w0))) = Some i))
    as [E|E]; cbn [snd].
  - set (s1 := with_data _ s).
    assert (theRecord s1 = recordAt s (winId w0)) as Hrec
        by (apply (theRecord_with_data s w0 _ _ Hm)).
    rewrite Hrec.
    split; [exact E|]. split; [simpl; now rewrite app_nil_r|].
    split; [reflexivity|]. split; [reflexivity|]. split; [reflexivity|].
    assert (attachedWindow s1 = Some w0) as Hm1 by exact Hm.
    rewrite (setTitleBarWidget_state s1 w0 i Hm1).
    assert (recordAt s1 (winId w0) = recordAt s (winId w0)) as ->.
    { unfold recordAt at 1. subst s1. simpl. now rewrite lookup_insert_eq. }
    rewrite decide_True by exact E.
    subst s1. simpl. now rewrite insert_insert_eq.
  - set (s1 := with_trace _ _).
    assert (theRecord s1 = set_titleBarWidget (Some i) (recordAt s (winId w0))) as Hrec
        by (apply (theRecord_with_data s w0 _ _ Hm)).
    rewrite Hrec.
    split; [simpl; now rewrite Hw|]. split; [reflexivity|].
    split; [reflexivity|]. split; [reflexivity|]. split; [reflexivity|].
    assert (attachedWindow s1 = Some w0) as Hm1 by exact Hm.
    rewrite (setTitleBarWidget_state s1 w0 i Hm1).
    assert (recordAt s1 (winId w0) = set_titleBarWidget (Some i) (recordAt s (winId w0))) as Hr1.
    { unfold recordAt at 1. subst s1. simpl. now rewrite lookup_insert_eq. }
    rewrite Hr1. simpl. rewrite Hw. rewrite decide_True by reflexivity.
    subst s1. simpl. now rewrite insert_insert_eq.
Qed.

Lemma setTitleBarWidget_round_trip_witness :
  fst (getTitleBarWidget (snd (setTitleBarWidget (Some 3%positive) Examples.titleBarWindow)))
  = Some 3%positive.
Proof.
  apply (setTitleBarWidget_round_trip Examples.titleBarWindow
           (nativeWindow Examples.titleBarTopLevel) 3%positive).
  - vm_compute. reflexivity.
  - vm_compute. eauto.
Defined.

(** ** The repaint forcer on widgets that may be resized *)

Lemma resized_back (ws : Store) (i : WidgetId) (w : QWidget) (p1 p2 : QPoint) (f1 f2 : QSize) :
  ws !! i = Some w ->
  alter (set_pos (pos w)) i
    (alter (set_pos p2) i
       (alter (set_pos p1) i
          (alter (fun w1 => set_size (boundedSize w1 (size w)) w1) i
             (alter (fun w1 => set_size (boundedSize w1 f2) w1) i
                (alter (fun w1 => set_size (boundedSize w1 f1) w1) i ws)))))
  = <[i := set_size (boundedSize w (size w)) w]> ws.
Proof.
  intros Hw. apply map_eq. intros j. destruct (decide (i = j)) as [<-|Hne].
  - rewrite !lookup_alter_eq, lookup_insert_eq, Hw. simpl. destruct w. reflexivity.
  - now rewrite !lookup_alter_ne, lookup_insert_ne.
Qed.

Lemma bind_run {A B} (m : M A) (f : A -> M B) (s : State) :
  (m ≫= f) s = f (fst (m s)) (snd (m s)).
Proof. unfold mbind, M_bind. now destruct (m s). Qed.

Lemma QWidget_update_run i T W s :
  QWidget_update i (with_trace T (with_widgets W s))
  = (tt, with_trace (T ++ [Update i]) (with_widgets W s)).
Proof. now destruct s. Qed.

Lemma QWidget_resize_run i sz T W s :
  QWidget_resize i sz (with_trace T (with_widgets W s))
  = (tt, with_trace (T ++ [Resize i sz])
           (with_widgets (alter (fun w => set_size (boundedSize w sz) w) i W) s)).
Proof. now destruct s. Qed.

Lemma QWidget_move_run i p T W s :
  QWidget_move i p (with_trace T (with_widgets W s))
  = (tt, with_trace (T ++ [Move i p]) (with_widgets (alter (set_pos p) i W) s)).
Proof. now destruct s. Qed.

Lemma call_run e T W s :
  call e (with_trace T (with_widgets W s)) = (tt, with_trace (T ++ [e]) (with_widgets W s)).
Proof. now destruct s. Qed.

Lemma widgets_run T W s : widgets (with_trace T (with_widgets W s)) = W.
Proof. reflexivity. Qed.

Lemma Q_OS_WINDOWS_run T W s : Q_OS_WINDOWS (with_trace T (with_widgets W s)) = Q_OS_WINDOWS s.
Proof. reflexivity. Qed.

Lemma state_run s : s = with_trace (trace s) (with_widgets (widgets s) s).
Proof. now destruct s. Qed.

Lemma bind_eq {A B} (m : M A) (f : A -> M B) (s s' : State) (a : A) :
  m s = (a, s') -> (m ≫= f) s = f a s'.
Proof. unfold mbind, M_bind. now intros ->. Qed.

Lemma gets_run {A} (f : State -> A) s : gets f s = (f s, s).
Proof. reflexivity. Qed.

Lemma get_run s : get s = (s, s).
Proof. reflexivity. Qed.

Lemma skip_run s : skip s = (tt, s).
Proof. reflexivity. Qed.

Ltac bind_with lem := erewrite bind_eq by (apply lem); cbv beta.

Lemma stretch_run i w T W s :
  W !! i = Some w ->
  (originalSize ← gets (fun s => size (default w (widgets s !! i)));
   QWidget_resize i (QSize_shrunkBy originalSize margins) ;;
   QWidget_resize i (QSize_grownBy originalSize margins) ;;
   QWidget_resize i originalSize) (with_trace T (with_widgets W s))
  = (tt, with_trace (T ++ stretches i w)
           (with_widgets
              (alter (fun w1 => set_size (boundedSize w1 (size w)) w1) i
                 (alter (fun w1 => set_size (boundedSize w1 (QSize_grownBy (size w) margins)) w1) i
                    (alter (fun w1 => set_size
                                        (boundedSize w1 (QSize_shrunkBy (size w) margins)) w1)
                       i W))) s)).
Proof.
  intros Hw. bind_with @gets_run. rewrite widgets_run, Hw. cbn [default from_option].
  bind_with QWidget_resize_run. bind_with QWidget_resize_run.
  rewrite QWidget_resize_run. unfold stretches. now rewrite <- !app_assoc.
Qed.

Lemma nudge_run i w0 w T W s :
  W !! i = Some w ->
  (originalPosition ← gets (fun s => pos (default w0 (widgets s !! i)));
   QWidget_move i (QPoint_sub originalPosition offset) ;;
   QWidget_move i (QPoint_add originalPosition offset) ;;
   QWidget_move i originalPosition) (with_trace T (with_widgets W s))
  = (tt, with_trace (T ++ nudges i w)
           (with_widgets
              (alter (set_pos (pos w)) i
                 (alter (set_pos (QPoint_add (pos w) offset)) i
                    (alter (set_pos (QPoint_sub (pos w) offset)) i W))) s)).
Proof.
  intros Hw. bind_with @gets_run. rewrite widgets_run, Hw. cbn [default from_option].
  bind_with QWidget_move_run. bind_with QWidget_move_run.
  rewrite QWidget_move_run. unfold nudges. now rewrite <- !app_assoc.
Qed.

Lemma frameMargins_run i w T W s :
  (s0 ← get;
   (if Q_OS_WINDOWS s0 then
      if isWindow w then
        if hasWindowHandle w then call (updateInternalWindowFrameMargins i) else skip
      else skip
    else skip) ;;
   QWidget_update i) (with_trace T (with_widgets W s))
  = (tt, with_trace (T ++ frameMargins s i w ++ [Update i]) (with_widgets W s)).
Proof.
  bind_with get_run. rewrite Q_OS_WINDOWS_run. unfold frameMargins.
  destruct (Q_OS_WINDOWS s); cbn [andb];
    [destruct (isWindow w); cbn [andb]; [destruct (hasWindowHandle w)|]|];
    first [bind_with call_run | bind_with skip_run];
    rewrite QWidget_update_run; rewrite <- ?app_assoc; reflexivity.
Qed.

Lemma perturb_run i w T W s :
  W !! i = Some w ->
  (s0 ← get;
   (if negb (isWidgetFixedSize (widgets s0) (Some i)) then
      originalSize ← gets (fun s => size (default w (widgets s !! i)));
      QWidget_resize i (QSize_shrunkBy originalSize margins) ;;
      QWidget_resize i (QSize_grownBy originalSize margins) ;;
      QWidget_resize i originalSize
    else skip) ;;
   originalPosition ← gets (fun s => pos (default w (widgets s !! i)));
   QWidget_move i (QPoint_sub originalPosition offset) ;;
   QWidget_move i (QPoint_add originalPosition offset) ;;
   QWidget_move i originalPosition) (with_trace T (with_widgets W s))
  = (tt, if isWidgetFixedSize W (Some i)
         then with_trace (T ++ nudges i w) (with_widgets W s)
         else with_trace (T ++ stretches i w ++ nudges i w)
                (with_widgets (<[i := set_size (boundedSize w (size w)) w]> W) s)).
Proof.
  intros Hw. bind_with get_run. rewrite widgets_run.
  destruct (isWidgetFixedSize W (Some i)); cbn [negb].
  - bind_with skip_run. rewrite (nudge_run i w w _ _ _ Hw).
    now rewrite (nudged_back W i w _ _ Hw).
  - erewrite bind_eq by (apply (stretch_run i w _ _ _ Hw)). cbv beta.
    assert (forall sz w1, pos (set_size sz w1) = pos w1) as Hpos by reflexivity.
    erewrite nudge_run by (rewrite !lookup_alter_eq, Hw; reflexivity).
    unfold nudges. cbv beta. rewrite !Hpos, (resized_back W i w _ _ _ _ Hw).
    now rewrite <- !app_assoc.
Qed.

Lemma forceWidgetRepaint_run i w T W s :
  W !! i = Some w ->
  forceWidgetRepaint (Some i) (with_trace T (with_widgets W s))
  = (tt,
     if settledWindow w
     then with_trace (T ++ [Update i] ++ frameMargins s i w ++ [Update i]) (with_widgets W s)
     else if isWidgetFixedSize W (Some i)
          then with_trace (T ++ [Update i] ++ nudges i w ++ frameMargins s i w ++ [Update i])
                 (with_widgets W s)
          else with_trace (T ++ [Update i] ++ stretches i w ++ nudges i w
                           ++ frameMargins s i w ++ [Update i])
                 (with_widgets (<[i := set_size (boundedSize w (size w)) w]> W) s)).
Proof.
  intros Hw. unfold forceWidgetRepaint.
  bind_with @gets_run. rewrite widgets_run, Hw. cbv beta iota.
  bind_with QWidget_update_run.
  unfold settledWindow. rewrite <- (negb_involutive (isWindow w && _)), negb_andb.
  destruct (negb (isWindow w) || negb (testFlags (windowState w) _)) eqn:Hgo;
    cbn [negb].
  - erewrite bind_eq by (apply (perturb_run i w _ _ _ Hw)). cbv beta.
    destruct (isWidgetFixedSize W (Some i)); rewrite frameMargins_run;
      now rewrite <- !app_assoc.
  - bind_with skip_run. rewrite frameMargins_run. now rewrite <- !app_assoc.
Qed.

Lemma forceWidgetRepaint_snd s i w :
  widgets s !! i = Some w ->
  snd (forceWidgetRepaint (Some i) s)
  = if settledWindow w
    then with_trace (trace s ++ [Update i] ++ frameMargins s i w ++ [Update i]) s
    else if isWidgetFixedSize (widgets s) (Some i)
         then with_trace (trace s ++ [Update i] ++ nudges i w ++ frameMargins s i w
                          ++ [Update i]) s
         else with_trace (trace s ++ [Update i] ++ stretches i w ++ nudges i w
                          ++ frameMargins s i w ++ [Update i])
                (with_widgets (<[i := set_size (boundedSize w (size w)) w]> (widgets s)) s).
Proof.
  intros Hw. rewrite (state_run s) at 1.
  rewrite (forceWidgetRepaint_run i w _ _ _ Hw). cbn [snd].
  destruct (settledWindow w); [now rewrite with_widgets_same|].
  destruct (isWidgetFixedSize (widgets s) (Some i)); [now rewrite with_widgets_same|].
  reflexivity.
Qed.

Lemma boundedSize_within (w : QWidget) (sz : QSize) :
  withinBounds w sz -> boundedSize w sz = sz.
Proof.
  intros [[H1 H2] [H3 H4]]. unfold boundedSize. destruct sz as [a b]. simpl in *.
  f_equal; lia.
Qed.

Lemma set_size_same (w : QWidget) : set_size (size w) w = w.
Proof. now destruct w. Qed.

Lemma isWidgetFixedSize_resized (ws : Store) (i j : WidgetId) (w : QWidget) (sz : QSize) :
  ws !! i = Some w ->
  isWidgetFixedSize (<[i := set_size sz w]> ws) (Some j) = isWidgetFixedSize ws (Some j).
Proof.
  intros Hw. unfold isWidgetFixedSize, deref.
  destruct (decide (i = j)) as [<-|Hne].
  - rewrite lookup_insert_eq, Hw. reflexivity.
  - now rewrite lookup_insert_ne.
Qed.

(** X12. The repaint forcer puts everything back.  Whatever the widget, only
    that widget is touched and its position is the one it had; its size is
    the one it had whenever that size lies within the widget's minimum and
    maximum size (otherwise the last [resize] clamps it); whether any widget
    counts as fixed-size is unchanged, and so is [isWindowFixedSize]; the
    window table and the binding are not touched.  A widget that is neither
    fixed-size nor a settled top-level window gets three resizes (shrunk by
    the margins, grown by them, original) followed by three moves, between
    the two [update] calls. *)
Theorem forceWidgetRepaint_restores (s : State) (i : WidgetId) (w : QWidget) :
  widgets s !! i = Some w ->
  let s' := snd (forceWidgetRepaint (Some i) s) in
  (forall j, j <> i -> widgets s' !! j = widgets s !! j)
  /\ (exists w', widgets s' !! i = Some w' /\ pos w' = pos w
                  /\ (withinBounds w (size w) -> w' = w))
  /\ (forall j, isWidgetFixedSize (widgets s') (Some j)
                = isWidgetFixedSize (widgets s) (Some j))
  /\ isWindowFixedSize s' = isWindowFixedSize s
  /\ g_framelessWidgetsHelperData s' = g_framelessWidgetsHelperData s
  /\ m_window s' = m_window s
  /\ (settledWindow w = false -> isWidgetFixedSize (widgets s) (Some i) = false ->
      trace s' = trace s ++ [Update i] ++ stretches i w ++ nudges i w
                 ++ frameMargins s i w ++ [Update i]).
Proof.
  intros Hw. cbv zeta. rewrite (forceWidgetRepaint_snd s i w Hw).
  destruct (settledWindow w) eqn:Hs;
    [|destruct (isWidgetFixedSize (widgets s) (Some i)) eqn:Hf]; cbn.
  - repeat split; try reflexivity; try discriminate. exists w. auto.
  - repeat split; try reflexivity; try discriminate. exists w. auto.
  - split; [intros j Hne; now rewrite lookup_insert_ne|].
    split.
    { exists (set_size (boundedSize w (size w)) w). rewrite lookup_insert_eq.
      split; [reflexivity|]. split; [reflexivity|].
      intros Hb. now rewrite (boundedSize_within w _ Hb), set_size_same. }
    split; [intros j; now apply isWidgetFixedSize_resized|].
    split.
    { unfold isWindowFixedSize. cbn.
      assert (QPointer_data (<[i:=set_size (boundedSize w (size w)) w]> (widgets s)) (m_window s)
              = QPointer_data (widgets s) (m_window s)) as ->.
      { destruct (m_window s) as [m|]; [|reflexivity]. simpl.
        destruct (decide (i = m)) as [<-|Hne].
        - now rewrite lookup_insert_eq, Hw.
        - now rewrite lookup_insert_ne. }
      destruct (QPointer_data (widgets s) (m_window s)); [|reflexivity].
      now apply isWidgetFixedSize_resized. }
    repeat split; reflexivity.
Qed.

Lemma forceWidgetRepaint_restores_witness :
  widgets (snd (forceWidgetRepaint (Some 2%positive) Examples.titleBarWindow)) !! 2%positive
  = Some (Examples.child 1%positive 0 0 400 30).
Proof.
  destruct (forceWidgetRepaint_restores Examples.titleBarWindow 2%positive
              (Examples.child 1%positive 0 0 400 30)) as (_ & (w' & H1 & _ & H3) & _).
  - vm_compute. reflexivity.
  - transitivity (Some w'); [exact H1|]. f_equal. apply H3.
    unfold withinBounds. simpl. lia.
Defined.

Lemma exclusion_round_trip_witness :
  excludedRects
    (snd (setHitTestVisible_rect (QRect_xywh 0 0 10 10) false
            (snd (setHitTestVisible_rect (QRect_xywh 0 0 10 10) true Examples.titleBarWindow))))
  = excludedRects Examples.titleBarWindow.
Proof.
  destruct (exclusion_round_trip Examples.titleBarWindow
              (nativeWindow Examples.titleBarTopLevel) 3%positive (QRect_xywh 0 0 10 10))
    as (_ & _ & H & _).
  - vm_compute. reflexivity.
  - apply H; reflexivity.
Defined.

(** ** Mapping a widget into the window *)

Lemma mapTo_self (ws : Store) (m : WidgetId) (p : QPoint) : mapTo ws m m p = p.
Proof. unfold mapTo. simpl. now destruct (decide (m = m)). Qed.

(** X13. [mapWidgetGeometryToScene] gives the empty default rectangle for a
    null or dead widget and on an unbound helper, so such a widget removes
    nothing from a region.  On a bound helper the rectangle of a live widget
    has the widget's size; for the bound window itself it is the client
    rectangle at the origin, and for a widget placed directly in the window it
    is the widget's geometry. *)
Theorem mapWidgetGeometryToScene_cases (s : State) (i : WidgetId) (w : QWidget) :
  mapWidgetGeometryToScene s None = nullRect
  /\ QRegion_of nullRect = []
  /\ (widgets s !! i = None -> mapWidgetGeometryToScene s (Some i) = nullRect)
  /\ (QPointer_data (widgets s) (m_window s) = None ->
      mapWidgetGeometryToScene s (Some i) = nullRect)
  /\ (forall m, QPointer_data (widgets s) (m_window s) = Some m -> widgets s !! i = Some w ->
        x2 (mapWidgetGeometryToScene s (Some i)) - x1 (mapWidgetGeometryToScene s (Some i)) + 1
        = wd (size w)
        /\ y2 (mapWidgetGeometryToScene s (Some i)) - y1 (mapWidgetGeometryToScene s (Some i)) + 1
           = ht (size w)
        /\ (i = m -> mapWidgetGeometryToScene s (Some i) = QRect_of (mkPoint 0 0) (size w))
        /\ (parentWidget w = Some m -> i <> m ->
            mapWidgetGeometryToScene s (Some i) = geometry w)).
Proof.
  unfold mapWidgetGeometryToScene.
  split; [reflexivity|]. split; [reflexivity|].
  split; [now intros ->|].
  split; [intros ->; now destruct (widgets s !! i)|].
  intros m Hm Hw. rewrite Hw, Hm. unfold QRect_of. simpl.
  split; [lia|]. split; [lia|]. split.
  - intros ->. now rewrite mapTo_self.
  - intros Hp Hne. now rewrite (mapTo_directChild _ _ _ _ Hw Hp Hne).
Qed.

Lemma mapWidgetGeometryToScene_cases_witness :
  mapWidgetGeometryToScene flatWindow (Some 3%positive) = QRect_xywh 370 0 30 30.
Proof.
  destruct (mapWidgetGeometryToScene_cases flatWindow 3%positive
              (Examples.child 1%positive 370 0 30 30)) as (_ & _ & _ & _ & H).
  destruct (H 1%positive) as (_ & _ & _ & H4).
  - vm_compute. reflexivity.
  - vm_compute. reflexivity.
  - apply H4; [reflexivity | discriminate].
Defined.

(** ** What attach touches *)



(** ** The settle delay *)

(** X15. The settle timer of [attach] uses the wait time that was set.
    [setReadyWaitTime] changes nothing but the wait time, which
    [readyWaitTime] then reports, and an [attach] that registers the window
    afterwards schedules its single-shot callback with exactly that delay. *)
Theorem setReadyWaitTime_attach (s : State) (time : N) (w : WidgetId) (wd : QWidget) :
  resolved s = Some w -> widgets s !! w = Some wd ->
  QPointer_data (widgets s) (m_window s) <> Some w ->
  ready (recordAt s (winId wd)) = false ->
  readyWaitTime (snd (setReadyWaitTime time s)) = time
  /\ snd (setReadyWaitTime time s) = with_m_qpaWaitTime time s
  /\ trace (snd (attach (snd (setReadyWaitTime time s))))
     = trace s ++ [addWindow (winId wd) (mkClosures w (this s));
                   singleShot time (AttachSettled (this s))].
Proof.
  intros Hr Hw Hm Hready.
  assert (snd (setReadyWaitTime time s) = with_m_qpaWaitTime time s) as Hs.
  { unfold setReadyWaitTime, mbind, M_bind, get, modify.
    destruct (decide (m_qpaWaitTime s = time)) as [<-|]; [|reflexivity].
    now destruct s. }
  rewrite Hs. split; [reflexivity|]. split; [reflexivity|].
  rewrite (attach_eq (with_m_qpaWaitTime time s) w wd Hr Hw Hm). cbn [snd].
  unfold attachResult.
  change (g_framelessWidgetsHelperData (with_m_qpaWaitTime time s))
    with (g_framelessWidgetsHelperData s).
  unfold recordAt in Hready. rewrite Hready. reflexivity.
Qed.

Lemma setReadyWaitTime_attach_witness :
  trace (snd (attach (snd (setReadyWaitTime 250%N (Examples.fresh Examples.titleBarStore)))))
  = [addWindow 100%N (mkClosures 1%positive 9%positive);
     singleShot 250%N (AttachSettled 9%positive)].
Proof.
  apply (setReadyWaitTime_attach (Examples.fresh Examples.titleBarStore) 250%N 1%positive
           Examples.titleBarTopLevel); try reflexivity.
  vm_compute. discriminate.
Defined.

(** ** A helper that is not bound *)

(** X16. What is configured on a helper that is bound to no window is lost.
    While [m_window] is null or dead, [setTitleBarWidget], the three
    overloads of [setHitTestVisible], [setSystemButton],
    [setSystemButtonState] and [setProperty] return without changing
    anything: no record is written, no signal is sent, no event is emulated.
    An [attach] that follows therefore starts from the same state as one
    without those calls. *)
Theorem unbound_settings_dropped (s : State) (widget : option WidgetId)
    (object : option QObjectRef) (rect : QRect) (visible : bool)
    (role : SystemButtonType) (state : ButtonState) (name : option string)
    (value : QVariant) :
  attachedWindow s = None ->
  setTitleBarWidget widget s = (tt, s)
  /\ setHitTestVisible widget visible s = (tt, s)
  /\ setHitTestVisible_rect rect visible s = (tt, s)
  /\ setHitTestVisible_object object visible s = (tt, s)
  /\ setSystemButton widget role s = (tt, s)
  /\ setSystemButtonState role state s = (tt, s)
  /\ setProperty name value s = (tt, s)
  /\ (setTitleBarWidget widget ;; setSystemButton widget role ;;
      setHitTestVisible widget visible ;; attach) s = attach s.
Proof.
  intros Hm.
  assert (getWindowDataMutable s = (None, s)) as Hmut.
  { rewrite getWindowDataMutable_eq, (getWindowData_unattached s Hm), Hm. reflexivity. }
  assert (setTitleBarWidget widget s = (tt, s)) as H1.
  { destruct widget as [i|]; [|reflexivity].
    unfold setTitleBarWidget, mbind, M_bind. now rewrite Hmut. }
  assert (setHitTestVisible widget visible s = (tt, s)) as H2
      by now apply setHitTestVisible_unattached.
  assert (setSystemButton widget role s = (tt, s)) as H5.
  { destruct widget as [i|]; [|reflexivity]. unfold setSystemButton.
    destruct (decide _); [reflexivity|]. unfold mbind, M_bind. now rewrite Hmut. }
  split; [exact H1|]. split; [exact H2|].
  split; [now apply setHitTestVisible_rect_unattached|].
  split.
  { destruct object as [[i|]|]; try reflexivity.
    now apply setHitTestVisible_unattached. }
  split; [exact H5|].
  split.
  { unfold setSystemButtonState. destruct (decide _); [reflexivity|].
    unfold mbind, M_bind. now rewrite (getWindowData_unattached s Hm). }
  split.
  { destruct name as [n|]; [|reflexivity]. unfold setProperty.
    destruct (decide _); [reflexivity|]. destruct (negb _); [reflexivity|].
    unfold mbind, M_bind, get. cbv beta iota.
    now rewrite (QPointer_data_deref _ _ Hm). }
  unfold mbind at 1. unfold M_bind at 1. rewrite H1.
  unfold mbind at 1. unfold M_bind at 1. rewrite H5.
  unfold mbind at 1. unfold M_bind at 1. rewrite H2. reflexivity.
Qed.

Lemma unbound_settings_dropped_witness :
  fst (getTitleBarWidget
         (snd ((setTitleBarWidget (Some 2%positive) ;; setSystemButton (Some 2%positive) Close ;;
                setHitTestVisible (Some 2%positive) true ;; attach)
                 (Examples.fresh Examples.titleBarStore)))) = None.
Proof.
  destruct (unbound_settings_dropped (Examples.fresh Examples.titleBarStore)
              (Some 2%positive) None (QRect_xywh 0 0 1 1) true Close Hovered None None)
    as (_ & _ & _ & _ & _ & _ & _ & H).
  - reflexivity.
  - rewrite H. vm_compute. reflexivity.
Defined.

(** ** What the queries change *)

